(** * A shallow embedding of the wallet ledger (package [wallet], package [types])

    The Go service keeps three slices of pointers ([accounts], [payments],
    [favorites]) and a counter.  Every element of a slice is a distinct heap
    object created by the service itself, so a pointer into a slice is modelled
    by the index of its slot and a mutation through the pointer by an update of
    that slot.  A slice is [None] when it is the nil slice and [Some l]
    otherwise, because [Import] tests the slices against nil.

    [int64] values are integers of [Z]; every arithmetic operation of the
    source is followed by its two's complement wrap-around [wrap64].

    [uuid.New().String()] is an input of the model: an operation that draws an
    identifier receives it as an argument. *)

From Stdlib Require Import ZArith List String Ascii Bool Lia Arith.
Import ListNotations.
Local Open Scope string_scope.
Local Open Scope list_scope.
Local Open Scope Z_scope.

(** ** Machine integers *)

Definition min_int64 : Z := - 2 ^ 63.
Definition max_int64 : Z := 2 ^ 63 - 1.

Definition wrap64 (z : Z) : Z := (z + 2 ^ 63) mod 2 ^ 64 - 2 ^ 63.

Definition in_int64 (z : Z) : Prop := min_int64 <= z <= max_int64.

(** ** package types *)

Definition Money := Z.
Definition PaymentCategory := string.
Definition PaymentStatus := string.
Definition Phone := string.

Definition PaymentStatusOk : PaymentStatus := "OK".
Definition PaymentStatusFail : PaymentStatus := "FAIL".
Definition PaymentStatusInProgress : PaymentStatus := "INPROGRESS".

Record Payment := mkPayment {
  pay_ID : string;
  pay_AccountID : Z;
  pay_Amount : Money;
  pay_Category : PaymentCategory;
  pay_Status : PaymentStatus
}.

Record Account := mkAccount {
  acc_ID : Z;
  acc_Phone : Phone;
  acc_Balance : Money
}.

Record Favorite := mkFavorite {
  fav_ID : string;
  fav_AccountID : Z;
  fav_Name : string;
  fav_Amount : Money;
  fav_Category : PaymentCategory
}.

(** ** Slices *)

Definition slice (A : Type) := option (list A).

Definition elems {A} (s : slice A) : list A :=
  match s with Some l => l | None => [] end.

Definition append {A} (s : slice A) (x : A) : slice A := Some (elems s ++ [x]).

Definition is_nil {A} (s : slice A) : bool :=
  match s with None => true | Some _ => false end.

(** [upd i f l] is the mutation, through the pointer stored in slot [i], of the
    object it points to. *)
Fixpoint upd {A} (i : nat) (f : A -> A) (l : list A) : list A :=
  match l, i with
  | [], _ => []
  | a :: t, O => f a :: t
  | a :: t, S j => a :: upd j f t
  end.

Definition upd_slice {A} (i : nat) (f : A -> A) (s : slice A) : slice A :=
  match s with Some l => Some (upd i f l) | None => None end.

(** The loop [for _, x := range l { if p x { return x } }]. *)
Fixpoint first_index {A} (p : A -> bool) (l : list A) : option nat :=
  match l with
  | [] => None
  | a :: t => if p a then Some O else option_map S (first_index p t)
  end.

(** The loop [for _, x := range l { if p x { found = x } }], which does not
    stop at the first match: [i] is the index of the next element and [found]
    the match seen so far. *)
Fixpoint scan_last {A} (p : A -> bool) (l : list A) (i : nat) (found : option nat)
  : option nat :=
  match l with
  | [] => found
  | a :: t => scan_last p t (S i) (if p a then Some i else found)
  end.

Definition last_index {A} (p : A -> bool) (l : list A) : option nat :=
  scan_last p l O None.

(** ** package wallet *)

Inductive error :=
| ErrPhoneRegistered
| ErrFavoriteRegistered
| ErrAmountMustBePositive
| ErrAccountNotFound
| ErrNotEnoughBalance
| ErrPaymentNotFound
| ErrFavoriteNotFound
| ErrMinRecords.

Inductive result (A : Type) :=
| Ok (a : A)
| Err (e : error).
Arguments Ok {A} a.
Arguments Err {A} e.

Record Service := mkService {
  nextAccountID : Z;
  accounts : slice Account;
  payments : slice Payment;
  favorites : slice Favorite
}.

(** The zero value [Service{}] (written [&Service{}] in the tests). *)
Definition zero_Service : Service := mkService 0 None None None.

Definition set_accounts (s : Service) (a : slice Account) : Service :=
  mkService (nextAccountID s) a (payments s) (favorites s).
Definition set_payments (s : Service) (p : slice Payment) : Service :=
  mkService (nextAccountID s) (accounts s) p (favorites s).
Definition set_favorites (s : Service) (f : slice Favorite) : Service :=
  mkService (nextAccountID s) (accounts s) (payments s) f.
Definition set_nextAccountID (s : Service) (n : Z) : Service :=
  mkService n (accounts s) (payments s) (favorites s).

Definition set_Balance (b : Money) (a : Account) : Account :=
  mkAccount (acc_ID a) (acc_Phone a) b.
Definition add_Balance (m : Money) (a : Account) : Account :=
  set_Balance (wrap64 (acc_Balance a + m)) a.
Definition sub_Balance (m : Money) (a : Account) : Account :=
  set_Balance (wrap64 (acc_Balance a - m)) a.
Definition set_Status (st : PaymentStatus) (p : Payment) : Payment :=
  mkPayment (pay_ID p) (pay_AccountID p) (pay_Amount p) (pay_Category p) st.

Definition has_acc_ID (accountID : Z) (a : Account) : bool := acc_ID a =? accountID.
Definition has_pay_ID (paymentID : string) (p : Payment) : bool :=
  String.eqb (pay_ID p) paymentID.
Definition has_fav_ID (favoriteID : string) (f : Favorite) : bool :=
  String.eqb (fav_ID f) favoriteID.

(** [FindAccountByID]: the pointer it returns is the slot index. *)
Definition FindAccountByID (s : Service) (accountID : Z) : result nat :=
  match first_index (has_acc_ID accountID) (elems (accounts s)) with
  | Some i => Ok i
  | None => Err ErrAccountNotFound
  end.

Definition FindPaymentByID (s : Service) (paymentID : string) : result nat :=
  match first_index (has_pay_ID paymentID) (elems (payments s)) with
  | Some i => Ok i
  | None => Err ErrPaymentNotFound
  end.

Definition FindFavoriteByID (s : Service) (favoriteID : string) : result nat :=
  match first_index (has_fav_ID favoriteID) (elems (favorites s)) with
  | Some i => Ok i
  | None => Err ErrFavoriteNotFound
  end.

Definition RegisterAccount (s : Service) (phone : Phone) : Service * result Account :=
  if existsb (fun a => String.eqb (acc_Phone a) phone) (elems (accounts s))
  then (s, Err ErrPhoneRegistered)
  else
    let n := wrap64 (nextAccountID s + 1) in
    let account := mkAccount n phone 0 in
    (mkService n (append (accounts s) account) (payments s) (favorites s),
     Ok account).

Definition Deposit (s : Service) (accountID : Z) (amount : Money)
  : Service * option error :=
  if amount <=? 0 then (s, Some ErrAmountMustBePositive)
  else
    match last_index (has_acc_ID accountID) (elems (accounts s)) with
    | None => (s, Some ErrAccountNotFound)
    | Some i => (set_accounts s (upd_slice i (add_Balance amount) (accounts s)), None)
    end.

(** [Pay]; [uuid] is the value of [uuid.New().String()]. *)
Definition Pay (uuid : string) (s : Service) (accountID : Z) (amount : Money)
  (category : PaymentCategory) : Service * result Payment :=
  if amount <=? 0 then (s, Err ErrAmountMustBePositive)
  else
    match last_index (has_acc_ID accountID) (elems (accounts s)) with
    | None => (s, Err ErrAccountNotFound)
    | Some i =>
        match nth_error (elems (accounts s)) i with
        | None => (s, Err ErrAccountNotFound)
        | Some account =>
            if acc_Balance account <? amount then (s, Err ErrNotEnoughBalance)
            else
              let payment :=
                mkPayment uuid accountID amount category PaymentStatusInProgress in
              (mkService (nextAccountID s)
                 (upd_slice i (sub_Balance amount) (accounts s))
                 (append (payments s) payment)
                 (favorites s),
               Ok payment)
        end
    end.

Definition Reject (s : Service) (paymentID : string) : Service * option error :=
  match FindPaymentByID s paymentID with
  | Err e => (s, Some e)
  | Ok pi =>
      match nth_error (elems (payments s)) pi with
      | None => (s, Some ErrPaymentNotFound)
      | Some payment =>
          match FindAccountByID s (pay_AccountID payment) with
          | Err e => (s, Some e)
          | Ok ai =>
              (mkService (nextAccountID s)
                 (upd_slice ai (add_Balance (pay_Amount payment)) (accounts s))
                 (upd_slice pi (set_Status PaymentStatusFail) (payments s))
                 (favorites s),
               None)
          end
      end
  end.

Definition Repeat (uuid : string) (s : Service) (paymentID : string)
  : Service * result Payment :=
  match FindPaymentByID s paymentID with
  | Err e => (s, Err e)
  | Ok pi =>
      match nth_error (elems (payments s)) pi with
      | None => (s, Err ErrPaymentNotFound)
      | Some p => Pay uuid s (pay_AccountID p) (pay_Amount p) (pay_Category p)
      end
  end.

Definition FavoritePayment (uuid : string) (s : Service) (paymentID : string)
  (name : string) : Service * result Favorite :=
  if existsb (fun f => String.eqb (fav_Name f) name) (elems (favorites s))
  then (s, Err ErrFavoriteRegistered)
  else
    match FindPaymentByID s paymentID with
    | Err e => (s, Err e)
    | Ok pi =>
        match nth_error (elems (payments s)) pi with
        | None => (s, Err ErrPaymentNotFound)
        | Some payment =>
            let favorite :=
              mkFavorite uuid (pay_AccountID payment) name (pay_Amount payment)
                (pay_Category payment) in
            (set_favorites s (append (favorites s) favorite), Ok favorite)
        end
    end.

Definition PayFromFavorite (uuid : string) (s : Service) (favoriteID : string)
  : Service * result Payment :=
  match FindFavoriteByID s favoriteID with
  | Err e => (s, Err e)
  | Ok fi =>
      match nth_error (elems (favorites s)) fi with
      | None => (s, Err ErrFavoriteNotFound)
      | Some fw => Pay uuid s (fav_AccountID fw) (fav_Amount fw) (fav_Category fw)
      end
  end.

(** ** The service of [pkg/wallet/service.go]

    That file holds an earlier state of the same service: [RegisterAccount],
    [Deposit], [Pay], [Reject], [Repeat] and the three lookups are the ones
    above; [FavoritePayment] also increments the account counter, and
    [PayFromFavorite] goes through [Repeat] with the identifier of the
    favorite. *)
Module ServiceGo.

Definition FavoritePayment (uuid : string) (s : Service) (paymentID : string)
  (name : string) : Service * result Favorite :=
  if existsb (fun f => String.eqb (fav_Name f) name) (elems (favorites s))
  then (s, Err ErrFavoriteRegistered)
  else
    match FindPaymentByID s paymentID with
    | Err e => (s, Err e)
    | Ok pi =>
        match nth_error (elems (payments s)) pi with
        | None => (s, Err ErrPaymentNotFound)
        | Some payment =>
            let favorite :=
              mkFavorite uuid (pay_AccountID payment) name (pay_Amount payment)
                (pay_Category payment) in
            (mkService (wrap64 (nextAccountID s + 1)) (accounts s) (payments s)
               (append (favorites s) favorite),
             Ok favorite)
        end
    end.

Definition PayFromFavorite (uuid : string) (s : Service) (favoriteID : string)
  : Service * result Payment :=
  match FindFavoriteByID s favoriteID with
  | Err e => (s, Err e)
  | Ok fi =>
      match nth_error (elems (favorites s)) fi with
      | None => (s, Err ErrFavoriteNotFound)
      | Some fw => Repeat uuid s (fav_ID fw)
      end
  end.

End ServiceGo.

(** ** Text codec *)

Definition semicolon : ascii := ";"%char.
Definition pipe : ascii := "|"%char.
Definition newline : ascii := ascii_of_nat 10.
Definition minus : ascii := "-"%char.
Definition plus : ascii := "+"%char.

Definition str (c : ascii) : string := String c EmptyString.

(** [strings.Split(s, sep)] for a separator of one byte. *)
Fixpoint Split (sep : ascii) (s : string) : list string :=
  match s with
  | EmptyString => [EmptyString]
  | String c t =>
      if Ascii.eqb c sep then EmptyString :: Split sep t
      else match Split sep t with
           | [] => [str c]
           | h :: r => String c h :: r
           end
  end.

Definition digit_char (d : Z) : ascii := ascii_of_nat (48 + Z.to_nat d).

(** The value of a decimal digit, as [ch -= '0'; if ch > 9] reads it. *)
Definition digit_val (c : ascii) : option Z :=
  let n := Z.of_nat (nat_of_ascii c) in
  if (48 <=? n) && (n <=? 57) then Some (n - 48) else None.

(** The decimal digits of [n >= 0], least significant first, as the
    formatting loop of [strconv] produces them. *)
Fixpoint digits_le (fuel : nat) (n : Z) : list Z :=
  match fuel with
  | O => []
  | S f => if n <? 10 then [n] else (n mod 10) :: digits_le f (n / 10)
  end.

Definition string_of_digits (ds : list Z) : string :=
  fold_right (fun d acc => String (digit_char d) acc) EmptyString ds.

(** [fmt.Sprint] of an [int64]: [strconv.FormatInt(v, 10)]; twenty digits
    are enough for a 64-bit value. *)
Definition Itoa (v : Z) : string :=
  if v <? 0 then String minus (string_of_digits (rev (digits_le 20 (- v))))
  else string_of_digits (rev (digits_le 20 v)).

(** The loop of the fast path of [strconv.Atoi],
    [ch -= '0'; if ch > 9 { syntax error }; n = n*10 + int(ch)]: [None] at a
    byte that is not a digit. *)
Fixpoint parse_digits (s : string) (n : Z) : option Z :=
  match s with
  | EmptyString => Some n
  | String c t =>
      match digit_val c with
      | Some d => parse_digits t (n * 10 + d)
      | None => None
      end
  end.

Definition max_uint64 : Z := 2 ^ 64 - 1.

Inductive parsed :=
| Value (n : Z)
| RangeError
| SyntaxError.

(** The loop of [strconv.ParseUint] for base 10 and 64 bits.  It returns
    the range error at the first digit that passes [max_uint64], whatever
    follows. *)
Fixpoint ParseUint_loop (s : string) (n : Z) : parsed :=
  match s with
  | EmptyString => Value n
  | String c t =>
      match digit_val c with
      | None => SyntaxError
      | Some d =>
          if max_uint64 / 10 + 1 <=? n then RangeError
          else if max_uint64 <? n * 10 + d then RangeError
          else ParseUint_loop t (n * 10 + d)
      end
  end.

(** The value of [strconv.ParseInt(s, 10, 0)] for a 64-bit [int]: [0] on a
    syntax error, the nearest bound on a range error. *)
Definition ParseInt (s : string) : Z :=
  match s with
  | EmptyString => 0
  | String c t =>
      let neg := Ascii.eqb c minus in
      let body := if neg || Ascii.eqb c plus then t else s in
      match body with
      | EmptyString => 0
      | _ =>
          match ParseUint_loop body 0 with
          | SyntaxError => 0
          | RangeError => if neg then min_int64 else max_int64
          | Value un =>
              if neg then (if 2 ^ 63 <? un then min_int64 else - un)
              else (if 2 ^ 63 <=? un then max_int64 else un)
          end
      end
  end.

(** The value [strconv.Atoi] returns for a 64-bit [int], the error being
    dropped at every call ([v, _ := strconv.Atoi(..)]).  Strings of 1 to 18
    bytes take the fast path, the others go through [ParseInt]. *)
Definition Atoi (s : string) : Z :=
  let sLen := String.length s in
  if ((0 <? sLen) && (sLen <? 19))%nat then
    match s with
    | EmptyString => 0
    | String c t =>
        let body := if Ascii.eqb c minus || Ascii.eqb c plus then t else s in
        match body with
        | EmptyString => 0
        | _ =>
            match parse_digits body 0 with
            | None => 0
            | Some n => if Ascii.eqb c minus then - n else n
            end
        end
    end
  else ParseInt s.

Definition Account_ToString (ac : Account) : string :=
  (Itoa (acc_ID ac) ++ str semicolon ++ acc_Phone ac ++ str semicolon
    ++ Itoa (acc_Balance ac))%string.

Definition Payment_ToString (ac : Payment) : string :=
  (pay_ID ac ++ str semicolon ++ Itoa (pay_AccountID ac) ++ str semicolon
    ++ Itoa (pay_Amount ac) ++ str semicolon ++ pay_Category ac ++ str semicolon
    ++ pay_Status ac)%string.

Definition Favorite_ToString (ac : Favorite) : string :=
  (fav_ID ac ++ str semicolon ++ Itoa (fav_AccountID ac) ++ str semicolon
    ++ fav_Name ac ++ str semicolon ++ Itoa (fav_Amount ac) ++ str semicolon
    ++ fav_Category ac)%string.

(** ** Files

    A dump directory is the contents of its three files, [None] for a file
    that does not exist.  Creating and writing a file are taken to succeed. *)
Record Dir := mkDir {
  accounts_dump : option string;
  payments_dump : option string;
  favorites_dump : option string
}.

Definition empty_Dir : Dir := mkDir None None None.

(** The [strings.Builder] loop of [Export]. *)
Definition dump {A} (to_string : A -> string) (l : list A) : string :=
  fold_left (fun data x => (data ++ (to_string x ++ str newline))%string) l
    EmptyString.

Definition Export (s : Service) (d : Dir) : Dir :=
  let d1 :=
    if (0 <? List.length (elems (accounts s)))%nat
    then mkDir (Some (dump Account_ToString (elems (accounts s))))
           (payments_dump d) (favorites_dump d)
    else d in
  let d2 :=
    if (0 <? List.length (elems (favorites s)))%nat
    then mkDir (accounts_dump d1) (payments_dump d1)
           (Some (dump Favorite_ToString (elems (favorites s))))
    else d1 in
  if (0 <? List.length (elems (payments s)))%nat
  then mkDir (accounts_dump d2)
         (Some (dump Payment_ToString (elems (payments s)))) (favorites_dump d2)
  else d2.

(** The closure [read] of [Import]: a file that cannot be read is empty. *)
Definition read (f : option string) : string :=
  match f with Some data => data | None => EmptyString end.

(** A call either returns or panics (an index out of range). *)
Inductive outcome (A : Type) :=
| Returns (a : A)
| Panics.
Arguments Returns {A} a.
Arguments Panics {A}.

Fixpoint for_each {A S} (body : S -> A -> outcome S) (l : list A) (st : S)
  : outcome S :=
  match l with
  | [] => Returns st
  | a :: t =>
      match body st a with
      | Returns st' => for_each body t st'
      | Panics => Panics
      end
  end.

Definition field (l : list string) (i : nat) : string := nth i l EmptyString.

Definition import_account (s : Service) (ac : string) : outcome Service :=
  let accountStr := Split semicolon ac in
  if (List.length accountStr <? 2)%nat then Returns s
  else
    let ID := Atoi (field accountStr 0) in
    let Phone := field accountStr 1 in
    match nth_error accountStr 2 with
    | None => Panics
    | Some f2 =>
        let Balance := Atoi f2 in
        match FindAccountByID s ID with
        | Ok i =>
            Returns (set_accounts s
                       (upd_slice i (fun fw => mkAccount (acc_ID fw) Phone Balance)
                          (accounts s)))
        | Err _ =>
            Returns (mkService ID (append (accounts s) (mkAccount ID Phone Balance))
                       (payments s) (favorites s))
        end
    end.

Definition import_payment (s : Service) (ac : string) : outcome Service :=
  let paymentStr := Split semicolon ac in
  if (List.length paymentStr <? 2)%nat then Returns s
  else
    let ID := field paymentStr 0 in
    let AccountID := Atoi (field paymentStr 1) in
    match nth_error paymentStr 2, nth_error paymentStr 3, nth_error paymentStr 4 with
    | Some f2, Some Category, Some Status =>
        let Amount := Atoi f2 in
        match FindPaymentByID s ID with
        | Ok i =>
            Returns (set_payments s
                       (upd_slice i
                          (fun py => mkPayment (pay_ID py) AccountID Amount Category Status)
                          (payments s)))
        | Err _ =>
            Returns (set_payments s
                       (append (payments s)
                          (mkPayment ID AccountID Amount Category Status)))
        end
    | _, _, _ => Panics
    end.

(** The state of the favorites loop carries the number of identifiers drawn
    so far from [uuid]. *)
Definition import_favorite (uuid : nat -> string) (st : Service * nat) (ac : string)
  : outcome (Service * nat) :=
  let (s, k) := st in
  let favoriteStr := Split semicolon ac in
  if (List.length favoriteStr <? 2)%nat then Returns st
  else
    let ID := field favoriteStr 0 in
    let AccountID := Atoi (field favoriteStr 1) in
    match nth_error favoriteStr 2, nth_error favoriteStr 3, nth_error favoriteStr 4 with
    | Some Name, Some f3, Some Category =>
        let Amount := Atoi f3 in
        match FindFavoriteByID s ID with
        | Ok i =>
            Returns (set_favorites s
                       (upd_slice i
                          (fun fw => mkFavorite (fav_ID fw) AccountID Name Amount Category)
                          (favorites s)), k)
        | Err _ =>
            Returns (set_favorites s
                       (append (favorites s)
                          (mkFavorite (uuid k) AccountID Name Amount Category)), S k)
        end
    | _, _, _ => Panics
    end.

Definition bind {A B} (o : outcome A) (f : A -> outcome B) : outcome B :=
  match o with Returns a => f a | Panics => Panics end.

(** [Import]; it returns [nil] whenever it returns, so the result is the
    store alone.  [uuid k] is the identifier drawn by the [k]-th call of
    [uuid.New()] made by this call. *)
Definition Import (uuid : nat -> string) (s : Service) (d : Dir) : outcome Service :=
  bind (if is_nil (accounts s) then Returns s
        else for_each import_account (Split newline (read (accounts_dump d))) s)
    (fun s1 =>
  bind (if is_nil (payments s1) then Returns s1
        else for_each import_payment (Split newline (read (payments_dump d))) s1)
    (fun s2 =>
  if is_nil (favorites s2) then Returns s2
  else bind (for_each (import_favorite uuid)
               (Split newline (read (favorites_dump d))) (s2, O))
         (fun st => Returns (fst st)))).

(** [ExportToFile]: the contents written to the file. *)
Definition ExportToFile (s : Service) : string :=
  fold_left
    (fun data account => (data ++ (Account_ToString account ++ str pipe))%string)
    (elems (accounts s)) EmptyString.

(** The error of [os.Open]. *)
Inductive ret_error :=
| Sentinel (e : error)
| OsError.

Fixpoint ImportFromFile_loop (arr : list string) (s : Service)
  : outcome (Service * option ret_error) :=
  match arr with
  | [] => Returns (s, None)
  | ac :: rest =>
      let accountStr := Split semicolon ac in
      if (List.length accountStr <? 2)%nat then ImportFromFile_loop rest s
      else
        match RegisterAccount s (field accountStr 1) with
        | (s1, Err e) => Returns (s1, Some (Sentinel e))
        | (s1, Ok account) =>
            match nth_error accountStr 2 with
            | None => Panics
            | Some f2 =>
                match Deposit s1 (acc_ID account) (Atoi f2) with
                | (s2, Some e) => Returns (s2, Some (Sentinel e))
                | (s2, None) => ImportFromFile_loop rest s2
                end
            end
        end
  end.

(** [ImportFromFile]; [file] is the contents of the file at [path], [None]
    when it cannot be opened. *)
Definition ImportFromFile (s : Service) (file : option string)
  : outcome (Service * option ret_error) :=
  match file with
  | None => Returns (s, Some OsError)
  | Some data => ImportFromFile_loop (Split pipe data) s
  end.

(** ** Calls and runs

    A client of the ledger is a sequence of calls.  [ledger_op] lists the
    calls of the ledger core, each with the identifier that [uuid.New()]
    hands to it when it draws one; [FavoritePayment] and [PayFromFavorite]
    are there once for each of the two files that define them. *)
Inductive ledger_op :=
| OpRegisterAccount (phone : Phone)
| OpDeposit (accountID : Z) (amount : Money)
| OpPay (uuid : string) (accountID : Z) (amount : Money) (category : PaymentCategory)
| OpReject (paymentID : string)
| OpRepeat (uuid : string) (paymentID : string)
| OpFavoritePayment (uuid : string) (paymentID : string) (name : string)
| OpPayFromFavorite (uuid : string) (favoriteID : string)
| OpServiceGoFavoritePayment (uuid : string) (paymentID : string) (name : string)
| OpServiceGoPayFromFavorite (uuid : string) (favoriteID : string).

Definition ledger_step (s : Service) (o : ledger_op) : Service :=
  match o with
  | OpRegisterAccount phone => fst (RegisterAccount s phone)
  | OpDeposit accountID amount => fst (Deposit s accountID amount)
  | OpPay uuid accountID amount category => fst (Pay uuid s accountID amount category)
  | OpReject paymentID => fst (Reject s paymentID)
  | OpRepeat uuid paymentID => fst (Repeat uuid s paymentID)
  | OpFavoritePayment uuid paymentID name => fst (FavoritePayment uuid s paymentID name)
  | OpPayFromFavorite uuid favoriteID => fst (PayFromFavorite uuid s favoriteID)
  | OpServiceGoFavoritePayment uuid paymentID name =>
      fst (ServiceGo.FavoritePayment uuid s paymentID name)
  | OpServiceGoPayFromFavorite uuid favoriteID =>
      fst (ServiceGo.PayFromFavorite uuid s favoriteID)
  end.

(** The amount a call deposits: that of a [Deposit] that returns [nil]. *)
Definition deposited (s : Service) (o : ledger_op) : Z :=
  match o with
  | OpDeposit accountID amount =>
      match snd (Deposit s accountID amount) with
      | None => amount
      | Some _ => 0
      end
  | _ => 0
  end.

(** The store after the calls, with the sum of the amounts deposited. *)
Fixpoint run_ledger (ops : list ledger_op) (s : Service) (total : Z) : Service * Z :=
  match ops with
  | [] => (s, total)
  | o :: rest => run_ledger rest (ledger_step s o) (total + deposited s o)
  end.

(** The payment a [Reject] finds, if any, is in progress. *)
Definition rejects_in_progress (s : Service) (o : ledger_op) : bool :=
  match o with
  | OpReject paymentID =>
      match first_index (has_pay_ID paymentID) (elems (payments s)) with
      | Some pi =>
          match nth_error (elems (payments s)) pi with
          | Some payment => String.eqb (pay_Status payment) PaymentStatusInProgress
          | None => true
          end
      | None => true
      end
  | _ => true
  end.

Fixpoint guarded (ops : list ledger_op) (s : Service) : bool :=
  match ops with
  | [] => true
  | o :: rest => rejects_in_progress s o && guarded rest (ledger_step s o)
  end.

(** All calls of the service that change the store. *)
Inductive op :=
| Ledger (o : ledger_op)
| OpImportFromFile (file : option string)
| OpImport (uuid : nat -> string) (d : Dir).

Definition step (s : Service) (o : op) : outcome Service :=
  match o with
  | Ledger l => Returns (ledger_step s l)
  | OpImportFromFile file => bind (ImportFromFile s file) (fun r => Returns (fst r))
  | OpImport uuid d => Import uuid s d
  end.

Fixpoint run (ops : list op) (s : Service) : outcome Service :=
  match ops with
  | [] => Returns s
  | o :: rest => bind (step s o) (run rest)
  end.

(** The number a loop of [Import] reads in the third field of a line, if
    the line has one, passes the test [ok]. *)
Definition line_fits (ok : Z -> bool) (line : string) : bool :=
  match nth_error (Split semicolon line) 2 with
  | Some f2 => ok (Atoi f2)
  | None => true
  end.

(** No balance in [accounts.dump] and no amount in [payments.dump] is
    negative. *)
Definition dump_fits (d : Dir) : bool :=
  forallb (line_fits (fun balance => 0 <=? balance))
    (Split newline (read (accounts_dump d)))
  && forallb (line_fits (fun amount => 0 <=? amount))
       (Split newline (read (payments_dump d))).

Definition dumps_fit (ops : list op) : bool :=
  forallb (fun o => match o with OpImport _ d => dump_fits d | _ => true end) ops.

(** The sum a credit computes is within [int64]: the balance credited by a
    [Deposit] or a [Reject] that succeeds does not wrap around. *)
Definition credit_fits (s : Service) (o : op) : bool :=
  match o with
  | Ledger (OpDeposit accountID amount) =>
      match last_index (has_acc_ID accountID) (elems (accounts s)) with
      | Some i =>
          match nth_error (elems (accounts s)) i with
          | Some account => acc_Balance account + amount <=? max_int64
          | None => true
          end
      | None => true
      end
  | Ledger (OpReject paymentID) =>
      match first_index (has_pay_ID paymentID) (elems (payments s)) with
      | Some pi =>
          match nth_error (elems (payments s)) pi with
          | Some payment =>
              match first_index (has_acc_ID (pay_AccountID payment))
                      (elems (accounts s)) with
              | Some ai =>
                  match nth_error (elems (accounts s)) ai with
                  | Some account =>
                      acc_Balance account + pay_Amount payment <=? max_int64
                  | None => true
                  end
              | None => true
              end
          | None => true
          end
      | None => true
      end
  | _ => true
  end.

Fixpoint credits_fit (ops : list op) (s : Service) : bool :=
  match ops with
  | [] => true
  | o :: rest =>
      credit_fits s o
      && match step s o with
         | Returns s' => credits_fit rest s'
         | Panics => true
         end
  end.

(** ** Measures of a store *)

Fixpoint sumZ {A} (f : A -> Z) (l : list A) : Z :=
  match l with
  | [] => 0
  | a :: t => f a + sumZ f t
  end.

Definition total_balance (s : Service) : Z := sumZ acc_Balance (elems (accounts s)).

Definition in_progress (p : Payment) : bool :=
  String.eqb (pay_Status p) PaymentStatusInProgress.

Definition in_progress_amount (p : Payment) : Z :=
  if in_progress p then pay_Amount p else 0.

Definition total_in_progress (s : Service) : Z :=
  sumZ in_progress_amount (elems (payments s)).

(** A store with no account, payment or favorite and the counter at zero:
    the zero value, or one whose slices were made empty. *)
Definition empty_store (s : Service) : Prop :=
  nextAccountID s = 0 /\ elems (accounts s) = [] /\ elems (payments s) = []
  /\ elems (favorites s) = [].

(** The empty store with three allocated slices, as the tests build it. *)
Definition made_Service : Service := mkService 0 (Some []) (Some []) (Some []).

Definition balances_nonneg (s : Service) : Prop :=
  Forall (fun a => 0 <= acc_Balance a) (elems (accounts s)).

(** The account a [Deposit] or a [Pay] of [accountID] works on. *)
Definition account_of (s : Service) (accountID : Z) : option Account :=
  match last_index (has_acc_ID accountID) (elems (accounts s)) with
  | Some i => nth_error (elems (accounts s)) i
  | None => None
  end.

(** The account [FindAccountByID] returns. *)
Definition found_account (s : Service) (accountID : Z) : option Account :=
  match first_index (has_acc_ID accountID) (elems (accounts s)) with
  | Some i => nth_error (elems (accounts s)) i
  | None => None
  end.

Definition found_payment (s : Service) (paymentID : string) : option Payment :=
  match first_index (has_pay_ID paymentID) (elems (payments s)) with
  | Some i => nth_error (elems (payments s)) i
  | None => None
  end.

Definition found_favorite (s : Service) (favoriteID : string) : option Favorite :=
  match first_index (has_fav_ID favoriteID) (elems (favorites s)) with
  | Some i => nth_error (elems (favorites s)) i
  | None => None
  end.

(** The fields of an account are values of their Go types. *)
Definition wf_Account (a : Account) : Prop :=
  in_int64 (acc_ID a) /\ in_int64 (acc_Balance a).

Definition wf_accounts (s : Service) : Prop := Forall wf_Account (elems (accounts s)).

(** ** Sample stores

    The scenario of the specification: an account is registered with phone
    [+992000000001], [100000] is deposited, [50000] is paid for ["food"]. *)
Definition demo_registered : Service :=
  fst (RegisterAccount zero_Service "+992000000001").
Definition demo_funded : Service := fst (Deposit demo_registered 1 100000).
Definition demo_paid : Service := fst (Pay "p1" demo_funded 1 50000 "food").

(** The store of [TestService_PayFromFavorite_success], built with the
    [FavoritePayment] of [pkg/wallet/service.go]: one account with [500], a
    payment ["u1"] of [5] for ["salom"], and the favorite ["u2"] made of it. *)
Definition test_favorite_store : Service :=
  let s1 := fst (RegisterAccount made_Service "+992928885522") in
  let s2 := fst (Deposit s1 1 500) in
  let s3 := fst (Pay "u1" s2 1 5 "salom") in
  fst (ServiceGo.FavoritePayment "u2" s3 "u1" "sidal").

(** The stores of [TestService_Export]: three accounts are registered and
    exported, then the second one is cut out of the slice before [Import]. *)
Definition test_export_full : Service :=
  let s1 := fst (RegisterAccount made_Service "+992928885522") in
  let s2 := fst (RegisterAccount s1 "+992928000000") in
  fst (RegisterAccount s2 "+992928811111").

Definition test_export_cut : Service :=
  match elems (accounts test_export_full) with
  | a1 :: _ :: rest => set_accounts test_export_full (Some (a1 :: rest))
  | _ => test_export_full
  end.

(** ** The ledger invariant and the effects of a call *)

(** Balances are non-negative [int64] values and no amount of a payment
    is negative. *)
Definition ledger_ok (s : Service) : Prop :=
  Forall (fun a => 0 <= acc_Balance a <= max_int64) (elems (accounts s)) /\
  Forall (fun p => 0 <= pay_Amount p) (elems (payments s)).

(** What a call of the ledger core can do to the accounts and payments of
    the store [s]: nothing, register an account, credit a deposit, debit a
    new payment in progress, or reject a payment.  The last index is the
    amount deposited. *)
Inductive ledger_effect (s : Service) : ledger_op -> Service -> Z -> Prop :=
| eff_none o s' :
    accounts s' = accounts s -> payments s' = payments s ->
    ledger_effect s o s' 0
| eff_register o s' account :
    acc_Balance account = 0 ->
    elems (accounts s') = elems (accounts s) ++ [account] ->
    payments s' = payments s ->
    ledger_effect s o s' 0
| eff_deposit accountID amount i account s' :
    0 < amount ->
    last_index (has_acc_ID accountID) (elems (accounts s)) = Some i ->
    nth_error (elems (accounts s)) i = Some account ->
    elems (accounts s') = upd i (add_Balance amount) (elems (accounts s)) ->
    payments s' = payments s ->
    ledger_effect s (OpDeposit accountID amount) s' amount
| eff_pay o s' i account payment :
    0 < pay_Amount payment ->
    pay_Amount payment <= acc_Balance account ->
    pay_Status payment = PaymentStatusInProgress ->
    nth_error (elems (accounts s)) i = Some account ->
    elems (accounts s') = upd i (sub_Balance (pay_Amount payment)) (elems (accounts s)) ->
    elems (payments s') = elems (payments s) ++ [payment] ->
    ledger_effect s o s' 0
| eff_reject paymentID pi payment ai account s' :
    first_index (has_pay_ID paymentID) (elems (payments s)) = Some pi ->
    nth_error (elems (payments s)) pi = Some payment ->
    first_index (has_acc_ID (pay_AccountID payment)) (elems (accounts s)) = Some ai ->
    nth_error (elems (accounts s)) ai = Some account ->
    elems (accounts s') = upd ai (add_Balance (pay_Amount payment)) (elems (accounts s)) ->
    elems (payments s') = upd pi (set_Status PaymentStatusFail) (elems (payments s)) ->
    ledger_effect s (OpReject paymentID) s' 0.

(** The runs that break the invariants: a payment rejected twice, a
    negative balance read from a dump, a deposit that wraps around. *)
Definition double_reject : list ledger_op :=
  [OpRegisterAccount "+992000000001"; OpDeposit 1 100000;
   OpPay "p1" 1 50000 "food"; OpReject "p1"; OpReject "p1"].

(** The scenario of the specification followed by one [Reject]. *)
Definition single_reject : list ledger_op :=
  [OpRegisterAccount "+992000000001"; OpDeposit 1 100000;
   OpPay "p1" 1 50000 "food"; OpReject "p1"].

(** The same scenario, then a file of one account read by
    [ImportFromFile]. *)
Definition pay_then_import_file : list op :=
  [Ledger (OpRegisterAccount "+992000000001"); Ledger (OpDeposit 1 100000);
   Ledger (OpPay "p1" 1 50000 "food");
   OpImportFromFile (Some "1;+992000000002;500|")].

(** The same calls, then an [Import] that overwrites the balance of the
    account and adds a payment. *)
Definition pay_then_imports : list op :=
  pay_then_import_file
  ++ [OpImport (fun _ => "g")
        (mkDir (Some "1;+992000000001;70") (Some "p2;2;30;taxi;OK") None)].

Definition import_negative : list op :=
  [Ledger (OpRegisterAccount "+992000000001");
   OpImport (fun _ => "g") (mkDir (Some "1;+992000000001;-5") None None)].

Definition deposit_overflow : list op :=
  [Ledger (OpRegisterAccount "+992000000001");
   Ledger (OpDeposit 1 max_int64); Ledger (OpDeposit 1 max_int64)].

(** ** The round trip through a dump directory *)

(** [Export] into an empty directory, then [Import] of that directory into
    a store whose three slices were made empty. *)
Definition round_trip (uuid : nat -> string) (s : Service) : outcome Service :=
  Import uuid made_Service (Export s empty_Dir).

(** No byte of the string is [sep]. *)
Fixpoint free_of (sep : ascii) (s : string) : bool :=
  match s with
  | EmptyString => true
  | String c t => negb (Ascii.eqb c sep) && free_of sep t
  end.

(** A text field that holds neither the field separator nor the line
    separator of the dumps. *)
Definition plain (s : string) : bool := free_of semicolon s && free_of newline s.

Definition exportable_Account (a : Account) : Prop :=
  in_int64 (acc_ID a) /\ in_int64 (acc_Balance a) /\ plain (acc_Phone a) = true.

Definition exportable_Payment (p : Payment) : Prop :=
  in_int64 (pay_AccountID p) /\ in_int64 (pay_Amount p) /\
  plain (pay_ID p) = true /\ plain (pay_Category p) = true /\
  plain (pay_Status p) = true.

Definition exportable_Favorite (f : Favorite) : Prop :=
  in_int64 (fav_AccountID f) /\ in_int64 (fav_Amount f) /\
  plain (fav_ID f) = true /\ plain (fav_Name f) = true /\
  plain (fav_Category f) = true.

(** The numbers of the store are [int64] values, its text fields are
    plain, and no two accounts, and no two payments, share an identifier. *)
Definition exportable (s : Service) : Prop :=
  Forall exportable_Account (elems (accounts s)) /\
  NoDup (map acc_ID (elems (accounts s))) /\
  Forall exportable_Payment (elems (payments s)) /\
  NoDup (map pay_ID (elems (payments s))) /\
  Forall exportable_Favorite (elems (favorites s)).

(** The identifiers drawn are not among those of the favorites of [s]. *)
Definition fresh_for (uuid : nat -> string) (s : Service) : Prop :=
  forall k f, In f (elems (favorites s)) -> uuid k <> fav_ID f.

(** The favorites with the identifiers [uuid k], [uuid (k + 1)], ... in
    place of their own. *)
Fixpoint renumber (uuid : nat -> string) (k : nat) (l : list Favorite)
  : list Favorite :=
  match l with
  | [] => []
  | f :: t =>
      mkFavorite (uuid k) (fav_AccountID f) (fav_Name f) (fav_Amount f)
        (fav_Category f) :: renumber uuid (S k) t
  end.

(** The store of [TestService_Export] before the export: three accounts,
    [500] deposited on the third, a payment ["u1"] of [5] for ["salom"] and
    the favorite ["u2"] made of it. *)
Definition test_export_store : Service :=
  let s1 := fst (Deposit test_export_full 3 500) in
  let s2 := fst (Pay "u1" s1 3 5 "salom") in
  fst (FavoritePayment "u2" s2 "u1" "sidal").

(** One account and a payment whose category holds a semicolon. *)
Definition semicolon_category : Service :=
  let s1 := fst (RegisterAccount made_Service "+992000000001") in
  let s2 := fst (Deposit s1 1 100000) in
  fst (Pay "p1" s2 1 50000 "food;drink").

(** ** The history of an account *)

(** [ExportAccountHistory]: the copies of the payments of the account, in
    a slice that is [nil] as long as nothing was appended to it. *)
Definition ExportAccountHistory (s : Service) (accountID : Z)
  : result (slice Payment) :=
  match FindAccountByID s accountID with
  | Err e => Err e
  | Ok i =>
      match nth_error (elems (accounts s)) i with
      | None => Err ErrAccountNotFound
      | Some account =>
          Ok (fold_left
                (fun payments v =>
                   if pay_AccountID v =? acc_ID account
                   then append payments
                          (mkPayment (pay_ID v) (pay_AccountID v) (pay_Amount v)
                             (pay_Category v) (pay_Status v))
                   else payments)
                (elems (payments s)) None)
      end
  end.

(** The files of a directory tree: the contents at each path, [None] where
    there is no file. *)
Definition Files := string -> option string.

Definition no_Files : Files := fun _ => None.

(** [os.OpenFile(path, O_CREATE|O_WRONLY|O_TRUNC, 0666)].  [opens] tells
    the paths at which the call succeeds (the directory is there, the file
    may be written): the file at [path] is then there and empty and the
    handle is returned.  Where it fails the handle is [nil] and the files
    are as they were; the callers drop the error. *)
Definition OpenFile (opens : string -> bool) (path : string) (fs : Files)
  : option string * Files :=
  if opens path
  then (Some path, fun p => if String.eqb p path then Some EmptyString else fs p)
  else (None, fs).

(** [file.WriteString(data)] on the handle [file], [None] being the [nil]
    handle, on which nothing is written. *)
Definition WriteString (file : option string) (data : string) (fs : Files) : Files :=
  match file with
  | None => fs
  | Some path =>
      fun p =>
        if String.eqb p path
        then match fs p with
             | Some contents => Some (contents ++ data)%string
             | None => None
             end
        else fs p
  end.

Definition page_path (dir : string) (t : Z) : string :=
  (dir ++ "/payments" ++ Itoa t ++ ".dump")%string.

(** The variables of the paging loop of [HistoryToFiles]. *)
Record pager := mkPager {
  pg_k : Z;
  pg_t : Z;
  pg_file : option string;
  pg_fs : Files
}.

Definition HistoryToFiles_step (opens : string -> bool) (dir : string) (records : Z)
  (st : pager) (v : Payment) : pager :=
  let opened :=
    if pg_k st =? 0 then OpenFile opens (page_path dir (pg_t st)) (pg_fs st)
    else (pg_file st, pg_fs st) in
  let file := fst opened in
  let k := wrap64 (pg_k st + 1) in
  let fs2 := WriteString file (Payment_ToString v ++ str newline)%string (snd opened) in
  if k =? records then mkPager 0 (wrap64 (pg_t st + 1)) file fs2
  else mkPager k (pg_t st) file fs2.

(** [HistoryToFiles]; it returns [nil] on every path, so the result is
    the files alone. *)
Definition HistoryToFiles (opens : string -> bool) (payments : list Payment)
  (dir : string) (records : Z) (fs : Files) : Files :=
  if (0 <? List.length payments)%nat then
    if Z.of_nat (List.length payments) <=? records then
      let opened := OpenFile opens (dir ++ "/payments.dump")%string fs in
      WriteString (fst opened)
        (fold_left (fun data v => (data ++ (Payment_ToString v ++ str newline))%string)
           payments EmptyString)
        (snd opened)
    else
      pg_fs (fold_left (HistoryToFiles_step opens dir records) payments
               (mkPager 0 1 None fs))
  else fs.

(** The store at the end of the run of [TestService_Export], after one more
    [RegisterAccount]: the identifier [3] is there twice. *)
Definition reused_ID_store : Service :=
  match Import (fun _ => "g") test_export_cut (Export test_export_full empty_Dir) with
  | Returns s' => fst (RegisterAccount s' "+992900000000")
  | Panics => test_export_cut
  end.

(** Who holds an account: its identifier and its phone, the two fields
    that no call of the ledger core writes after the account is made. *)
Definition holder (a : Account) : Z * Phone := (acc_ID a, acc_Phone a).

Definition holders (s : Service) : list (Z * Phone) := map holder (elems (accounts s)).

(** The identifiers handed out so far are positive, at most the counter,
    which is at most [n], and no two accounts share an identifier or a
    phone. *)
Definition holders_ok (n : Z) (s : Service) : Prop :=
  0 <= nextAccountID s <= n /\
  Forall (fun h => 0 < fst h <= nextAccountID s) (holders s) /\
  NoDup (map fst (holders s)) /\
  NoDup (map snd (holders s)).

(** ** The round trip through a file of accounts *)

(** The accounts as [ImportFromFile] makes them when the counter is [n]:
    registered one after the other, each with the phone and the balance
    written, under the next identifier. *)
Fixpoint reregister (n : Z) (l : list Account) : list Account :=
  match l with
  | [] => []
  | a :: t =>
      mkAccount (wrap64 (n + 1)) (acc_Phone a) (acc_Balance a)
      :: reregister (wrap64 (n + 1)) t
  end.

(** An account that [ExportToFile] writes and [ImportFromFile] accepts:
    [int64] numbers, a positive balance, and a phone without a separator. *)
Definition transferable (a : Account) : Prop :=
  in_int64 (acc_ID a) /\ 0 < acc_Balance a <= max_int64 /\
  plain (acc_Phone a) = true /\ free_of pipe (acc_Phone a) = true.

(** The files after the payments were written [R] to a page, the pages
    being numbered from [t]: the first [R] payments make the page [t], when
    it can be opened, and the rest goes to the pages from [t + 1]. *)
Fixpoint paged (opens : string -> bool) (fuel : nat) (R : nat) (dir : string)
  (l : list Payment) (t : Z) (fs : Files) : Files :=
  match fuel, l with
  | O, _ => fs
  | _, [] => fs
  | S f, _ =>
      paged opens f R dir (skipn R l) (t + 1)
        (fun p =>
           if opens (page_path dir t) && String.eqb p (page_path dir t)
           then Some (dump Payment_ToString (firstn R l))
           else fs p)
  end.

(** [os.OpenFile] succeeds at the paths below the directory [data], which
    is there, and at no other. *)
Definition data_is_there (path : string) : bool := prefix "data/" path.

(** Twelve payments of one account, for the pages. *)
Definition twelve_payments : list Payment :=
  map (fun n => mkPayment (Itoa n) 1 n "aa" PaymentStatusInProgress)
    [1; 2; 3; 4; 5; 6; 7; 8; 9; 10; 11; 12].

(** The scenario of the specification, then three favorites made of the
    payment, two of them under the same name. *)
Definition favorite_twice : list ledger_op :=
  [OpRegisterAccount "+992000000001"; OpDeposit 1 100000;
   OpPay "p1" 1 50000 "food"; OpFavoritePayment "f1" "p1" "lunch";
   OpFavoritePayment "f2" "p1" "lunch"; OpFavoritePayment "f3" "p1" "dinner"].

(** That store with [500] deposited to the identifier [3], which goes to
    the last of the two accounts that carry it. *)
Definition twin_funded : Service := fst (Deposit reused_ID_store 3 500).

(** A payment read from a dump with a negative amount, then rejected. *)
Definition import_negative_amount : list op :=
  [Ledger (OpRegisterAccount "+992000000001"); Ledger (OpDeposit 1 10);
   Ledger (OpPay "p1" 1 10 "food");
   OpImport (fun _ => "g") (mkDir None (Some "p2;1;-5;food;INPROGRESS") None);
   Ledger (OpReject "p2")].

(** * Properties *)

(** ** Machine integers *)

Lemma wrap64_id (z : Z) : in_int64 z -> wrap64 z = z.
Proof.
  unfold in_int64, min_int64, max_int64, wrap64. intros H.
  rewrite Z.mod_small; lia.
Qed.

Lemma wrap64_range (z : Z) : in_int64 (wrap64 z).
Proof.
  unfold in_int64, min_int64, max_int64, wrap64.
  pose proof (Z.mod_pos_bound (z + 2 ^ 63) (2 ^ 64) ltac:(lia)). lia.
Qed.

(** ** Slots and scans *)

Section Scans.
Context {A : Type} (p : A -> bool).

Lemma scan_last_found (l : list A) : forall i found,
  scan_last p l i found =
  match scan_last p l i None with Some j => Some j | None => found end.
Proof.
  induction l as [|a t IH]; intros i found; simpl; [reflexivity|].
  rewrite (IH (S i) (if p a then Some i else found)).
  rewrite (IH (S i) (if p a then Some i else None)).
  destruct (scan_last p t (S i) None); [reflexivity|].
  destruct (p a); reflexivity.
Qed.

Lemma scan_last_shift (l : list A) : forall i,
  scan_last p l (S i) None = option_map S (scan_last p l i None).
Proof.
  induction l as [|a t IH]; intros i; simpl; [reflexivity|].
  rewrite (scan_last_found t (S (S i))), (scan_last_found t (S i)).
  rewrite IH. destruct (scan_last p t (S i) None); simpl; [reflexivity|].
  destruct (p a); reflexivity.
Qed.

Lemma last_index_cons (a : A) (t : list A) :
  last_index p (a :: t) =
  match last_index p t with
  | Some j => Some (S j)
  | None => if p a then Some O else None
  end.
Proof.
  unfold last_index. simpl. rewrite scan_last_found, scan_last_shift.
  destruct (scan_last p t 0 None); reflexivity.
Qed.

Lemma last_index_None (l : list A) :
  last_index p l = None <-> (forall a, In a l -> p a = false).
Proof.
  induction l as [|a t IH]; [split; [intros _ x []|reflexivity]|].
  rewrite last_index_cons. split.
  - destruct (last_index p t) eqn:E; [discriminate|].
    destruct (p a) eqn:Pa; [discriminate|]. intros _ x [<-|Hx]; [assumption|].
    apply IH; auto.
  - intros H. destruct (last_index p t) eqn:E.
    + assert (Some n = None) by (apply IH; intros; apply H; right; assumption).
      discriminate.
    + rewrite (H a (or_introl eq_refl)). reflexivity.
Qed.

Lemma last_index_Some (l : list A) : forall i,
  last_index p l = Some i ->
  exists a, nth_error l i = Some a /\ p a = true.
Proof.
  induction l as [|a t IH]; intros i; [discriminate|].
  rewrite last_index_cons. destruct (last_index p t) eqn:E.
  - intros [= <-]. simpl. apply IH. reflexivity.
  - destruct (p a) eqn:Pa; [|discriminate]. intros [= <-]. exists a. auto.
Qed.

Lemma last_index_last (l : list A) : forall i j b,
  last_index p l = Some i -> (i < j)%nat -> nth_error l j = Some b -> p b = false.
Proof.
  induction l as [|a t IH]; intros i j b; [discriminate|].
  rewrite last_index_cons. destruct (last_index p t) eqn:E.
  - intros [= <-] Hj. destruct j; [lia|]. simpl. apply (IH n); [reflexivity|lia].
  - destruct (p a); [|discriminate]. intros [= <-] Hj. destruct j; [lia|]. simpl.
    intros Hb. apply (proj1 (last_index_None t) E). eapply nth_error_In; eauto.
Qed.

Lemma last_index_app_hit (l : list A) (a : A) :
  p a = true -> last_index p (l ++ [a]) = Some (List.length l).
Proof.
  intros Pa. induction l as [|b t IH]; simpl.
  - unfold last_index. simpl. rewrite Pa. reflexivity.
  - rewrite last_index_cons, IH. reflexivity.
Qed.

Lemma first_index_None (l : list A) :
  first_index p l = None <-> (forall a, In a l -> p a = false).
Proof.
  induction l as [|a t IH]; simpl; [split; [intros _ x []|reflexivity]|].
  destruct (p a) eqn:Pa.
  - split; [discriminate|]. intros H. rewrite (H a) in Pa; [discriminate|auto].
  - destruct (first_index p t); simpl.
    + split; [discriminate|]. intros H.
      assert (Some n = None) by (apply IH; auto). discriminate.
    + split; [|reflexivity]. intros _ x [<-|Hx]; [assumption|]. apply IH; auto.
Qed.

Lemma first_index_Some (l : list A) : forall i,
  first_index p l = Some i ->
  exists a, nth_error l i = Some a /\ p a = true.
Proof.
  induction l as [|a t IH]; intros i; simpl; [discriminate|].
  destruct (p a) eqn:Pa.
  - intros [= <-]. exists a. auto.
  - destruct (first_index p t); simpl; [|discriminate]. intros [= <-]. simpl.
    apply IH. reflexivity.
Qed.

Lemma first_index_first (l : list A) : forall i j b,
  first_index p l = Some i -> (j < i)%nat -> nth_error l j = Some b -> p b = false.
Proof.
  induction l as [|a t IH]; intros i j b; simpl; [discriminate|].
  destruct (p a) eqn:Pa.
  - intros [= <-]. lia.
  - destruct (first_index p t); simpl; [|discriminate]. intros [= <-] Hj.
    destruct j; simpl; [intros [= <-]; assumption|].
    apply (IH n); [reflexivity|lia].
Qed.

Lemma first_index_app_miss (l : list A) (a : A) :
  first_index p l = None -> p a = true ->
  first_index p (l ++ [a]) = Some (List.length l).
Proof.
  intros H Pa. induction l as [|b t IH]; simpl in *.
  - rewrite Pa. reflexivity.
  - destruct (p b); [discriminate|]. destruct (first_index p t); [discriminate|].
    rewrite IH; reflexivity.
Qed.

Lemma first_index_app_hit (l r : list A) (i : nat) :
  first_index p l = Some i -> first_index p (l ++ r) = Some i.
Proof.
  revert i. induction l as [|b t IH]; intros i; simpl; [discriminate|].
  destruct (p b); [auto|]. destruct (first_index p t); simpl; [|discriminate].
  intros [= <-]. rewrite (IH n); reflexivity.
Qed.

End Scans.

Section Updates.
Context {A : Type} (f : A -> A).

Lemma upd_length (l : list A) : forall i, List.length (upd i f l) = List.length l.
Proof.
  induction l as [|a t IH]; intros [|i]; simpl; auto.
Qed.

Lemma nth_error_upd_eq (l : list A) : forall i,
  nth_error (upd i f l) i = option_map f (nth_error l i).
Proof.
  induction l as [|a t IH]; intros [|i]; simpl; auto.
Qed.

Lemma nth_error_upd_neq (l : list A) : forall i j,
  i <> j -> nth_error (upd i f l) j = nth_error l j.
Proof.
  induction l as [|a t IH]; intros [|i] [|j] H; simpl; auto; congruence.
Qed.

Lemma upd_app_l (l r : list A) : forall i,
  (i < List.length l)%nat -> upd i f (l ++ r) = upd i f l ++ r.
Proof.
  induction l as [|a t IH]; intros [|i] H; simpl in *; try lia; auto.
  rewrite IH; [reflexivity|lia].
Qed.

Lemma upd_app_last (l : list A) (a : A) :
  upd (List.length l) f (l ++ [a]) = l ++ [f a].
Proof.
  induction l as [|b t IH]; simpl; [reflexivity|]. rewrite IH. reflexivity.
Qed.

Lemma Forall_upd (P : A -> Prop) (l : list A) : forall i,
  Forall P l -> (forall a, nth_error l i = Some a -> P a -> P (f a)) ->
  Forall P (upd i f l).
Proof.
  induction l as [|a t IH]; intros [|i] H Hf; simpl; auto;
    inversion H; subst; constructor; auto.
Qed.

Lemma sumZ_upd (g : A -> Z) (l : list A) : forall i a,
  nth_error l i = Some a -> sumZ g (upd i f l) = sumZ g l - g a + g (f a).
Proof.
  induction l as [|b t IH]; intros [|i] a; simpl; try discriminate.
  - intros [= ->]. lia.
  - intros H. rewrite (IH i a H). lia.
Qed.

End Updates.

Lemma sumZ_app {A} (g : A -> Z) (l r : list A) : sumZ g (l ++ r) = sumZ g l + sumZ g r.
Proof.
  induction l as [|a t IH]; simpl; lia.
Qed.

Lemma sumZ_nonneg_le {A} (g : A -> Z) (l : list A) : forall i a,
  Forall (fun x => 0 <= g x) l -> nth_error l i = Some a -> g a <= sumZ g l.
Proof.
  induction l as [|b t IH]; intros [|i] a H; simpl; try discriminate;
    inversion H; subst.
  - intros [= ->]. assert (0 <= sumZ g t); [|lia].
    clear -H3. induction H3; simpl; lia.
  - intros Hn. specialize (IH i a H3 Hn). lia.
Qed.

(** ** Pay *)

Lemma account_of_None (s : Service) (accountID : Z) :
  account_of s accountID = None <->
  (forall a, In a (elems (accounts s)) -> acc_ID a <> accountID).
Proof.
  unfold account_of. destruct (last_index _ _) as [i|] eqn:E.
  - destruct (last_index_Some _ _ _ E) as (a & Ha & Pa). rewrite Ha.
    split; [discriminate|]. intros H. exfalso.
    apply (H a (nth_error_In _ _ Ha)). apply Z.eqb_eq, Pa.
  - split; [|reflexivity]. intros _ a Ha.
    apply Z.eqb_neq. apply (proj1 (last_index_None _ _) E a Ha).
Qed.

Lemma elems_upd_slice {A} (i : nat) (f : A -> A) (sl : slice A) :
  elems (upd_slice i f sl) = upd i f (elems sl).
Proof.
  destruct sl; [reflexivity|]. destruct i; reflexivity.
Qed.

Lemma elems_append {A} (sl : slice A) (x : A) : elems (append sl x) = elems sl ++ [x].
Proof. reflexivity. Qed.

(** The successful path of [Pay], in terms of the slot it debits. *)
Lemma Pay_success (uuid : string) (s : Service) (accountID : Z) (amount : Money)
  (category : PaymentCategory) (i : nat) (account : Account) :
  0 < amount ->
  last_index (has_acc_ID accountID) (elems (accounts s)) = Some i ->
  nth_error (elems (accounts s)) i = Some account ->
  amount <= acc_Balance account ->
  Pay uuid s accountID amount category =
  (mkService (nextAccountID s) (upd_slice i (sub_Balance amount) (accounts s))
     (append (payments s)
        (mkPayment uuid accountID amount category PaymentStatusInProgress))
     (favorites s),
   Ok (mkPayment uuid accountID amount category PaymentStatusInProgress)).
Proof.
  intros Ha Hi Hn Hb. unfold Pay.
  destruct (amount <=? 0) eqn:E; [apply Z.leb_le in E; lia|].
  rewrite Hi, Hn.
  destruct (acc_Balance account <? amount) eqn:E2; [apply Z.ltb_lt in E2; lia|].
  reflexivity.
Qed.

(** Whenever [Pay] returns a payment, it went through the successful path. *)
Lemma Pay_Ok_inv (uuid : string) (s s' : Service) (accountID : Z) (amount : Money)
  (category : PaymentCategory) (payment : Payment) :
  Pay uuid s accountID amount category = (s', Ok payment) ->
  0 < amount /\
  exists i account,
    last_index (has_acc_ID accountID) (elems (accounts s)) = Some i /\
    nth_error (elems (accounts s)) i = Some account /\
    amount <= acc_Balance account.
Proof.
  unfold Pay. destruct (amount <=? 0) eqn:E; [discriminate|].
  apply Z.leb_gt in E.
  destruct (last_index _ _) as [i|] eqn:Hi; [|discriminate].
  destruct (nth_error _ i) as [account|] eqn:Hn; [|discriminate].
  destruct (acc_Balance account <? amount) eqn:E2; [discriminate|].
  apply Z.ltb_ge in E2. intros _. split; [assumption|]. exists i, account. auto.
Qed.

(** C1.  [Pay] fails with the amount error when [amount <= 0], with the
    account error when no account has the identifier, with the balance
    error when the balance of the account is below the amount; otherwise it
    returns a new payment in progress that carries the identifier drawn, the
    account identifier, the amount and the category, appends it to the
    payments, and lowers the balance of that account, and of no other, by
    exactly the amount.  It returns a payment only when [0 < amount] and
    [amount] is at most the balance. *)
Theorem C1_Pay_spec (uuid : string) (s : Service) (accountID : Z) (amount : Money)
  (category : PaymentCategory) :
  wf_accounts s ->
  (amount <= 0 ->
   Pay uuid s accountID amount category = (s, Err ErrAmountMustBePositive)) /\
  (0 < amount ->
   (forall a, In a (elems (accounts s)) -> acc_ID a <> accountID) ->
   Pay uuid s accountID amount category = (s, Err ErrAccountNotFound)) /\
  (0 < amount ->
   forall account, account_of s accountID = Some account ->
   acc_Balance account < amount ->
   Pay uuid s accountID amount category = (s, Err ErrNotEnoughBalance)) /\
  (0 < amount ->
   forall account, account_of s accountID = Some account ->
   amount <= acc_Balance account ->
   exists s' i,
     let payment := mkPayment uuid accountID amount category PaymentStatusInProgress in
     Pay uuid s accountID amount category = (s', Ok payment) /\
     nth_error (elems (accounts s)) i = Some account /\
     nth_error (elems (accounts s')) i =
       Some (mkAccount (acc_ID account) (acc_Phone account)
               (acc_Balance account - amount)) /\
     (forall j, j <> i ->
        nth_error (elems (accounts s')) j = nth_error (elems (accounts s)) j) /\
     total_balance s' = total_balance s - amount /\
     elems (payments s') = elems (payments s) ++ [payment] /\
     favorites s' = favorites s /\
     nextAccountID s' = nextAccountID s) /\
  (forall s' payment,
     Pay uuid s accountID amount category = (s', Ok payment) ->
     0 < amount /\
     exists account, account_of s accountID = Some account /\
                     amount <= acc_Balance account).
Proof.
  intros Hwf. repeat split.
  - intros Ha. unfold Pay. apply Z.leb_le in Ha. rewrite Ha. reflexivity.
  - intros Ha Hno. unfold Pay.
    destruct (amount <=? 0) eqn:E; [apply Z.leb_le in E; lia|].
    apply account_of_None in Hno. unfold account_of in Hno.
    destruct (last_index _ _) as [i|]; [|reflexivity]. rewrite Hno. reflexivity.
  - intros Ha account Hacc Hb. unfold Pay.
    destruct (amount <=? 0) eqn:E; [apply Z.leb_le in E; lia|].
    unfold account_of in Hacc.
    destruct (last_index _ _) as [i|]; [|discriminate]. rewrite Hacc.
    apply Z.ltb_lt in Hb. rewrite Hb. reflexivity.
  - intros Ha account Hacc Hb. unfold account_of in Hacc.
    destruct (last_index _ _) as [i|] eqn:Hi; [|discriminate].
    eexists. exists i. cbv zeta.
    split; [apply (Pay_success uuid s accountID amount category i account); auto|].
    assert (Hsub : sub_Balance amount account =
                   mkAccount (acc_ID account) (acc_Phone account)
                     (acc_Balance account - amount)).
    { unfold sub_Balance, set_Balance. f_equal. apply wrap64_id.
      assert (Hw : wf_Account account).
      { apply (proj1 (Forall_forall _ _) Hwf). eapply nth_error_In; eauto. }
      destruct Hw as [_ Hw]. unfold in_int64, min_int64, max_int64 in *. lia. }
    simpl. rewrite elems_upd_slice. repeat split; auto.
    + rewrite nth_error_upd_eq, Hacc. simpl. rewrite Hsub. reflexivity.
    + intros j Hj. apply nth_error_upd_neq. auto.
    + unfold total_balance. simpl. rewrite elems_upd_slice.
      rewrite (sumZ_upd _ _ _ _ _ Hacc), Hsub. simpl. lia.
  - apply Pay_Ok_inv in H. tauto.
  - apply Pay_Ok_inv in H. destruct H as (_ & i & account & Hi & Hn & Hb).
    exists account. unfold account_of. rewrite Hi. auto.
Qed.

(** ** Reject *)

Lemma first_index_upd {A} (p : A -> bool) (f : A -> A) (l : list A) :
  (forall a, p (f a) = p a) -> forall i, first_index p (upd i f l) = first_index p l.
Proof.
  intros Hf. induction l as [|a t IH]; intros [|i]; simpl; auto.
  - rewrite Hf. reflexivity.
  - rewrite IH. reflexivity.
Qed.

Lemma upd_upd {A} (f g : A -> A) (l : list A) : forall i,
  upd i g (upd i f l) = upd i (fun a => g (f a)) l.
Proof.
  induction l as [|a t IH]; intros [|i]; simpl; auto. rewrite IH. reflexivity.
Qed.

Lemma upd_same {A} (f : A -> A) (l : list A) : forall i a,
  nth_error l i = Some a -> f a = a -> upd i f l = l.
Proof.
  induction l as [|b t IH]; intros [|i] a; simpl; try discriminate.
  - intros [= ->] ->. reflexivity.
  - intros H E. rewrite (IH i a H E). reflexivity.
Qed.

Lemma nth_error_app_last {A} (l : list A) (a : A) :
  nth_error (l ++ [a]) (List.length l) = Some a.
Proof.
  induction l; simpl; auto.
Qed.

(** When the identifiers of the accounts are pairwise distinct, the scan
    of [Deposit] and [Pay] and the lookup [FindAccountByID] agree. *)
Lemma unique_ID_first_last (l : list Account) (accountID : Z) :
  NoDup (map acc_ID l) ->
  first_index (has_acc_ID accountID) l = last_index (has_acc_ID accountID) l.
Proof.
  intros Hnd.
  destruct (first_index _ l) as [i|] eqn:Hf, (last_index _ l) as [j|] eqn:Hl;
    try reflexivity.
  - destruct (first_index_Some _ _ _ Hf) as (a & Ha & Pa).
    destruct (last_index_Some _ _ _ Hl) as (b & Hb & Pb).
    unfold has_acc_ID in Pa, Pb. apply Z.eqb_eq in Pa, Pb. f_equal.
    apply (proj1 (NoDup_nth_error (map acc_ID l)) Hnd).
    + rewrite length_map. apply nth_error_Some. congruence.
    + rewrite !nth_error_map, Ha, Hb. simpl. congruence.
  - destruct (first_index_Some _ _ _ Hf) as (a & Ha & Pa).
    rewrite (proj1 (last_index_None _ _) Hl a) in Pa; [discriminate|].
    eapply nth_error_In; eauto.
  - destruct (last_index_Some _ _ _ Hl) as (a & Ha & Pa).
    rewrite (proj1 (first_index_None _ _) Hf a) in Pa; [discriminate|].
    eapply nth_error_In; eauto.
Qed.

Lemma fresh_payment_index (l : list Payment) (uuid : string) (p : Payment) :
  (forall q, In q l -> pay_ID q <> uuid) -> pay_ID p = uuid ->
  first_index (has_pay_ID uuid) (l ++ [p]) = Some (List.length l).
Proof.
  intros Hfresh Hp. apply first_index_app_miss.
  - apply first_index_None. intros q Hq. apply String.eqb_neq. auto.
  - apply String.eqb_eq. assumption.
Qed.

Lemma wrap64_add_neq (b a : Z) : 0 < a <= max_int64 -> wrap64 (b + a) <> b.
Proof.
  unfold wrap64, max_int64. intros Ha E.
  assert (H : (b + a + 2 ^ 63) mod 2 ^ 64 = b + 2 ^ 63) by lia.
  pose proof (Z.mod_pos_bound (b + a + 2 ^ 63) (2 ^ 64) ltac:(lia)) as Hb.
  assert (Hs : (b + 2 ^ 63) mod 2 ^ 64 = b + 2 ^ 63) by (apply Z.mod_small; lia).
  assert (Hd : (b + a + 2 ^ 63 - (b + 2 ^ 63)) mod 2 ^ 64 = 0).
  { rewrite Zminus_mod, H, Hs, Z.sub_diag. reflexivity. }
  replace (b + a + 2 ^ 63 - (b + 2 ^ 63)) with a in Hd by lia.
  rewrite Z.mod_small in Hd; lia.
Qed.

Lemma twin_funded_eq :
  twin_funded =
  mkService 3
    (Some [mkAccount 1 "+992928885522" 0; mkAccount 3 "+992928811111" 0;
           mkAccount 2 "+992928000000" 0; mkAccount 3 "+992900000000" 500])
    (Some []) (Some []).
Proof. vm_compute. reflexivity. Qed.

Lemma twin_funded_wf : wf_accounts twin_funded.
Proof.
  rewrite twin_funded_eq. unfold wf_accounts. simpl.
  repeat constructor; simpl; unfold min_int64, max_int64; lia.
Qed.

(** When two accounts carry the identifier, [Pay] debits the last of them
    and [Reject] credits the first: the account paid from is not restored. *)
Lemma twin_funded_Pay_Reject :
  Pay "p1" twin_funded 3 100 "food" =
  (mkService 3
     (Some [mkAccount 1 "+992928885522" 0; mkAccount 3 "+992928811111" 0;
            mkAccount 2 "+992928000000" 0; mkAccount 3 "+992900000000" 400])
     (Some [mkPayment "p1" 3 100 "food" PaymentStatusInProgress]) (Some []),
   Ok (mkPayment "p1" 3 100 "food" PaymentStatusInProgress)) /\
  Reject (fst (Pay "p1" twin_funded 3 100 "food")) "p1" =
  (mkService 3
     (Some [mkAccount 1 "+992928885522" 0; mkAccount 3 "+992928811111" 100;
            mkAccount 2 "+992928000000" 0; mkAccount 3 "+992900000000" 400])
     (Some [mkPayment "p1" 3 100 "food" PaymentStatusFail]) (Some []),
   None).
Proof. split; vm_compute; reflexivity. Qed.

Lemma C2_counterexample :
  ~ (forall uuid s s1 accountID amount category payment,
       wf_accounts s ->
       (forall q, In q (elems (payments s)) -> pay_ID q <> uuid) ->
       Pay uuid s accountID amount category = (s1, Ok payment) ->
       exists s2,
         Reject s1 (pay_ID payment) = (s2, None) /\
         account_of s2 accountID = account_of s accountID).
Proof.
  intros H. destruct twin_funded_Pay_Reject as (HP & HR).
  assert (Hfresh : forall q, In q (elems (payments twin_funded)) -> pay_ID q <> "p1").
  { rewrite twin_funded_eq. intros q []. }
  destruct (H "p1" twin_funded _ 3 100 "food" _ twin_funded_wf Hfresh HP)
    as (s2 & HR2 & Hacc).
  rewrite HP in HR. cbn [fst pay_ID] in HR, HR2. rewrite HR in HR2.
  injection HR2 as <-. rewrite twin_funded_eq in Hacc. vm_compute in Hacc.
  discriminate Hacc.
Qed.

(** C2, amended.  In a store whose account identifiers are pairwise distinct,
    after a [Pay] that succeeded with a fresh payment identifier, [Reject] of
    that payment returns [nil], leaves the payment with the status [FAIL] and
    its other fields as they were, and gives every account the balance it
    had before the [Pay]; a second [Reject] of the same payment returns [nil]
    again, leaves the payments as they are and adds the amount to the
    balance of the account once more, in [int64] arithmetic: the balance
    differs from the restored one, and it is the restored one plus the amount
    when that sum is within [int64]. *)
Theorem C2_Reject_restores_then_credits_again (uuid : string) (s s1 : Service)
  (accountID : Z) (amount : Money) (category : PaymentCategory) (payment : Payment) :
  wf_accounts s ->
  NoDup (map acc_ID (elems (accounts s))) ->
  (forall q, In q (elems (payments s)) -> pay_ID q <> uuid) ->
  Pay uuid s accountID amount category = (s1, Ok payment) ->
  exists i account s2 s3,
    nth_error (elems (accounts s)) i = Some account /\
    acc_ID account = accountID /\
    nth_error (elems (accounts s1)) i = Some (set_Balance (acc_Balance account - amount) account) /\
    Reject s1 (pay_ID payment) = (s2, None) /\
    found_payment s2 (pay_ID payment)
    = Some (mkPayment uuid accountID amount category PaymentStatusFail) /\
    elems (accounts s2) = elems (accounts s) /\
    Reject s2 (pay_ID payment) = (s3, None) /\
    elems (payments s3) = elems (payments s2) /\
    nth_error (elems (accounts s3)) i =
      Some (set_Balance (wrap64 (acc_Balance account + pay_Amount payment)) account) /\
    wrap64 (acc_Balance account + pay_Amount payment) <> acc_Balance account /\
    (acc_Balance account + pay_Amount payment <= max_int64 ->
     wrap64 (acc_Balance account + pay_Amount payment) =
     acc_Balance account + pay_Amount payment).
Proof.
  intros Hwf Hnd Hfresh HPay.
  destruct (Pay_Ok_inv _ _ _ _ _ _ _ HPay) as (Hpos & i & account & Hi & Hn & Hb).
  rewrite (Pay_success uuid s accountID amount category i account Hpos Hi Hn Hb) in HPay.
  injection HPay as <- <-.
  assert (Hw : in_int64 (acc_Balance account)).
  { apply (proj1 (Forall_forall _ _) Hwf account). eapply nth_error_In; eauto. }
  assert (Hid : acc_ID account = accountID).
  { destruct (last_index_Some _ _ _ Hi) as (a & Ha & Pa).
    rewrite Hn in Ha. injection Ha as <-. apply Z.eqb_eq, Pa. }
  assert (Hsub : sub_Balance amount account = set_Balance (acc_Balance account - amount) account).
  { unfold sub_Balance. f_equal. apply wrap64_id.
    unfold in_int64, min_int64, max_int64 in *. lia. }
  assert (Hback : add_Balance amount (sub_Balance amount account) = account).
  { rewrite Hsub. unfold add_Balance, set_Balance. simpl.
    replace (acc_Balance account - amount + amount) with (acc_Balance account) by lia.
    rewrite (wrap64_id _ Hw). destruct account; reflexivity. }
  set (l := elems (payments s)).
  set (pay := mkPayment uuid accountID amount category PaymentStatusInProgress).
  set (s1 := mkService (nextAccountID s) (upd_slice i (sub_Balance amount) (accounts s))
               (append (payments s) pay) (favorites s)).
  assert (Hfi : first_index (has_acc_ID accountID) (elems (accounts s)) = Some i).
  { rewrite (unique_ID_first_last _ _ Hnd). exact Hi. }
  (* first Reject *)
  assert (HR1 : Reject s1 uuid =
                (mkService (nextAccountID s) (upd_slice i (add_Balance amount) (accounts s1))
                   (upd_slice (List.length l) (set_Status PaymentStatusFail) (payments s1))
                   (favorites s), None)).
  { unfold Reject, FindPaymentByID, FindAccountByID. simpl. fold l.
    rewrite (fresh_payment_index l uuid pay Hfresh eq_refl).
    rewrite nth_error_app_last. simpl.
    rewrite elems_upd_slice, first_index_upd by reflexivity.
    rewrite Hfi. reflexivity. }
  set (s2 := mkService (nextAccountID s) (upd_slice i (add_Balance amount) (accounts s1))
               (upd_slice (List.length l) (set_Status PaymentStatusFail) (payments s1))
               (favorites s)) in *.
  assert (Hacc2 : elems (accounts s2) = elems (accounts s)).
  { simpl. rewrite !elems_upd_slice, upd_upd. apply (upd_same _ _ i account Hn Hback). }
  assert (Hpay2 : elems (payments s2) = l ++ [set_Status PaymentStatusFail pay]).
  { simpl. apply upd_app_last. }
  assert (HR2 : Reject s2 uuid =
                (mkService (nextAccountID s) (upd_slice i (add_Balance amount) (accounts s2))
                   (upd_slice (List.length l) (set_Status PaymentStatusFail) (payments s2))
                   (favorites s), None)).
  { unfold Reject, FindPaymentByID, FindAccountByID.
    rewrite Hpay2, (fresh_payment_index l uuid (set_Status PaymentStatusFail pay) Hfresh eq_refl).
    rewrite nth_error_app_last. cbn [pay_AccountID set_Status pay].
    rewrite Hacc2, Hfi. reflexivity. }
  exists i, account, s2. eexists. simpl pay_ID. simpl pay_Amount.
  split; [exact Hn|]. split; [exact Hid|].
  split; [simpl; rewrite elems_upd_slice, nth_error_upd_eq, Hn; simpl; congruence|].
  split; [exact HR1|].
  split.
  { unfold found_payment. rewrite Hpay2, (fresh_payment_index l uuid (set_Status PaymentStatusFail pay) Hfresh eq_refl).
    apply nth_error_app_last. }
  split; [exact Hacc2|].
  split; [exact HR2|].
  split.
  { cbn [payments]. rewrite elems_upd_slice, Hpay2, upd_app_last. reflexivity. }
  split.
  { cbn [accounts]. rewrite elems_upd_slice, Hacc2, nth_error_upd_eq, Hn. reflexivity. }
  split.
  { apply wrap64_add_neq. unfold in_int64, max_int64 in *. lia. }
  intros Hle. apply wrap64_id. unfold in_int64, min_int64, max_int64 in *. lia.
Qed.

Lemma demo_funded_eq :
  demo_funded = mkService 1 (Some [mkAccount 1 "+992000000001" 100000]) None None.
Proof. vm_compute. reflexivity. Qed.

Lemma demo_funded_wf : wf_accounts demo_funded.
Proof.
  rewrite demo_funded_eq. unfold wf_accounts. simpl.
  repeat constructor; simpl; unfold min_int64, max_int64; lia.
Qed.

Lemma C1_Pay_spec_witness :
  wf_accounts demo_funded /\
  exists s',
    Pay "p1" demo_funded 1 50000 "food" =
    (s', Ok (mkPayment "p1" 1 50000 "food" PaymentStatusInProgress)) /\
    total_balance s' = total_balance demo_funded - 50000.
Proof.
  split; [exact demo_funded_wf|].
  destruct (C1_Pay_spec "p1" demo_funded 1 50000 "food" demo_funded_wf)
    as (_ & _ & _ & H & _).
  destruct (H ltac:(lia) (mkAccount 1 "+992000000001" 100000) eq_refl ltac:(simpl; lia))
    as (s' & i & HP & _ & _ & _ & Ht & _).
  exists s'. split; assumption.
Defined.

Lemma C2_Reject_restores_then_credits_again_witness :
  exists i account s2 s3,
    nth_error (elems (accounts demo_funded)) i = Some account /\
    Reject demo_paid "p1" = (s2, None) /\
    found_payment s2 "p1" = Some (mkPayment "p1" 1 50000 "food" PaymentStatusFail) /\
    elems (accounts s2) = elems (accounts demo_funded) /\
    Reject s2 "p1" = (s3, None) /\
    nth_error (elems (accounts s3)) i =
      Some (set_Balance (wrap64 (acc_Balance account + 50000)) account).
Proof.
  destruct (C2_Reject_restores_then_credits_again "p1" demo_funded demo_paid 1 50000
              "food" (mkPayment "p1" 1 50000 "food" PaymentStatusInProgress)
              demo_funded_wf
              ltac:(repeat constructor; simpl; tauto)
              ltac:(intros q [])
              eq_refl)
    as (i & account & s2 & s3 & H1 & _ & _ & H4 & H5 & H6 & H7 & _ & H9 & _).
  exists i, account, s2, s3. repeat split; assumption.
Defined.

(** ** PayFromFavorite *)

(** The [PayFromFavorite] that pays from the fields of the favorite fails
    with [ErrFavoriteNotFound] when no favorite has the identifier and is
    otherwise the [Pay] of the account, amount and category of the favorite
    found. *)
Lemma PayFromFavorite_is_Pay (uuid : string) (s : Service) (favoriteID : string) :
  match found_favorite s favoriteID with
  | None => PayFromFavorite uuid s favoriteID = (s, Err ErrFavoriteNotFound)
  | Some fw =>
      PayFromFavorite uuid s favoriteID =
      Pay uuid s (fav_AccountID fw) (fav_Amount fw) (fav_Category fw)
  end.
Proof.
  unfold found_favorite, PayFromFavorite, FindFavoriteByID.
  destruct (first_index _ _) as [i|] eqn:E; [|reflexivity].
  destruct (first_index_Some _ _ _ E) as (fw & Hfw & _). rewrite Hfw. reflexivity.
Qed.

(** C5.  In the store of [TestService_PayFromFavorite_success] the
    [PayFromFavorite] of [pkg/wallet/service.go] finds the favorite ["u2"] and
    then fails with [ErrPaymentNotFound], leaving the store as it is, whereas
    [Pay] of the account, amount and category of that favorite succeeds, and
    so does the [PayFromFavorite] that pays from the fields of the
    favorite. *)
Theorem C5_ServiceGo_PayFromFavorite_fails :
  found_favorite test_favorite_store "u2" = Some (mkFavorite "u2" 1 "sidal" 5 "salom") /\
  ServiceGo.PayFromFavorite "u3" test_favorite_store "u2" =
    (test_favorite_store, Err ErrPaymentNotFound) /\
  snd (Pay "u3" test_favorite_store 1 5 "salom") =
    Ok (mkPayment "u3" 1 5 "salom" PaymentStatusInProgress) /\
  PayFromFavorite "u3" test_favorite_store "u2" =
    Pay "u3" test_favorite_store 1 5 "salom".
Proof.
  repeat split; reflexivity.
Qed.

(** Whenever the identifier of the favorite is not the identifier of a
    payment, which is the case of identifiers drawn afresh, the
    [PayFromFavorite] of [pkg/wallet/service.go] fails. *)
Lemma ServiceGo_PayFromFavorite_no_payment (uuid : string) (s : Service)
  (favoriteID : string) (fw : Favorite) :
  found_favorite s favoriteID = Some fw ->
  (forall p, In p (elems (payments s)) -> pay_ID p <> fav_ID fw) ->
  ServiceGo.PayFromFavorite uuid s favoriteID = (s, Err ErrPaymentNotFound).
Proof.
  unfold found_favorite, ServiceGo.PayFromFavorite, FindFavoriteByID.
  destruct (first_index _ _) as [i|] eqn:E; [|discriminate].
  intros -> Hno. unfold Repeat, FindPaymentByID.
  replace (first_index (has_pay_ID (fav_ID fw)) (elems (payments s))) with (@None nat);
    [reflexivity|].
  symmetry. apply first_index_None. intros p Hp. apply String.eqb_neq. auto.
Qed.

(** ** The account counter *)

(** C7.  In the run of [TestService_Export] the counter is [3] before
    [Import] and [2] after it: [Import] appends the account [2], which is
    missing, and sets the counter to its identifier although the account
    [3] is in the store.  The next [RegisterAccount] then hands out the
    identifier [3] a second time. *)
Theorem C7_Import_lowers_counter_and_ID_is_reused :
  nextAccountID test_export_cut = 3 /\
  map acc_ID (elems (accounts test_export_cut)) = [1; 3] /\
  exists s',
    Import (fun _ => "g") test_export_cut (Export test_export_full empty_Dir)
      = Returns s' /\
    nextAccountID s' = 2 /\
    map acc_ID (elems (accounts s')) = [1; 3; 2] /\
    map acc_ID (elems (accounts (fst (RegisterAccount s' "+992900000000"))))
      = [1; 3; 2; 3].
Proof.
  split; [reflexivity|]. split; [reflexivity|].
  eexists. split; [vm_compute; reflexivity|]. repeat split; reflexivity.
Qed.

(** ** Lines that are too short *)

(** A line without a semicolon is skipped by each of the three loops of
    [Import]. *)
Lemma import_skips_one_field (s : Service) (ac : string) (uuid : nat -> string)
  (k : nat) :
  (List.length (Split semicolon ac) < 2)%nat ->
  import_account s ac = Returns s /\
  import_payment s ac = Returns s /\
  import_favorite uuid (s, k) ac = Returns (s, k).
Proof.
  intros H. apply Nat.ltb_lt in H.
  unfold import_account, import_payment, import_favorite. rewrite H. auto.
Qed.

(** C8.  A line of two fields is not skipped: read from [accounts.dump],
    [payments.dump] or [favorites.dump] it makes [Import] panic, and read by
    [ImportFromFile] it makes it panic too, after the account was
    registered.  A line of three fields that are not numbers is not skipped
    either: [Import] stores an account [0] with balance [0], and
    [ImportFromFile] returns [ErrAmountMustBePositive]. *)
Theorem C8_short_line_panics :
  Split semicolon "1;a" = ["1"; "a"] /\
  Import (fun _ => "g") made_Service (mkDir (Some "1;a") None None) = Panics /\
  Import (fun _ => "g") made_Service (mkDir None (Some "p;1") None) = Panics /\
  Import (fun _ => "g") made_Service (mkDir None None (Some "f;1;n;5")) = Panics /\
  ImportFromFile made_Service (Some "1;a") = Panics /\
  Import (fun _ => "g") made_Service (mkDir (Some "x;a;y") None None) =
    Returns (mkService 0 (Some [mkAccount 0 "a" 0]) (Some []) (Some [])) /\
  ImportFromFile made_Service (Some "x;a;y") =
    Returns (mkService 1 (Some [mkAccount 1 "a" 0]) (Some []) (Some []),
             Some (Sentinel ErrAmountMustBePositive)).
Proof.
  repeat split; reflexivity.
Qed.

(** ** Failures and the store *)

Lemma RegisterAccount_Err (s : Service) (phone : Phone) (e : error) :
  snd (RegisterAccount s phone) = Err e -> fst (RegisterAccount s phone) = s.
Proof.
  unfold RegisterAccount. destruct (existsb _ _); [reflexivity|discriminate].
Qed.

Lemma Deposit_Err (s : Service) (accountID : Z) (amount : Money) (e : error) :
  snd (Deposit s accountID amount) = Some e -> fst (Deposit s accountID amount) = s.
Proof.
  unfold Deposit. destruct (amount <=? 0); [reflexivity|].
  destruct (last_index _ _); [discriminate|reflexivity].
Qed.

Lemma Pay_Err (uuid : string) (s : Service) (accountID : Z) (amount : Money)
  (category : PaymentCategory) (e : error) :
  snd (Pay uuid s accountID amount category) = Err e ->
  fst (Pay uuid s accountID amount category) = s.
Proof.
  unfold Pay. destruct (amount <=? 0); [reflexivity|].
  destruct (last_index _ _); [|reflexivity].
  destruct (nth_error _ _); [|reflexivity].
  destruct (_ <? _); [reflexivity|discriminate].
Qed.

Lemma Reject_Err (s : Service) (paymentID : string) (e : error) :
  snd (Reject s paymentID) = Some e -> fst (Reject s paymentID) = s.
Proof.
  unfold Reject. destruct (FindPaymentByID _ _); [|reflexivity].
  destruct (nth_error _ _); [|reflexivity].
  destruct (FindAccountByID _ _); [discriminate|reflexivity].
Qed.

Lemma Repeat_Err (uuid : string) (s : Service) (paymentID : string) (e : error) :
  snd (Repeat uuid s paymentID) = Err e -> fst (Repeat uuid s paymentID) = s.
Proof.
  unfold Repeat. destruct (FindPaymentByID _ _); [|reflexivity].
  destruct (nth_error _ _); [|reflexivity]. apply Pay_Err.
Qed.

Lemma FavoritePayment_Err (uuid : string) (s : Service) (paymentID name : string)
  (e : error) :
  snd (FavoritePayment uuid s paymentID name) = Err e ->
  fst (FavoritePayment uuid s paymentID name) = s.
Proof.
  unfold FavoritePayment. destruct (existsb _ _); [reflexivity|].
  destruct (FindPaymentByID _ _); [|reflexivity].
  destruct (nth_error _ _); [discriminate|reflexivity].
Qed.

Lemma PayFromFavorite_Err (uuid : string) (s : Service) (favoriteID : string)
  (e : error) :
  snd (PayFromFavorite uuid s favoriteID) = Err e ->
  fst (PayFromFavorite uuid s favoriteID) = s.
Proof.
  unfold PayFromFavorite. destruct (FindFavoriteByID _ _); [|reflexivity].
  destruct (nth_error _ _); [|reflexivity]. apply Pay_Err.
Qed.

Lemma ServiceGo_FavoritePayment_Err (uuid : string) (s : Service)
  (paymentID name : string) (e : error) :
  snd (ServiceGo.FavoritePayment uuid s paymentID name) = Err e ->
  fst (ServiceGo.FavoritePayment uuid s paymentID name) = s.
Proof.
  unfold ServiceGo.FavoritePayment. destruct (existsb _ _); [reflexivity|].
  destruct (FindPaymentByID _ _); [|reflexivity].
  destruct (nth_error _ _); [discriminate|reflexivity].
Qed.

Lemma ServiceGo_PayFromFavorite_Err (uuid : string) (s : Service)
  (favoriteID : string) (e : error) :
  snd (ServiceGo.PayFromFavorite uuid s favoriteID) = Err e ->
  fst (ServiceGo.PayFromFavorite uuid s favoriteID) = s.
Proof.
  unfold ServiceGo.PayFromFavorite. destruct (FindFavoriteByID _ _); [|reflexivity].
  destruct (nth_error _ _); [|reflexivity]. apply Repeat_Err.
Qed.

(** [RegisterAccount] that succeeds appends one account with balance [0]
    and touches nothing else but the counter. *)
Lemma RegisterAccount_Ok (s s1 : Service) (phone : Phone) (account : Account) :
  RegisterAccount s phone = (s1, Ok account) ->
  elems (accounts s1) = elems (accounts s) ++ [account] /\
  acc_Balance account = 0 /\
  in_int64 (acc_ID account) /\
  payments s1 = payments s /\ favorites s1 = favorites s.
Proof.
  unfold RegisterAccount. destruct (existsb _ _); [discriminate|].
  intros [= <- <-]. simpl. repeat split; try apply wrap64_range.
Qed.

(** A [Deposit] to the identifier of the account that was appended last
    works on that account, and on nothing else. *)
Lemma Deposit_last_account (s s2 : Service) (l : list Account) (account : Account)
  (amount : Money) (r : option error) :
  elems (accounts s) = l ++ [account] ->
  Deposit s (acc_ID account) amount = (s2, r) ->
  payments s2 = payments s /\ favorites s2 = favorites s /\
  ((s2 = s /\ r <> None) \/
   (0 < amount /\ r = None /\
    elems (accounts s2) = l ++ [add_Balance amount account])).
Proof.
  intros Hl. unfold Deposit. destruct (amount <=? 0) eqn:E.
  - intros [= <- <-]. repeat split. left. split; [reflexivity|discriminate].
  - apply Z.leb_gt in E. rewrite Hl, last_index_app_hit
      by (unfold has_acc_ID; apply Z.eqb_refl).
    intros [= <- <-]. simpl. repeat split. right. repeat split; [assumption|].
    rewrite elems_upd_slice, Hl. apply upd_app_last.
Qed.

(** Whenever [ImportFromFile] returns, with an error or without, the
    accounts of the store are followed by those it registered, and the
    payments and favorites are as before. *)
Lemma ImportFromFile_loop_extends (arr : list string) : forall s s' r,
  ImportFromFile_loop arr s = Returns (s', r) ->
  (exists added, elems (accounts s') = elems (accounts s) ++ added) /\
  payments s' = payments s /\ favorites s' = favorites s.
Proof.
  induction arr as [|ac rest IH]; intros s s' r; cbn [ImportFromFile_loop].
  - intros [= <- <-]. split; [exists []; rewrite app_nil_r; reflexivity|auto].
  - destruct (List.length (Split semicolon ac) <? 2)%nat; [apply IH|].
    destruct (RegisterAccount s _) as [s1 [account|e]] eqn:HR.
    + destruct (RegisterAccount_Ok _ _ _ _ HR) as (Ha & _ & _ & Hp & Hf).
      destruct (nth_error (Split semicolon ac) 2) as [f2|]; [|discriminate].
      destruct (Deposit s1 _ _) as [s2 [e|]] eqn:HD;
        destruct (Deposit_last_account _ _ _ _ _ _ Ha HD)
          as (Hp2 & Hf2 & [[-> Hr]|(_ & Hr & Ha2)]);
        try discriminate Hr; try (exfalso; apply Hr; reflexivity).
      * intros [= <- <-]. split; [exists [account]; assumption|auto].
      * intros H. destruct (IH _ _ _ H) as ((added & Hadd) & Hp3 & Hf3).
        split; [|split; congruence].
        exists (add_Balance (Atoi f2) account :: added).
        rewrite Hadd, Ha2, <- app_assoc. reflexivity.
    + assert (Hs : s1 = s).
      { change s1 with (fst (s1, @Err Account e)). rewrite <- HR.
        apply (RegisterAccount_Err s _ e). rewrite HR. reflexivity. }
      intros [= <- <-]. subst s1. split; [exists []; rewrite app_nil_r; reflexivity|auto].
Qed.

Lemma C9_counterexample :
  ~ (forall s file s' e,
       ImportFromFile s file = Returns (s', Some e) ->
       elems (accounts s') = elems (accounts s)).
Proof.
  intros H.
  specialize (H made_Service (Some (ExportToFile test_export_full))
                (mkService 1 (Some [mkAccount 1 "+992928885522" 0]) (Some []) (Some []))
                (Sentinel ErrAmountMustBePositive) eq_refl).
  discriminate H.
Qed.

(** C9, amended.  Each of [RegisterAccount], [Deposit], [Pay], [Reject],
    [Repeat], [FavoritePayment] and [PayFromFavorite] (of either file) that
    returns an error returns the store it was given.  [ImportFromFile]
    returns the store it was given when the file cannot be opened; when it
    returns otherwise, with an error or without, the accounts that were in
    the store are still there, unchanged and in the same slots, followed by
    the ones it registered, and the payments and favorites are as before. *)
Theorem C9_failures_leave_store (s : Service) :
  (forall phone e,
     snd (RegisterAccount s phone) = Err e -> fst (RegisterAccount s phone) = s) /\
  (forall accountID amount e,
     snd (Deposit s accountID amount) = Some e ->
     fst (Deposit s accountID amount) = s) /\
  (forall uuid accountID amount category e,
     snd (Pay uuid s accountID amount category) = Err e ->
     fst (Pay uuid s accountID amount category) = s) /\
  (forall paymentID e,
     snd (Reject s paymentID) = Some e -> fst (Reject s paymentID) = s) /\
  (forall uuid paymentID e,
     snd (Repeat uuid s paymentID) = Err e -> fst (Repeat uuid s paymentID) = s) /\
  (forall uuid paymentID name e,
     snd (FavoritePayment uuid s paymentID name) = Err e ->
     fst (FavoritePayment uuid s paymentID name) = s) /\
  (forall uuid favoriteID e,
     snd (PayFromFavorite uuid s favoriteID) = Err e ->
     fst (PayFromFavorite uuid s favoriteID) = s) /\
  (forall uuid paymentID name e,
     snd (ServiceGo.FavoritePayment uuid s paymentID name) = Err e ->
     fst (ServiceGo.FavoritePayment uuid s paymentID name) = s) /\
  (forall uuid favoriteID e,
     snd (ServiceGo.PayFromFavorite uuid s favoriteID) = Err e ->
     fst (ServiceGo.PayFromFavorite uuid s favoriteID) = s) /\
  ImportFromFile s None = Returns (s, Some OsError) /\
  (forall file s' r,
     ImportFromFile s file = Returns (s', r) ->
     (exists added, elems (accounts s') = elems (accounts s) ++ added) /\
     payments s' = payments s /\ favorites s' = favorites s).
Proof.
  repeat split.
  - intros *. apply RegisterAccount_Err.
  - intros *. apply Deposit_Err.
  - intros *. apply Pay_Err.
  - intros *. apply Reject_Err.
  - intros *. apply Repeat_Err.
  - intros *. apply FavoritePayment_Err.
  - intros *. apply PayFromFavorite_Err.
  - intros *. apply ServiceGo_FavoritePayment_Err.
  - intros *. apply ServiceGo_PayFromFavorite_Err.
  - destruct file as [data|]; simpl in H.
    + apply (ImportFromFile_loop_extends _ _ _ _ H).
    + injection H as <- _. exists []. rewrite app_nil_r. reflexivity.
  - destruct file as [data|]; simpl in H.
    + apply (ImportFromFile_loop_extends _ _ _ _ H).
    + injection H as <- _. reflexivity.
  - destruct file as [data|]; simpl in H.
    + apply (ImportFromFile_loop_extends _ _ _ _ H).
    + injection H as <- _. reflexivity.
Qed.

Lemma C9_failures_leave_store_witness :
  fst (Pay "p2" demo_paid 1 60000 "rent") = demo_paid /\
  fst (Reject demo_paid "nope") = demo_paid /\
  exists added,
    elems (accounts (mkService 1 (Some [mkAccount 1 "+992928885522" 0]) (Some []) (Some [])))
    = elems (accounts made_Service) ++ added.
Proof.
  destruct (C9_failures_leave_store demo_paid) as (_ & _ & HP & HR & _).
  destruct (C9_failures_leave_store made_Service) as (_ & _ & _ & _ & _ & _ & _ & _ & _ & _ & HI).
  split; [apply (HP "p2" 1 60000 "rent" ErrNotEnoughBalance); reflexivity|].
  split; [apply (HR "nope" ErrPaymentNotFound); reflexivity|].
  apply (HI (Some (ExportToFile test_export_full)) _
            (Some (Sentinel ErrAmountMustBePositive)) eq_refl).
Defined.

(** ** The effect of a call of the ledger core *)

Lemma Pay_effect (uuid : string) (s : Service) (accountID : Z) (amount : Money)
  (category : PaymentCategory) (o : ledger_op) :
  ledger_effect s o (fst (Pay uuid s accountID amount category)) 0.
Proof.
  unfold Pay. destruct (amount <=? 0) eqn:E; [apply eff_none; reflexivity|].
  apply Z.leb_gt in E.
  destruct (last_index _ _) as [i|]; [|apply eff_none; reflexivity].
  destruct (nth_error _ i) as [account|] eqn:Hn; [|apply eff_none; reflexivity].
  destruct (acc_Balance account <? amount) eqn:E2; [apply eff_none; reflexivity|].
  apply Z.ltb_ge in E2.
  apply (eff_pay s o _ i account
           (mkPayment uuid accountID amount category PaymentStatusInProgress));
    simpl; try assumption; try reflexivity.
  apply elems_upd_slice.
Qed.

Lemma ledger_step_effect (s : Service) (o : ledger_op) :
  ledger_effect s o (ledger_step s o) (deposited s o).
Proof.
  destruct o as [phone|accountID amount|uuid accountID amount category|paymentID
                |uuid paymentID|uuid paymentID name|uuid favoriteID
                |uuid paymentID name|uuid favoriteID]; simpl.
  - unfold RegisterAccount. destruct (existsb _ _); [apply eff_none; reflexivity|].
    apply (eff_register s _ _ (mkAccount (wrap64 (nextAccountID s + 1)) phone 0));
      reflexivity.
  - unfold Deposit. destruct (amount <=? 0) eqn:E; [apply eff_none; reflexivity|].
    apply Z.leb_gt in E.
    destruct (last_index _ _) as [i|] eqn:Hi; [|apply eff_none; reflexivity].
    destruct (last_index_Some _ _ _ Hi) as (account & Hn & _).
    apply (eff_deposit s accountID amount i account); simpl; try assumption;
      try reflexivity.
    apply elems_upd_slice.
  - apply Pay_effect.
  - unfold Reject, FindPaymentByID.
    destruct (first_index _ (elems (payments s))) as [pi|] eqn:Hp;
      [|apply eff_none; reflexivity].
    destruct (nth_error _ pi) as [payment|] eqn:Hn; [|apply eff_none; reflexivity].
    unfold FindAccountByID.
    destruct (first_index _ (elems (accounts s))) as [ai|] eqn:Ha;
      [|apply eff_none; reflexivity].
    destruct (first_index_Some _ _ _ Ha) as (account & Hna & _).
    apply (eff_reject s paymentID pi payment ai account); simpl; try assumption;
      apply elems_upd_slice.
  - unfold Repeat. destruct (FindPaymentByID _ _); [|apply eff_none; reflexivity].
    destruct (nth_error _ _); [apply Pay_effect|apply eff_none; reflexivity].
  - unfold FavoritePayment. destruct (existsb _ _); [apply eff_none; reflexivity|].
    destruct (FindPaymentByID _ _); [|apply eff_none; reflexivity].
    destruct (nth_error _ _); apply eff_none; reflexivity.
  - unfold PayFromFavorite.
    destruct (FindFavoriteByID _ _); [|apply eff_none; reflexivity].
    destruct (nth_error _ _); [apply Pay_effect|apply eff_none; reflexivity].
  - unfold ServiceGo.FavoritePayment.
    destruct (existsb _ _); [apply eff_none; reflexivity|].
    destruct (FindPaymentByID _ _); [|apply eff_none; reflexivity].
    destruct (nth_error _ _); apply eff_none; reflexivity.
  - unfold ServiceGo.PayFromFavorite.
    destruct (FindFavoriteByID _ _); [|apply eff_none; reflexivity].
    destruct (nth_error _ _); [|apply eff_none; reflexivity].
    unfold Repeat. destruct (FindPaymentByID _ _); [|apply eff_none; reflexivity].
    destruct (nth_error _ _); [apply Pay_effect|apply eff_none; reflexivity].
Qed.

Lemma in_progress_amount_nonneg (l : list Payment) :
  Forall (fun p => 0 <= pay_Amount p) l -> Forall (fun p => 0 <= in_progress_amount p) l.
Proof.
  apply Forall_impl. intros p H. unfold in_progress_amount.
  destruct (in_progress p); lia.
Qed.

Lemma sumZ_nonneg {A} (g : A -> Z) (l : list A) :
  Forall (fun x => 0 <= g x) l -> 0 <= sumZ g l.
Proof.
  induction 1; simpl; lia.
Qed.

Lemma ledger_ok_balances (s : Service) :
  ledger_ok s -> Forall (fun a => 0 <= acc_Balance a) (elems (accounts s)).
Proof.
  intros [H _]. revert H. apply Forall_impl. intros a Ha. lia.
Qed.

Lemma wrap64_small (z : Z) : 0 <= z <= max_int64 -> wrap64 z = z.
Proof.
  intros H. apply wrap64_id. unfold in_int64, min_int64, max_int64 in *. lia.
Qed.

(** A call whose credit fits keeps the balances non-negative [int64]
    values and the amounts positive. *)
Lemma effect_preserves_ok (s s' : Service) (o : ledger_op) (d : Z) :
  ledger_ok s -> ledger_effect s o s' d -> credit_fits s (Ledger o) = true ->
  ledger_ok s'.
Proof.
  intros [Ha Hp] E. unfold ledger_ok.
  destruct E as [o s' E1 E2|o s' account Hb E1 E2|accountID amount i account s' Hm Hi Hn E1 E2
                |o s' i account payment Hm Hle Hst Hn E1 E2
                |paymentID pi payment ai account s' Hpi Hnp Hai Hna E1 E2]; intros Hfit.
  - rewrite E1, E2. split; assumption.
  - rewrite E1, E2. split; [|assumption].
    apply Forall_app. split; [assumption|]. constructor; [|constructor].
    rewrite Hb. unfold max_int64. lia.
  - simpl in Hfit. rewrite Hi, Hn in Hfit. apply Z.leb_le in Hfit.
    rewrite E1, E2. split; [|assumption].
    apply Forall_upd; [assumption|]. intros a Ha' Pa.
    rewrite Hn in Ha'. injection Ha' as <-. simpl.
    rewrite wrap64_small; lia.
  - rewrite E1, E2. split.
    + apply Forall_upd; [assumption|]. intros a Ha' Pa.
      rewrite Hn in Ha'. injection Ha' as <-. simpl.
      rewrite wrap64_small; lia.
    + apply Forall_app. split; [assumption|]. constructor; [lia|constructor].
  - simpl in Hfit. rewrite Hpi, Hnp, Hai, Hna in Hfit. apply Z.leb_le in Hfit.
    assert (Hpos : 0 <= pay_Amount payment).
    { apply (proj1 (Forall_forall _ _) Hp payment). apply (nth_error_In _ _ Hnp). }
    rewrite E1, E2. split.
    + apply Forall_upd; [assumption|]. intros a Ha' Pa.
      rewrite Hna in Ha'. injection Ha' as <-. simpl.
      rewrite wrap64_small; lia.
    + apply Forall_upd; [assumption|]. intros p _ Pp. exact Pp.
Qed.

(** The sum of the balances and of the amounts in progress moves by the
    amount deposited, when the credit fits and the payment rejected, if any,
    is in progress. *)
Lemma effect_sum (s s' : Service) (o : ledger_op) (d : Z) :
  ledger_ok s -> ledger_effect s o s' d -> credit_fits s (Ledger o) = true ->
  rejects_in_progress s o = true ->
  total_balance s' + total_in_progress s' = total_balance s + total_in_progress s + d.
Proof.
  intros [Ha Hp] E. unfold total_balance, total_in_progress.
  destruct E as [o s' E1 E2|o s' account Hb E1 E2|accountID amount i account s' Hm Hi Hn E1 E2
                |o s' i account payment Hm Hle Hst Hn E1 E2
                |paymentID pi payment ai account s' Hpi Hnp Hai Hna E1 E2];
    intros Hfit Hrej.
  - rewrite E1, E2. lia.
  - rewrite E1, E2, sumZ_app. simpl. rewrite Hb. lia.
  - simpl in Hfit. rewrite Hi, Hn in Hfit. apply Z.leb_le in Hfit.
    assert (Hacc := proj1 (Forall_forall _ _) Ha account (nth_error_In _ _ Hn)).
    simpl in Hacc. rewrite E1, E2, (sumZ_upd _ _ _ _ _ Hn). simpl.
    rewrite wrap64_small; lia.
  - assert (Hacc := proj1 (Forall_forall _ _) Ha account (nth_error_In _ _ Hn)).
    simpl in Hacc. rewrite E1, E2, (sumZ_upd _ _ _ _ _ Hn), sumZ_app. simpl.
    unfold in_progress_amount, in_progress. rewrite Hst. simpl.
    rewrite wrap64_small; lia.
  - simpl in Hfit, Hrej. rewrite Hpi, Hnp in Hrej.
    rewrite Hpi, Hnp, Hai, Hna in Hfit. apply Z.leb_le in Hfit.
    assert (Hacc := proj1 (Forall_forall _ _) Ha account (nth_error_In _ _ Hna)).
    assert (Hpos := proj1 (Forall_forall _ _) Hp payment (nth_error_In _ _ Hnp)).
    simpl in Hacc, Hpos.
    rewrite E1, E2, (sumZ_upd _ _ _ _ _ Hna), (sumZ_upd _ _ _ _ _ Hnp). simpl.
    unfold in_progress_amount at 2 3. unfold in_progress. simpl. rewrite Hrej.
    rewrite wrap64_small; lia.
Qed.

Lemma deposited_nonneg (s : Service) (o : ledger_op) : 0 <= deposited s o.
Proof.
  destruct o; simpl; try lia. unfold Deposit.
  destruct (amount <=? 0) eqn:E; simpl; [lia|]. apply Z.leb_gt in E.
  destruct (last_index _ _); simpl; lia.
Qed.

Lemma run_ledger_total (ops : list ledger_op) : forall s total,
  total <= snd (run_ledger ops s total).
Proof.
  induction ops as [|o rest IH]; intros s total; simpl; [lia|].
  specialize (IH (ledger_step s o) (total + deposited s o)).
  pose proof (deposited_nonneg s o). lia.
Qed.

(** While the balances and the amounts in progress add up to a total that,
    with the deposit of the call, is an [int64] value, no credit wraps. *)
Lemma sum_fits (s : Service) (o : ledger_op) :
  ledger_ok s ->
  total_balance s + total_in_progress s + deposited s o <= max_int64 ->
  rejects_in_progress s o = true ->
  credit_fits s (Ledger o) = true.
Proof.
  intros Hok Hsum Hrej.
  pose proof (ledger_ok_balances s Hok) as Hb. destruct Hok as [Ha Hp].
  pose proof (in_progress_amount_nonneg _ Hp) as Hq.
  pose proof (sumZ_nonneg _ _ Hb) as Hb0. pose proof (sumZ_nonneg _ _ Hq) as Hq0.
  unfold total_balance, total_in_progress in Hsum.
  destruct o; try reflexivity; simpl in *.
  - destruct (last_index _ _) as [i|] eqn:Hi; [|reflexivity].
    destruct (nth_error _ i) as [account|] eqn:Hn; [|reflexivity].
    apply Z.leb_le. pose proof (sumZ_nonneg_le _ _ _ _ Hb Hn) as Hle.
    unfold Deposit in Hsum. rewrite Hi in Hsum.
    destruct (amount <=? 0) eqn:E; simpl in Hsum.
    + apply Z.leb_le in E.
      assert (Hacc := proj1 (Forall_forall _ _) Ha account (nth_error_In _ _ Hn)).
      simpl in Hacc. lia.
    + lia.
  - destruct (first_index _ (elems (payments s))) as [pi|] eqn:Hpi; [|reflexivity].
    destruct (nth_error _ pi) as [payment|] eqn:Hnp; [|reflexivity].
    destruct (first_index _ (elems (accounts s))) as [ai|] eqn:Hai; [|reflexivity].
    destruct (nth_error _ ai) as [account|] eqn:Hna; [|reflexivity].
    apply Z.leb_le. pose proof (sumZ_nonneg_le _ _ _ _ Hb Hna) as Hle.
    pose proof (sumZ_nonneg_le _ _ _ _ Hq Hnp) as Hle2.
    unfold in_progress_amount at 1 in Hle2. unfold in_progress in Hle2.
    rewrite Hrej in Hle2. lia.
Qed.

Lemma run_ledger_sum (ops : list ledger_op) : forall s total,
  ledger_ok s ->
  total_balance s + total_in_progress s = total ->
  guarded ops s = true ->
  snd (run_ledger ops s total) <= max_int64 ->
  ledger_ok (fst (run_ledger ops s total)) /\
  total_balance (fst (run_ledger ops s total))
  + total_in_progress (fst (run_ledger ops s total))
  = snd (run_ledger ops s total).
Proof.
  induction ops as [|o rest IH]; intros s total Hok Hsum Hg Hmax; simpl in *.
  - split; assumption.
  - apply andb_prop in Hg. destruct Hg as [Hrej Hg].
    pose proof (run_ledger_total rest (ledger_step s o) (total + deposited s o)) as Hmono.
    assert (Hfit : credit_fits s (Ledger o) = true).
    { apply sum_fits; [assumption|lia|assumption]. }
    pose proof (ledger_step_effect s o) as E.
    apply IH; try assumption.
    + apply (effect_preserves_ok _ _ _ _ Hok E Hfit).
    + rewrite (effect_sum _ _ _ _ Hok E Hfit Hrej). lia.
Qed.

Lemma empty_store_ok (s : Service) : empty_store s -> ledger_ok s.
Proof.
  intros (_ & Ha & Hp & _). unfold ledger_ok. rewrite Ha, Hp. split; constructor.
Qed.

Lemma empty_store_sum (s : Service) :
  empty_store s -> total_balance s + total_in_progress s = 0.
Proof.
  intros (_ & Ha & Hp & _). unfold total_balance, total_in_progress.
  rewrite Ha, Hp. reflexivity.
Qed.

(** ** The sum of the ledger *)

Lemma double_reject_run :
  run_ledger double_reject zero_Service 0 =
  (mkService 1 (Some [mkAccount 1 "+992000000001" 150000])
     (Some [mkPayment "p1" 1 50000 "food" PaymentStatusFail]) None,
   100000).
Proof. vm_compute. reflexivity. Qed.

Lemma C3_counterexample :
  ~ (forall ops s,
       empty_store s ->
       total_balance (fst (run_ledger ops s 0))
       + total_in_progress (fst (run_ledger ops s 0))
       = snd (run_ledger ops s 0)).
Proof.
  intros H. specialize (H double_reject zero_Service).
  rewrite double_reject_run in H. specialize (H ltac:(repeat split)).
  vm_compute in H. discriminate H.
Qed.

(** C3, amended.  Start from an empty store and make any sequence of calls
    of [RegisterAccount], [Deposit], [Pay], [Reject], [Repeat],
    [FavoritePayment] and [PayFromFavorite] (of either file) in which every
    [Reject] that finds a payment finds it in progress.  If the sum of the
    amounts deposited is an [int64] value, the balances of the accounts plus
    the amounts of the payments in progress add up to that sum. *)
Theorem C3_sum_of_balances_and_in_progress (ops : list ledger_op) (s : Service) :
  empty_store s ->
  guarded ops s = true ->
  snd (run_ledger ops s 0) <= max_int64 ->
  total_balance (fst (run_ledger ops s 0))
  + total_in_progress (fst (run_ledger ops s 0))
  = snd (run_ledger ops s 0).
Proof.
  intros He Hg Hmax.
  apply run_ledger_sum; try assumption.
  - apply empty_store_ok, He.
  - apply empty_store_sum, He.
Qed.

Lemma C3_sum_of_balances_and_in_progress_witness :
  total_balance (fst (run_ledger single_reject zero_Service 0))
  + total_in_progress (fst (run_ledger single_reject zero_Service 0))
  = snd (run_ledger single_reject zero_Service 0)
  /\ snd (run_ledger single_reject zero_Service 0) = 100000.
Proof.
  split; [|vm_compute; reflexivity].
  apply (C3_sum_of_balances_and_in_progress single_reject zero_Service).
  - repeat split.
  - vm_compute. reflexivity.
  - vm_compute. discriminate.
Defined.

(** ** Balances *)

Lemma digit_val_range (c : ascii) (d : Z) : digit_val c = Some d -> 0 <= d <= 9.
Proof.
  unfold digit_val.
  destruct ((48 <=? Z.of_nat (nat_of_ascii c)) && (Z.of_nat (nat_of_ascii c) <=? 57))
    eqn:E; [|discriminate].
  apply andb_prop in E. destruct E as [E1 E2].
  apply Z.leb_le in E1. apply Z.leb_le in E2. intros [= <-]. lia.
Qed.

Lemma parse_digits_nonneg (s : string) : forall n m,
  parse_digits s n = Some m -> 0 <= n -> n <= m.
Proof.
  induction s as [|c t IH]; intros n m; simpl.
  - intros [= <-] _. lia.
  - destruct (digit_val c) as [d|] eqn:E; [|discriminate].
    apply digit_val_range in E. intros H Hn.
    specialize (IH _ _ H ltac:(lia)). lia.
Qed.

Lemma ParseUint_loop_nonneg (s : string) : forall n m,
  ParseUint_loop s n = Value m -> 0 <= n -> n <= m.
Proof.
  induction s as [|c t IH]; intros n m; simpl.
  - intros [= <-] _. lia.
  - destruct (digit_val c) as [d|] eqn:E; [|discriminate].
    apply digit_val_range in E.
    destruct (_ <=? n); [discriminate|].
    destruct (_ <? _); [discriminate|]. intros H Hn.
    specialize (IH _ _ H ltac:(lia)). lia.
Qed.

Lemma ParseInt_range (s : string) : in_int64 (ParseInt s).
Proof.
  assert (H0 : in_int64 0) by (unfold in_int64, min_int64, max_int64; lia).
  unfold ParseInt. destruct s as [|c t]; [exact H0|].
  destruct (if Ascii.eqb c minus || Ascii.eqb c plus then t else String c t)
    as [|c' t'] eqn:Eb; [exact H0|].
  destruct (ParseUint_loop (String c' t') 0) as [n| |] eqn:Ep; [| |exact H0].
  - apply ParseUint_loop_nonneg in Ep; [|lia].
    unfold in_int64, min_int64, max_int64.
    destruct (Ascii.eqb c minus).
    + destruct (2 ^ 63 <? n) eqn:E; [lia|]. apply Z.ltb_ge in E. lia.
    + destruct (2 ^ 63 <=? n) eqn:E; [lia|]. apply Z.leb_gt in E. lia.
  - unfold in_int64, min_int64, max_int64. destruct (Ascii.eqb c minus); lia.
Qed.

Lemma parse_digits_bound (s : string) : forall n m,
  parse_digits s n = Some m -> 0 <= n -> m < (n + 1) * 10 ^ Z.of_nat (String.length s).
Proof.
  induction s as [|c t IH]; intros n m; cbn [parse_digits String.length].
  - intros [= <-] _. simpl. lia.
  - destruct (digit_val c) as [d|] eqn:E; [|discriminate].
    apply digit_val_range in E. intros H Hn.
    specialize (IH _ _ H ltac:(lia)).
    rewrite Nat2Z.inj_succ, Z.pow_succ_r by lia.
    assert (0 < 10 ^ Z.of_nat (String.length t)) by (apply Z.pow_pos_nonneg; lia).
    nia.
Qed.

(** [Atoi] returns a value of a 64-bit [int]. *)
Lemma Atoi_range (s : string) : in_int64 (Atoi s).
Proof.
  assert (H0 : in_int64 0) by (unfold in_int64, min_int64, max_int64; lia).
  unfold Atoi.
  destruct ((0 <? String.length s)%nat && (String.length s <? 19)%nat) eqn:EL;
    [|apply ParseInt_range].
  apply andb_prop in EL. destruct EL as [_ EL]. apply Nat.ltb_lt in EL.
  destruct s as [|c t]; [exact H0|].
  destruct (if Ascii.eqb c minus || Ascii.eqb c plus then t else String c t)
    as [|c' t'] eqn:Eb; [exact H0|].
  destruct (parse_digits (String c' t') 0) as [n|] eqn:Ep; [|exact H0].
  pose proof (parse_digits_nonneg _ _ _ Ep ltac:(lia)) as Hn.
  pose proof (parse_digits_bound _ _ _ Ep ltac:(lia)) as Hb.
  assert (HL : (String.length (String c' t') <= 18)%nat).
  { destruct (Ascii.eqb c minus || Ascii.eqb c plus).
    - subst t. simpl in *. lia.
    - injection Eb as <- <-. simpl in *. lia. }
  assert (Hp : 10 ^ Z.of_nat (String.length (String c' t')) <= 10 ^ 18).
  { apply Z.pow_le_mono_r; lia. }
  unfold in_int64, min_int64, max_int64.
  destruct (Ascii.eqb c minus); lia.
Qed.

(** [ImportFromFile] keeps the balances non-negative: each account it
    registers is credited with a positive [int64] amount, or not at all. *)
Lemma ImportFromFile_loop_ok (arr : list string) : forall s s' r,
  ledger_ok s -> ImportFromFile_loop arr s = Returns (s', r) -> ledger_ok s'.
Proof.
  induction arr as [|ac rest IH]; intros s s' r Hok; cbn [ImportFromFile_loop].
  - intros [= <- _]. assumption.
  - destruct (List.length (Split semicolon ac) <? 2)%nat; [apply IH; assumption|].
    destruct (RegisterAccount s _) as [s1 [account|e]] eqn:HR.
    + destruct (RegisterAccount_Ok _ _ _ _ HR) as (Ha & Hb & _ & Hp & _).
      assert (Hok1 : ledger_ok s1).
      { destruct Hok as [H1 H2]. unfold ledger_ok. rewrite Ha, Hp.
        split; [|assumption]. apply Forall_app. split; [assumption|].
        constructor; [|constructor]. rewrite Hb. unfold max_int64. lia. }
      destruct (nth_error (Split semicolon ac) 2) as [f2|]; [|discriminate].
      pose proof (Atoi_range f2) as Hr.
      destruct (Deposit s1 _ _) as [s2 [e|]] eqn:HD;
        destruct (Deposit_last_account _ _ _ _ _ _ Ha HD)
          as (Hp2 & _ & [[-> Hn]|(Hpos & Hn & Ha2)]);
        try discriminate Hn; try (exfalso; apply Hn; reflexivity).
      * intros [= <- _]. assumption.
      * apply IH. destruct Hok as [H1 H2]. unfold ledger_ok.
        rewrite Ha2, Hp2, Hp. split; [|assumption].
        apply Forall_app. split; [assumption|]. constructor; [|constructor].
        simpl. rewrite Hb. unfold in_int64, min_int64 in Hr.
        rewrite wrap64_small; simpl; lia.
    + assert (Hs : s1 = s).
      { change s1 with (fst (s1, @Err Account e)). rewrite <- HR.
        apply (RegisterAccount_Err s _ e). rewrite HR. reflexivity. }
      intros [= <- _]. subst s1. assumption.
Qed.

(** ** Text *)

Lemma string_app_assoc (a b c : string) : ((a ++ b) ++ c = a ++ (b ++ c))%string.
Proof.
  induction a as [|x a IH]; simpl; [reflexivity|]. rewrite IH. reflexivity.
Qed.

Lemma string_app_nil_r (a : string) : (a ++ EmptyString = a)%string.
Proof.
  induction a as [|x a IH]; simpl; [reflexivity|]. rewrite IH. reflexivity.
Qed.

Lemma free_of_app (sep : ascii) (a b : string) :
  free_of sep (a ++ b)%string = free_of sep a && free_of sep b.
Proof.
  induction a as [|x a IH]; simpl; [reflexivity|].
  rewrite IH. apply andb_assoc.
Qed.

Lemma Split_free (sep : ascii) (s : string) :
  free_of sep s = true -> Split sep s = [s].
Proof.
  induction s as [|c t IH]; simpl; [reflexivity|].
  intros H. apply andb_prop in H. destruct H as [Hc Ht].
  apply negb_true_iff in Hc. rewrite Hc, (IH Ht). reflexivity.
Qed.

Lemma Split_app (sep : ascii) (a b : string) :
  free_of sep a = true ->
  Split sep (a ++ String sep b)%string = a :: Split sep b.
Proof.
  induction a as [|c t IH]; simpl.
  - intros _. rewrite Ascii.eqb_refl. reflexivity.
  - intros H. apply andb_prop in H. destruct H as [Hc Ht].
    apply negb_true_iff in Hc. rewrite Hc, (IH Ht). reflexivity.
Qed.

(** ** Decimal numbers *)

Lemma digit_cases (d : Z) :
  0 <= d <= 9 ->
  d = 0 \/ d = 1 \/ d = 2 \/ d = 3 \/ d = 4 \/ d = 5 \/ d = 6 \/ d = 7 \/ d = 8 \/ d = 9.
Proof. lia. Qed.

Lemma digit_val_digit_char (d : Z) : 0 <= d <= 9 -> digit_val (digit_char d) = Some d.
Proof.
  intros H. destruct (digit_cases d H) as [->|[->|[->|[->|[->|[->|[->|[->|[->| ->]]]]]]]]];
    reflexivity.
Qed.

Lemma digit_char_neq (d : Z) (sep : ascii) :
  digit_val sep = None -> 0 <= d <= 9 -> Ascii.eqb (digit_char d) sep = false.
Proof.
  intros Hs H. apply Ascii.eqb_neq. intros E.
  rewrite <- E, (digit_val_digit_char d H) in Hs. discriminate.
Qed.

Lemma digits_le_range (fuel : nat) : forall n,
  0 <= n -> Forall (fun d => 0 <= d <= 9) (digits_le fuel n).
Proof.
  induction fuel as [|f IH]; intros n Hn; simpl; [constructor|].
  destruct (n <? 10) eqn:E.
  - apply Z.ltb_lt in E. constructor; [lia|constructor].
  - constructor.
    + pose proof (Z.mod_pos_bound n 10 ltac:(lia)). lia.
    + apply IH. apply Z.div_pos; lia.
Qed.

Lemma string_of_digits_app (a b : list Z) :
  string_of_digits (a ++ b) = (string_of_digits a ++ string_of_digits b)%string.
Proof.
  induction a as [|d a IH]; [reflexivity|].
  change (string_of_digits ((d :: a) ++ b))
    with (String (digit_char d) (string_of_digits (a ++ b))).
  rewrite IH. reflexivity.
Qed.

Lemma string_of_digits_free (sep : ascii) (ds : list Z) :
  digit_val sep = None -> Forall (fun d => 0 <= d <= 9) ds ->
  free_of sep (string_of_digits ds) = true.
Proof.
  intros Hs. induction 1 as [|d ds Hd _ IH]; [reflexivity|].
  change (string_of_digits (d :: ds))
    with (String (digit_char d) (string_of_digits ds)).
  cbn [free_of]. rewrite (digit_char_neq d sep Hs Hd), IH. reflexivity.
Qed.

Lemma Itoa_free (sep : ascii) (v : Z) :
  digit_val sep = None -> Ascii.eqb minus sep = false -> free_of sep (Itoa v) = true.
Proof.
  intros Hs Hm. unfold Itoa. destruct (v <? 0) eqn:E.
  - apply Z.ltb_lt in E. cbn [free_of]. rewrite Hm. cbn [negb andb].
    apply string_of_digits_free; [assumption|].
    apply Forall_rev, digits_le_range. lia.
  - apply Z.ltb_ge in E. apply string_of_digits_free; [assumption|].
    apply Forall_rev, digits_le_range. lia.
Qed.

Lemma Itoa_plain (v : Z) : plain (Itoa v) = true.
Proof.
  unfold plain. rewrite !Itoa_free; reflexivity.
Qed.

Lemma parse_digits_app (a b : string) : forall n,
  parse_digits (a ++ b)%string n =
  match parse_digits a n with
  | Some m => parse_digits b m
  | None => None
  end.
Proof.
  induction a as [|c a IH]; intros n; cbn [String.append parse_digits]; [reflexivity|].
  destruct (digit_val c); [apply IH|reflexivity].
Qed.

(** Reading the digits written for [n] gives [n] back. *)
Lemma parse_digits_of_digits (fuel : nat) : forall n,
  0 <= n < 10 ^ Z.of_nat fuel ->
  parse_digits (string_of_digits (rev (digits_le fuel n))) 0 = Some n.
Proof.
  induction fuel as [|f IH]; intros n Hn.
  - simpl in Hn. assert (n = 0) by lia. subst n. reflexivity.
  - rewrite Nat2Z.inj_succ, Z.pow_succ_r in Hn by lia.
    cbn [digits_le]. destruct (n <? 10) eqn:E.
    + apply Z.ltb_lt in E.
      change (string_of_digits (rev [n])) with (String (digit_char n) EmptyString).
      cbn [parse_digits]. rewrite digit_val_digit_char by lia. reflexivity.
    + apply Z.ltb_ge in E. cbn [rev].
      rewrite string_of_digits_app, parse_digits_app.
      pose proof (Z.div_mod n 10 ltac:(lia)) as Hdm.
      pose proof (Z.mod_pos_bound n 10 ltac:(lia)) as Hm.
      rewrite IH by lia.
      change (string_of_digits [n mod 10])
        with (String (digit_char (n mod 10)) EmptyString).
      cbn [parse_digits]. rewrite digit_val_digit_char by lia.
      f_equal. lia.
Qed.

Lemma digits_le_nonempty (fuel : nat) (n : Z) : digits_le (S fuel) n <> [].
Proof.
  cbn [digits_le]. destruct (n <? 10); discriminate.
Qed.

Lemma string_of_digits_nonempty (ds : list Z) :
  ds <> [] -> string_of_digits ds <> EmptyString.
Proof.
  destruct ds as [|d ds]; [congruence|]. intros _. discriminate.
Qed.

Lemma rev_nonempty {A} (l : list A) : l <> [] -> rev l <> [].
Proof.
  destruct l as [|a l]; [congruence|]. intros _ H.
  apply (f_equal (@List.length A)) in H. simpl in H.
  rewrite length_app in H. simpl in H. lia.
Qed.

Lemma ParseUint_of_parse (s : string) : forall n m,
  parse_digits s n = Some m -> 0 <= n -> m <= max_uint64 ->
  ParseUint_loop s n = Value m.
Proof.
  induction s as [|c t IH]; intros n m; cbn [parse_digits ParseUint_loop].
  - intros [= <-] _ _. reflexivity.
  - destruct (digit_val c) as [d|] eqn:E; [|discriminate].
    apply digit_val_range in E. intros H Hn Hm.
    pose proof (parse_digits_nonneg _ _ _ H ltac:(lia)) as Hle.
    change (max_uint64 / 10 + 1) with 1844674407370955162.
    unfold max_uint64 in *.
    destruct (1844674407370955162 <=? n) eqn:E1; [apply Z.leb_le in E1; lia|].
    destruct (2 ^ 64 - 1 <? n * 10 + d) eqn:E2; [apply Z.ltb_lt in E2; lia|].
    apply IH; [assumption|lia|lia].
Qed.

Lemma first_digit_not_sign (c : ascii) (t : string) (n m : Z) :
  parse_digits (String c t) n = Some m ->
  Ascii.eqb c minus = false /\ Ascii.eqb c plus = false.
Proof.
  cbn [parse_digits]. destruct (digit_val c) eqn:E; [|discriminate]. intros _.
  split; apply Ascii.eqb_neq; intros ->; discriminate E.
Qed.

Lemma Atoi_digits (body : string) (n : Z) :
  body <> EmptyString -> parse_digits body 0 = Some n -> n < 2 ^ 63 ->
  Atoi body = n.
Proof.
  destruct body as [|c t]; [congruence|]. intros _ Hp Hn.
  destruct (first_digit_not_sign _ _ _ _ Hp) as [Hm Hpl].
  unfold Atoi, ParseInt. rewrite Hm, Hpl. cbn [orb].
  rewrite Hp, (ParseUint_of_parse _ _ _ Hp) by (unfold max_uint64; lia).
  destruct (2 ^ 63 <=? n) eqn:E; [apply Z.leb_le in E; lia|].
  destruct (_ && _); reflexivity.
Qed.

Lemma Atoi_minus_digits (body : string) (n : Z) :
  body <> EmptyString -> parse_digits body 0 = Some n -> n <= 2 ^ 63 ->
  Atoi (String minus body) = - n.
Proof.
  intros Hb Hp Hn. unfold Atoi, ParseInt. rewrite Ascii.eqb_refl. cbn [orb].
  destruct body as [|c t]; [congruence|].
  rewrite Hp, (ParseUint_of_parse _ _ _ Hp) by (unfold max_uint64; lia).
  destruct (2 ^ 63 <? n) eqn:E; [apply Z.ltb_lt in E; lia|].
  destruct (_ && _); reflexivity.
Qed.

(** [Atoi] reads back what [Itoa] writes for an [int64] value. *)
Lemma Atoi_Itoa (v : Z) : in_int64 v -> Atoi (Itoa v) = v.
Proof.
  unfold in_int64, min_int64, max_int64. intros Hv. unfold Itoa.
  destruct (v <? 0) eqn:E.
  - apply Z.ltb_lt in E.
    rewrite (Atoi_minus_digits _ (- v)); [lia| | |lia].
    + apply string_of_digits_nonempty, rev_nonempty, digits_le_nonempty.
    + apply parse_digits_of_digits. change (10 ^ Z.of_nat 20) with (10 ^ 20). lia.
  - apply Z.ltb_ge in E.
    apply Atoi_digits; [| |lia].
    + apply string_of_digits_nonempty, rev_nonempty, digits_le_nonempty.
    + apply parse_digits_of_digits. change (10 ^ Z.of_nat 20) with (10 ^ 20). lia.
Qed.

(** ** Lines of a dump *)

Lemma plain_semicolon (s : string) : plain s = true -> free_of semicolon s = true.
Proof. unfold plain. intros H. apply andb_prop in H. tauto. Qed.

Lemma plain_newline (s : string) : plain s = true -> free_of newline s = true.
Proof. unfold plain. intros H. apply andb_prop in H. tauto. Qed.

Lemma Split_Account_ToString (a : Account) :
  plain (acc_Phone a) = true ->
  Split semicolon (Account_ToString a)
  = [Itoa (acc_ID a); acc_Phone a; Itoa (acc_Balance a)].
Proof.
  intros Hp. unfold Account_ToString.
  change (Split semicolon
            (Itoa (acc_ID a) ++ String semicolon
               (acc_Phone a ++ String semicolon (Itoa (acc_Balance a))))%string
          = [Itoa (acc_ID a); acc_Phone a; Itoa (acc_Balance a)]).
  rewrite Split_app by apply plain_semicolon, Itoa_plain.
  rewrite Split_app by apply plain_semicolon, Hp.
  rewrite Split_free by apply plain_semicolon, Itoa_plain. reflexivity.
Qed.

Lemma Split_Payment_ToString (p : Payment) :
  plain (pay_ID p) = true -> plain (pay_Category p) = true ->
  plain (pay_Status p) = true ->
  Split semicolon (Payment_ToString p)
  = [pay_ID p; Itoa (pay_AccountID p); Itoa (pay_Amount p); pay_Category p;
     pay_Status p].
Proof.
  intros Hi Hc Hs. unfold Payment_ToString.
  change (Split semicolon
            (pay_ID p ++ String semicolon
               (Itoa (pay_AccountID p) ++ String semicolon
                  (Itoa (pay_Amount p) ++ String semicolon
                     (pay_Category p ++ String semicolon (pay_Status p)))))%string
          = [pay_ID p; Itoa (pay_AccountID p); Itoa (pay_Amount p); pay_Category p;
             pay_Status p]).
  rewrite Split_app by apply plain_semicolon, Hi.
  rewrite Split_app by apply plain_semicolon, Itoa_plain.
  rewrite Split_app by apply plain_semicolon, Itoa_plain.
  rewrite Split_app by apply plain_semicolon, Hc.
  rewrite Split_free by apply plain_semicolon, Hs. reflexivity.
Qed.

Lemma Split_Favorite_ToString (f : Favorite) :
  plain (fav_ID f) = true -> plain (fav_Name f) = true ->
  plain (fav_Category f) = true ->
  Split semicolon (Favorite_ToString f)
  = [fav_ID f; Itoa (fav_AccountID f); fav_Name f; Itoa (fav_Amount f);
     fav_Category f].
Proof.
  intros Hi Hn Hc. unfold Favorite_ToString.
  change (Split semicolon
            (fav_ID f ++ String semicolon
               (Itoa (fav_AccountID f) ++ String semicolon
                  (fav_Name f ++ String semicolon
                     (Itoa (fav_Amount f) ++ String semicolon (fav_Category f)))))%string
          = [fav_ID f; Itoa (fav_AccountID f); fav_Name f; Itoa (fav_Amount f);
             fav_Category f]).
  rewrite Split_app by apply plain_semicolon, Hi.
  rewrite Split_app by apply plain_semicolon, Itoa_plain.
  rewrite Split_app by apply plain_semicolon, Hn.
  rewrite Split_app by apply plain_semicolon, Itoa_plain.
  rewrite Split_free by apply plain_semicolon, Hc. reflexivity.
Qed.

Lemma Account_ToString_newline (a : Account) :
  plain (acc_Phone a) = true -> free_of newline (Account_ToString a) = true.
Proof.
  intros Hp. unfold Account_ToString. rewrite !free_of_app.
  rewrite !(plain_newline _ (Itoa_plain _)), (plain_newline _ Hp). reflexivity.
Qed.

Lemma Payment_ToString_newline (p : Payment) :
  plain (pay_ID p) = true -> plain (pay_Category p) = true ->
  plain (pay_Status p) = true -> free_of newline (Payment_ToString p) = true.
Proof.
  intros Hi Hc Hs. unfold Payment_ToString. rewrite !free_of_app.
  rewrite !(plain_newline _ (Itoa_plain _)), (plain_newline _ Hi),
    (plain_newline _ Hc), (plain_newline _ Hs). reflexivity.
Qed.

Lemma Favorite_ToString_newline (f : Favorite) :
  plain (fav_ID f) = true -> plain (fav_Name f) = true ->
  plain (fav_Category f) = true -> free_of newline (Favorite_ToString f) = true.
Proof.
  intros Hi Hn Hc. unfold Favorite_ToString. rewrite !free_of_app.
  rewrite !(plain_newline _ (Itoa_plain _)), (plain_newline _ Hi),
    (plain_newline _ Hn), (plain_newline _ Hc). reflexivity.
Qed.

Lemma fold_left_builder {A} (g : A -> string) (l : list A) : forall acc,
  fold_left (fun data x => (data ++ g x)%string) l acc
  = (acc ++ fold_left (fun data x => (data ++ g x)%string) l EmptyString)%string.
Proof.
  induction l as [|x l IH]; intros acc; simpl.
  - rewrite string_app_nil_r. reflexivity.
  - rewrite (IH (acc ++ g x)%string), (IH (g x)), string_app_assoc. reflexivity.
Qed.

Lemma dump_cons {A} (to_string : A -> string) (x : A) (l : list A) :
  dump to_string (x :: l) = (to_string x ++ String newline (dump to_string l))%string.
Proof.
  unfold dump. simpl. rewrite fold_left_builder, string_app_assoc. reflexivity.
Qed.

(** The lines of a dump are the records written, followed by the empty
    string after the last line separator. *)
Lemma Split_dump {A} (to_string : A -> string) (l : list A) :
  Forall (fun x => free_of newline (to_string x) = true) l ->
  Split newline (dump to_string l) = map to_string l ++ [EmptyString].
Proof.
  induction 1 as [|x l Hx _ IH]; [reflexivity|].
  rewrite dump_cons, Split_app by assumption. rewrite IH. reflexivity.
Qed.

(** ** Import of the lines written by Export *)

Lemma for_each_app {A S} (body : S -> A -> outcome S) (l1 l2 : list A) : forall st,
  for_each body (l1 ++ l2) st = bind (for_each body l1 st) (for_each body l2).
Proof.
  induction l1 as [|a l1 IH]; intros st; simpl; [reflexivity|].
  destruct (body st a); [apply IH|reflexivity].
Qed.

Lemma NoDup_map_app_cons {A B} (f : A -> B) (l1 l2 : list A) (a : A) :
  NoDup (map f (l1 ++ a :: l2)) -> forall x, In x l1 -> f x <> f a.
Proof.
  rewrite map_app. simpl. intros H x Hx E.
  apply NoDup_remove_2 in H. apply H. apply in_or_app. left.
  rewrite <- E. apply in_map, Hx.
Qed.

Lemma import_account_line (s : Service) (a : Account) :
  exportable_Account a ->
  import_account s (Account_ToString a) =
  Returns
    match FindAccountByID s (acc_ID a) with
    | Ok i =>
        set_accounts s
          (upd_slice i (fun fw => mkAccount (acc_ID fw) (acc_Phone a) (acc_Balance a))
             (accounts s))
    | Err _ => mkService (acc_ID a) (append (accounts s) a) (payments s) (favorites s)
    end.
Proof.
  intros (Hi & Hb & Hp). unfold import_account.
  rewrite (Split_Account_ToString a Hp).
  cbn [List.length Nat.ltb Nat.leb field nth nth_error].
  rewrite (Atoi_Itoa _ Hi), (Atoi_Itoa _ Hb).
  destruct (FindAccountByID s (acc_ID a)); [reflexivity|].
  destruct a; reflexivity.
Qed.

Lemma import_payment_line (s : Service) (p : Payment) :
  exportable_Payment p ->
  import_payment s (Payment_ToString p) =
  Returns
    match FindPaymentByID s (pay_ID p) with
    | Ok i =>
        set_payments s
          (upd_slice i
             (fun py => mkPayment (pay_ID py) (pay_AccountID p) (pay_Amount p)
                          (pay_Category p) (pay_Status p))
             (payments s))
    | Err _ => set_payments s (append (payments s) p)
    end.
Proof.
  intros (Ha & Hm & Hi & Hc & Hs). unfold import_payment.
  rewrite (Split_Payment_ToString p Hi Hc Hs).
  cbn [List.length Nat.ltb Nat.leb field nth nth_error].
  rewrite (Atoi_Itoa _ Ha), (Atoi_Itoa _ Hm).
  destruct (FindPaymentByID s (pay_ID p)); [reflexivity|].
  destruct p; reflexivity.
Qed.

Lemma import_favorite_line (uuid : nat -> string) (s : Service) (k : nat)
  (f : Favorite) :
  exportable_Favorite f ->
  import_favorite uuid (s, k) (Favorite_ToString f) =
  Returns
    match FindFavoriteByID s (fav_ID f) with
    | Ok i =>
        (set_favorites s
           (upd_slice i
              (fun fw => mkFavorite (fav_ID fw) (fav_AccountID f) (fav_Name f)
                           (fav_Amount f) (fav_Category f))
              (favorites s)), k)
    | Err _ =>
        (set_favorites s
           (append (favorites s)
              (mkFavorite (uuid k) (fav_AccountID f) (fav_Name f) (fav_Amount f)
                 (fav_Category f))), S k)
    end.
Proof.
  intros (Ha & Hm & Hi & Hn & Hc). unfold import_favorite.
  rewrite (Split_Favorite_ToString f Hi Hn Hc).
  cbn [List.length Nat.ltb Nat.leb field nth nth_error].
  rewrite (Atoi_Itoa _ Ha), (Atoi_Itoa _ Hm).
  destruct (FindFavoriteByID s (fav_ID f)); reflexivity.
Qed.

(** The accounts loop of [Import] over the lines of accounts whose
    identifiers are new to the store and pairwise distinct appends them as
    they were written. *)
Lemma import_accounts_fresh (l : list Account) : forall s,
  Forall exportable_Account l ->
  NoDup (map acc_ID (elems (accounts s) ++ l)) ->
  exists s',
    for_each import_account (map Account_ToString l) s = Returns s' /\
    elems (accounts s') = elems (accounts s) ++ l /\
    payments s' = payments s /\ favorites s' = favorites s.
Proof.
  induction l as [|a l IH]; intros s Hl Hnd.
  - exists s. rewrite app_nil_r. auto.
  - inversion Hl as [|a' l' Ha Hl']; subst. cbn [map for_each].
    rewrite (import_account_line s a Ha). unfold FindAccountByID.
    assert (Hmiss : first_index (has_acc_ID (acc_ID a)) (elems (accounts s)) = None).
    { apply first_index_None. intros x Hx. unfold has_acc_ID. apply Z.eqb_neq.
      apply (NoDup_map_app_cons acc_ID _ _ _ Hnd x Hx). }
    rewrite Hmiss.
    destruct (IH (mkService (acc_ID a) (append (accounts s) a) (payments s)
                    (favorites s)) Hl') as (s' & Hrun & Hacc & Hp & Hf).
    { simpl. rewrite <- app_assoc. exact Hnd. }
    exists s'. split; [exact Hrun|]. simpl in Hacc, Hp, Hf.
    rewrite Hacc, <- app_assoc. auto.
Qed.

Lemma import_payments_fresh (l : list Payment) : forall s,
  Forall exportable_Payment l ->
  NoDup (map pay_ID (elems (payments s) ++ l)) ->
  exists s',
    for_each import_payment (map Payment_ToString l) s = Returns s' /\
    elems (payments s') = elems (payments s) ++ l /\
    accounts s' = accounts s /\ favorites s' = favorites s /\
    nextAccountID s' = nextAccountID s.
Proof.
  induction l as [|p l IH]; intros s Hl Hnd.
  - exists s. rewrite app_nil_r. auto.
  - inversion Hl as [|p' l' Hp Hl']; subst. cbn [map for_each].
    rewrite (import_payment_line s p Hp). unfold FindPaymentByID.
    assert (Hmiss : first_index (has_pay_ID (pay_ID p)) (elems (payments s)) = None).
    { apply first_index_None. intros x Hx. unfold has_pay_ID. apply String.eqb_neq.
      apply (NoDup_map_app_cons pay_ID _ _ _ Hnd x Hx). }
    rewrite Hmiss.
    destruct (IH (set_payments s (append (payments s) p)) Hl')
      as (s' & Hrun & Hpay & Ha & Hf & Hn).
    { simpl. rewrite <- app_assoc. exact Hnd. }
    exists s'. split; [exact Hrun|]. simpl in Hpay, Ha, Hf, Hn.
    rewrite Hpay, <- app_assoc. auto.
Qed.

Lemma renumber_fav_ID (uuid : nat -> string) (l : list Favorite) : forall k g,
  In g (renumber uuid k l) -> exists j, fav_ID g = uuid j.
Proof.
  induction l as [|f l IH]; intros k g; simpl; [intros []|].
  intros [<-|H]; [exists k; reflexivity|apply (IH _ _ H)].
Qed.

(** The favorites loop of [Import] over the lines of favorites whose
    identifiers are not in the store and are not drawn appends them under
    the identifiers drawn. *)
Lemma import_favorites_fresh (uuid : nat -> string) (l : list Favorite) : forall s k,
  Forall exportable_Favorite l ->
  (forall j f, In f l -> uuid j <> fav_ID f) ->
  (forall g f, In g (elems (favorites s)) -> In f l -> fav_ID g <> fav_ID f) ->
  exists s',
    for_each (import_favorite uuid) (map Favorite_ToString l) (s, k)
    = Returns (s', (k + List.length l)%nat) /\
    elems (favorites s') = elems (favorites s) ++ renumber uuid k l /\
    accounts s' = accounts s /\ payments s' = payments s /\
    nextAccountID s' = nextAccountID s.
Proof.
  induction l as [|f l IH]; intros s k Hl Hu Hs.
  - exists s. simpl. rewrite app_nil_r, Nat.add_0_r. auto.
  - inversion Hl as [|f' l' Hf Hl']; subst. cbn [map for_each].
    rewrite (import_favorite_line uuid s k f Hf). unfold FindFavoriteByID.
    assert (Hmiss : first_index (has_fav_ID (fav_ID f)) (elems (favorites s)) = None).
    { apply first_index_None. intros x Hx. unfold has_fav_ID. apply String.eqb_neq.
      apply (Hs x f Hx). left. reflexivity. }
    rewrite Hmiss.
    destruct (IH (set_favorites s
                    (append (favorites s)
                       (mkFavorite (uuid k) (fav_AccountID f) (fav_Name f)
                          (fav_Amount f) (fav_Category f)))) (S k) Hl')
      as (s' & Hrun & Hfav & Ha & Hp & Hn).
    { intros j x Hx. apply Hu. right. exact Hx. }
    { simpl. intros g x Hg Hx. apply in_app_or in Hg. destruct Hg as [Hg|[<-|[]]].
      - apply (Hs g x Hg). right. exact Hx.
      - simpl. apply Hu. right. exact Hx. }
    exists s'. split.
    { rewrite Hrun. simpl. rewrite Nat.add_succ_r. reflexivity. }
    simpl in Hfav, Ha, Hp, Hn. rewrite Hfav, <- app_assoc. auto.
Qed.

Lemma read_Export_accounts (s : Service) :
  read (accounts_dump (Export s empty_Dir)) = dump Account_ToString (elems (accounts s)).
Proof.
  unfold Export.
  destruct (elems (accounts s)), (elems (favorites s)), (elems (payments s));
    reflexivity.
Qed.

Lemma read_Export_payments (s : Service) :
  read (payments_dump (Export s empty_Dir)) = dump Payment_ToString (elems (payments s)).
Proof.
  unfold Export.
  destruct (elems (accounts s)), (elems (favorites s)), (elems (payments s));
    reflexivity.
Qed.

Lemma read_Export_favorites (s : Service) :
  read (favorites_dump (Export s empty_Dir))
  = dump Favorite_ToString (elems (favorites s)).
Proof.
  unfold Export.
  destruct (elems (accounts s)), (elems (favorites s)), (elems (payments s));
    reflexivity.
Qed.

Lemma semicolon_category_round_trip :
  round_trip (fun _ => "g") semicolon_category =
  Returns (mkService 1 (Some [mkAccount 1 "+992000000001" 50000])
             (Some [mkPayment "p1" 1 50000 "food" "drink"]) (Some [])).
Proof. vm_compute. reflexivity. Qed.

Lemma C6_counterexample :
  ~ (forall uuid s,
       exists s',
         round_trip uuid s = Returns s' /\
         elems (accounts s') = elems (accounts s) /\
         elems (payments s') = elems (payments s)).
Proof.
  intros H. destruct (H (fun _ => "g") semicolon_category) as (s' & Hr & _ & Hp).
  rewrite semicolon_category_round_trip in Hr. injection Hr as <-.
  vm_compute in Hp. discriminate Hp.
Qed.

(** ** The round trip *)

Lemma test_export_store_eq :
  test_export_store =
  mkService 3
    (Some [mkAccount 1 "+992928885522" 0; mkAccount 2 "+992928000000" 0;
           mkAccount 3 "+992928811111" 495])
    (Some [mkPayment "u1" 3 5 "salom" PaymentStatusInProgress])
    (Some [mkFavorite "u2" 3 "sidal" 5 "salom"]).
Proof. vm_compute. reflexivity. Qed.

Lemma in_int64_small (z : Z) : -1000000 <= z <= 1000000 -> in_int64 z.
Proof. unfold in_int64, min_int64, max_int64. lia. Qed.

Lemma test_export_store_exportable : exportable test_export_store.
Proof.
  rewrite test_export_store_eq. unfold exportable. simpl.
  repeat split; repeat constructor; simpl;
    try (apply in_int64_small; lia); try reflexivity;
    try (intros H; repeat (destruct H as [H|H]; try discriminate H); exact H).
Qed.

(** C6, amended.  Let the numbers of the store be [int64] values, let no
    text field hold a semicolon or a line feed, let no two accounts and no
    two payments share an identifier, and let the identifiers drawn during
    the import differ from those of the exported favorites.  Then [Export]
    into an empty directory followed by [Import] into a store whose slices
    were made empty returns, with the same accounts and the same payments,
    in the same order, and with the favorites in the same order under the
    identifiers drawn. *)
Theorem C6_Export_then_Import (uuid : nat -> string) (s : Service) :
  exportable s ->
  fresh_for uuid s ->
  exists s',
    round_trip uuid s = Returns s' /\
    elems (accounts s') = elems (accounts s) /\
    elems (payments s') = elems (payments s) /\
    elems (favorites s') = renumber uuid 0 (elems (favorites s)).
Proof.
  intros (Ha & Hna & Hp & Hnp & Hf) Hfresh. unfold round_trip, Import.
  change (is_nil (accounts made_Service)) with false. cbv iota.
  rewrite read_Export_accounts, read_Export_payments, read_Export_favorites.
  rewrite Split_dump.
  2:{ revert Ha. apply Forall_impl. intros a (_ & _ & H).
      apply Account_ToString_newline, H. }
  rewrite for_each_app.
  destruct (import_accounts_fresh (elems (accounts s)) made_Service Ha Hna)
    as (s1 & R1 & A1 & P1 & F1).
  rewrite R1. cbn [bind].
  change (for_each import_account [EmptyString] s1) with (Returns s1). cbn [bind].
  rewrite P1. change (is_nil (payments made_Service)) with false. cbv iota.
  rewrite Split_dump.
  2:{ revert Hp. apply Forall_impl. intros p (_ & _ & H1 & H2 & H3).
      apply Payment_ToString_newline; assumption. }
  rewrite for_each_app.
  destruct (import_payments_fresh (elems (payments s)) s1 Hp)
    as (s2 & R2 & P2 & A2 & F2 & _).
  { rewrite P1. exact Hnp. }
  rewrite R2. cbn [bind].
  change (for_each import_payment [EmptyString] s2) with (Returns s2). cbn [bind].
  rewrite F2, F1. change (is_nil (favorites made_Service)) with false. cbv iota.
  rewrite Split_dump.
  2:{ revert Hf. apply Forall_impl. intros f (_ & _ & H1 & H2 & H3).
      apply Favorite_ToString_newline; assumption. }
  rewrite for_each_app.
  destruct (import_favorites_fresh uuid (elems (favorites s)) s2 O Hf)
    as (s3 & R3 & F3 & A3 & P3 & _).
  { exact Hfresh. }
  { rewrite F2, F1. intros g f []. }
  rewrite R3. cbn [bind].
  change (for_each (import_favorite uuid) [EmptyString]
            (s3, (0 + List.length (elems (favorites s)))%nat))
    with (Returns (s3, (0 + List.length (elems (favorites s)))%nat)).
  cbn [bind fst]. exists s3. split; [reflexivity|].
  rewrite A3, A2, A1, P3, P2, P1, F3, F2, F1. auto.
Qed.

Lemma C6_Export_then_Import_witness :
  exists s',
    round_trip (fun _ => "g") test_export_store = Returns s' /\
    elems (accounts s') = elems (accounts test_export_store) /\
    elems (payments s') = elems (payments test_export_store) /\
    elems (favorites s') = renumber (fun _ => "g") 0 (elems (favorites test_export_store)).
Proof.
  apply (C6_Export_then_Import (fun _ => "g") test_export_store).
  - exact test_export_store_exportable.
  - rewrite test_export_store_eq. simpl. intros _ f [<-|[]]. discriminate.
Defined.

(** ** Import into nil slices *)

Lemma for_each_inv {A S} (P : S -> Prop) (body : S -> A -> outcome S) (l : list A) :
  (forall st a st', P st -> body st a = Returns st' -> P st') ->
  forall st st', P st -> for_each body l st = Returns st' -> P st'.
Proof.
  intros Hbody. induction l as [|a l IH]; intros st st' HP; simpl.
  - intros [= <-]. exact HP.
  - destruct (body st a) as [st1|] eqn:E; [|discriminate].
    apply IH. apply (Hbody st a st1 HP E).
Qed.

(** The accounts loop of [Import] touches neither the payments nor the
    favorites. *)
Lemma import_account_frame (s s' : Service) (ac : string) :
  import_account s ac = Returns s' ->
  payments s' = payments s /\ favorites s' = favorites s.
Proof.
  unfold import_account. destruct (_ <? 2)%nat; [intros [= <-]; auto|].
  destruct (nth_error _ 2); [|discriminate].
  destruct (FindAccountByID _ _); intros [= <-]; auto.
Qed.

(** The payments loop touches the payments only. *)
Lemma import_payment_frame (s s' : Service) (ac : string) :
  import_payment s ac = Returns s' ->
  accounts s' = accounts s /\ favorites s' = favorites s /\
  nextAccountID s' = nextAccountID s.
Proof.
  unfold import_payment. destruct (_ <? 2)%nat; [intros [= <-]; auto|].
  destruct (nth_error _ 2); [|discriminate].
  destruct (nth_error _ 3); [|discriminate].
  destruct (nth_error _ 4); [|discriminate].
  destruct (FindPaymentByID _ _); intros [= <-]; auto.
Qed.

(** The favorites loop touches the favorites only. *)
Lemma import_favorite_frame (uuid : nat -> string) (st st' : Service * nat)
  (ac : string) :
  import_favorite uuid st ac = Returns st' ->
  accounts (fst st') = accounts (fst st) /\ payments (fst st') = payments (fst st) /\
  nextAccountID (fst st') = nextAccountID (fst st).
Proof.
  unfold import_favorite. destruct st as [s k].
  destruct (_ <? 2)%nat; [intros [= <-]; auto|].
  destruct (nth_error _ 2); [|discriminate].
  destruct (nth_error _ 3); [|discriminate].
  destruct (nth_error _ 4); [|discriminate].
  destruct (FindFavoriteByID _ _); intros [= <-]; auto.
Qed.

(** The three stages of a call of [Import] that returns. *)
Lemma Import_stages (uuid : nat -> string) (s s' : Service) (d : Dir) :
  Import uuid s d = Returns s' ->
  exists s1 s2,
    (if is_nil (accounts s) then Returns s
     else for_each import_account (Split newline (read (accounts_dump d))) s)
    = Returns s1 /\
    (if is_nil (payments s1) then Returns s1
     else for_each import_payment (Split newline (read (payments_dump d))) s1)
    = Returns s2 /\
    (if is_nil (favorites s2) then s' = s2
     else exists k,
            for_each (import_favorite uuid) (Split newline (read (favorites_dump d)))
              (s2, O) = Returns (s', k)).
Proof.
  unfold Import.
  destruct (if is_nil (accounts s) then _ else _) as [s1|] eqn:E1; [|discriminate].
  cbn [bind].
  destruct (if is_nil (payments s1) then _ else _) as [s2|] eqn:E2; [|discriminate].
  cbn [bind]. intros H. exists s1, s2. split; [reflexivity|]. split; [exact E2|].
  destruct (is_nil (favorites s2)).
  - injection H as <-. reflexivity.
  - revert H.
    destruct (for_each (import_favorite uuid) _ _) as [[s3 k]|]; [|discriminate].
    cbn [bind fst]. intros [= <-]. exists k. reflexivity.
Qed.

(** Each collection is gated by its own slice: whatever the files hold, a
    slice that is nil is nil after [Import], and with nil accounts the
    counter stays. *)
Lemma Import_keeps_nil (uuid : nat -> string) (s s' : Service) (d : Dir) :
  Import uuid s d = Returns s' ->
  (accounts s = None -> accounts s' = None /\ nextAccountID s' = nextAccountID s) /\
  (payments s = None -> payments s' = None) /\
  (favorites s = None -> favorites s' = None).
Proof.
  intros H. destruct (Import_stages uuid s s' d H) as (s1 & s2 & H1 & H2 & H3).
  assert (F1 : payments s1 = payments s /\ favorites s1 = favorites s).
  { destruct (is_nil (accounts s)); [injection H1 as <-; auto|].
    refine (for_each_inv
              (fun st => payments st = payments s /\ favorites st = favorites s)
              import_account _ _ s s1 (conj eq_refl eq_refl) H1).
    intros st a st' (Hp & Hf) E. destruct (import_account_frame _ _ _ E) as (-> & ->).
    auto. }
  assert (F2 : accounts s2 = accounts s1 /\ favorites s2 = favorites s1 /\
               nextAccountID s2 = nextAccountID s1).
  { destruct (is_nil (payments s1)); [injection H2 as <-; auto|].
    refine (for_each_inv
              (fun st => accounts st = accounts s1 /\ favorites st = favorites s1 /\
                         nextAccountID st = nextAccountID s1)
              import_payment _ _ s1 s2 (conj eq_refl (conj eq_refl eq_refl)) H2).
    intros st a st' (Ha & Hf & Hn) E.
    destruct (import_payment_frame _ _ _ E) as (-> & -> & ->). auto. }
  assert (F3 : accounts s' = accounts s2 /\ payments s' = payments s2 /\
               nextAccountID s' = nextAccountID s2).
  { destruct (is_nil (favorites s2)); [subst s'; auto|]. destruct H3 as (k & H3).
    refine (for_each_inv
              (fun st => accounts (fst st) = accounts s2 /\
                         payments (fst st) = payments s2 /\
                         nextAccountID (fst st) = nextAccountID s2)
              (import_favorite uuid) _ _ (s2, O) (s', k)
              (conj eq_refl (conj eq_refl eq_refl)) H3).
    intros st a st' (Ha & Hp & Hn) E.
    destruct (import_favorite_frame _ _ _ _ E) as (-> & -> & ->). auto. }
  destruct F1 as (P1 & V1), F2 as (A2 & V2 & N2), F3 as (A3 & P3 & N3).
  split; [|split].
  - intros Hnil. rewrite Hnil in H1. cbn [is_nil] in H1. injection H1 as <-.
    rewrite A3, A2, N3, N2. auto.
  - intros Hnil. rewrite <- P1 in Hnil. rewrite Hnil in H2. cbn [is_nil] in H2.
    injection H2 as <-. rewrite P3. exact Hnil.
  - intros Hnil. rewrite <- V1, <- V2 in Hnil. rewrite Hnil in H3. cbn [is_nil] in H3.
    subst s'. exact Hnil.
Qed.

(** With the payments and the favorites nil, the accounts are imported
    all the same. *)
Lemma Import_accounts_alone (uuid : nat -> string) (n : Z) (l : list Account)
  (a : Account) (pd fd : option string) :
  exportable_Account a ->
  (forall x, In x l -> acc_ID x <> acc_ID a) ->
  Import uuid (mkService n (Some l) None None) (mkDir (Some (Account_ToString a)) pd fd)
  = Returns (mkService (acc_ID a) (Some (l ++ [a])) None None).
Proof.
  intros Ha Hnew. unfold Import. cbn [accounts is_nil accounts_dump read].
  rewrite Split_free
    by (destruct Ha as (_ & _ & H); apply Account_ToString_newline, H).
  cbn [for_each]. rewrite (import_account_line _ a Ha). unfold FindAccountByID.
  cbn [accounts elems].
  replace (first_index (has_acc_ID (acc_ID a)) l) with (@None nat); [reflexivity|].
  symmetry. apply first_index_None. intros x Hx. apply Z.eqb_neq. auto.
Qed.

(** With the accounts and the favorites nil, the payments are imported
    all the same. *)
Lemma Import_payments_alone (uuid : nat -> string) (n : Z) (l : list Payment)
  (p : Payment) (ad fd : option string) :
  exportable_Payment p ->
  (forall x, In x l -> pay_ID x <> pay_ID p) ->
  Import uuid (mkService n None (Some l) None) (mkDir ad (Some (Payment_ToString p)) fd)
  = Returns (mkService n None (Some (l ++ [p])) None).
Proof.
  intros Hp Hnew. unfold Import. cbn [accounts payments is_nil payments_dump read bind].
  rewrite Split_free
    by (destruct Hp as (_ & _ & H1 & H2 & H3); apply Payment_ToString_newline; assumption).
  cbn [for_each]. rewrite (import_payment_line _ p Hp). unfold FindPaymentByID.
  cbn [payments elems].
  replace (first_index (has_pay_ID (pay_ID p)) l) with (@None nat); [reflexivity|].
  symmetry. apply first_index_None. intros x Hx. apply String.eqb_neq. auto.
Qed.

(** With the accounts and the payments nil, the favorites are imported
    all the same. *)
Lemma Import_favorites_alone (uuid : nat -> string) (n : Z) (l : list Favorite)
  (f : Favorite) (ad pd : option string) :
  exportable_Favorite f ->
  (forall x, In x l -> fav_ID x <> fav_ID f) ->
  Import uuid (mkService n None None (Some l)) (mkDir ad pd (Some (Favorite_ToString f)))
  = Returns
      (mkService n None None
         (Some (l ++ [mkFavorite (uuid O) (fav_AccountID f) (fav_Name f) (fav_Amount f)
                        (fav_Category f)]))).
Proof.
  intros Hf Hnew. unfold Import.
  cbn [accounts payments favorites is_nil favorites_dump read bind].
  rewrite Split_free
    by (destruct Hf as (_ & _ & H1 & H2 & H3); apply Favorite_ToString_newline; assumption).
  cbn [for_each]. rewrite (import_favorite_line uuid _ O f Hf). unfold FindFavoriteByID.
  cbn [favorites elems].
  replace (first_index (has_fav_ID (fav_ID f)) l) with (@None nat); [reflexivity|].
  symmetry. apply first_index_None. intros x Hx. apply String.eqb_neq. auto.
Qed.

(** C10.  [Import] works on a collection only when the slice of that
    collection is not nil, each collection under its own test.  Whatever
    the files hold, a slice that is nil is nil when [Import] returns, and
    with nil accounts the counter is as it was; in particular a service
    whose three slices are nil comes back as it was, and the zero value
    stays empty when the files exist and hold well-formed records.  A slice
    that is not nil is worked on although the other two are nil: the record
    of a well-formed line with a new identifier is appended, to the
    accounts, to the payments or to the favorites. *)
Theorem C10_Import_into_nil_slices (uuid : nat -> string) :
  (forall n d,
     Import uuid (mkService n None None None) d = Returns (mkService n None None None)) /\
  (forall s s' d,
     Import uuid s d = Returns s' ->
     (accounts s = None -> accounts s' = None /\ nextAccountID s' = nextAccountID s) /\
     (payments s = None -> payments s' = None) /\
     (favorites s = None -> favorites s' = None)) /\
  (forall n l a pd fd,
     exportable_Account a -> (forall x, In x l -> acc_ID x <> acc_ID a) ->
     Import uuid (mkService n (Some l) None None)
       (mkDir (Some (Account_ToString a)) pd fd)
     = Returns (mkService (acc_ID a) (Some (l ++ [a])) None None)) /\
  (forall n l p ad fd,
     exportable_Payment p -> (forall x, In x l -> pay_ID x <> pay_ID p) ->
     Import uuid (mkService n None (Some l) None)
       (mkDir ad (Some (Payment_ToString p)) fd)
     = Returns (mkService n None (Some (l ++ [p])) None)) /\
  (forall n l f ad pd,
     exportable_Favorite f -> (forall x, In x l -> fav_ID x <> fav_ID f) ->
     Import uuid (mkService n None None (Some l))
       (mkDir ad pd (Some (Favorite_ToString f)))
     = Returns
         (mkService n None None
            (Some (l ++ [mkFavorite (uuid O) (fav_AccountID f) (fav_Name f)
                           (fav_Amount f) (fav_Category f)])))) /\
  Import uuid zero_Service (Export demo_paid empty_Dir) = Returns zero_Service /\
  accounts_dump (Export demo_paid empty_Dir)
  = Some ("1;+992000000001;50000" ++ str newline)%string /\
  payments_dump (Export demo_paid empty_Dir)
  = Some ("p1;1;50000;food;INPROGRESS" ++ str newline)%string /\
  Import uuid (mkService 0 None (Some []) None) (Export demo_paid empty_Dir)
  = Returns
      (mkService 0 None (Some [mkPayment "p1" 1 50000 "food" PaymentStatusInProgress])
         None).
Proof.
  split; [intros n d; reflexivity|].
  split; [intros s s' d; apply Import_keeps_nil|].
  split; [intros n l a pd fd; apply Import_accounts_alone|].
  split; [intros n l p ad fd; apply Import_payments_alone|].
  split; [intros n l f ad pd; apply Import_favorites_alone|].
  repeat split; reflexivity.
Qed.

(** ** Balances along a run *)

Lemma for_each_inv_lines {A S} (P : S -> Prop) (Q : A -> bool)
  (body : S -> A -> outcome S) (l : list A) :
  (forall st a st', Q a = true -> P st -> body st a = Returns st' -> P st') ->
  forallb Q l = true ->
  forall st st', P st -> for_each body l st = Returns st' -> P st'.
Proof.
  intros Hbody. induction l as [|a l IH]; intros HQ st st' HP; simpl.
  - intros [= <-]. exact HP.
  - simpl in HQ. apply andb_prop in HQ. destruct HQ as [Ha HQ].
    destruct (body st a) as [st1|] eqn:E; [|discriminate].
    apply (IH HQ). apply (Hbody st a st1 Ha HP E).
Qed.

(** A line of [accounts.dump] whose balance is not negative keeps the
    balances non-negative [int64] values. *)
Lemma import_account_ok (s s' : Service) (ac : string) :
  line_fits (fun balance => 0 <=? balance) ac = true ->
  ledger_ok s -> import_account s ac = Returns s' -> ledger_ok s'.
Proof.
  unfold line_fits, import_account. intros Hfit [Ha Hp].
  destruct (_ <? 2)%nat; [intros [= <-]; split; assumption|].
  destruct (nth_error _ 2) as [f2|]; [|discriminate].
  apply Z.leb_le in Hfit. pose proof (Atoi_range f2) as Hr.
  unfold in_int64 in Hr.
  destruct (FindAccountByID _ _) as [i|e]; intros [= <-]; unfold ledger_ok; simpl.
  - split; [|assumption]. rewrite elems_upd_slice.
    apply Forall_upd; [assumption|]. intros a _ _. simpl. lia.
  - split; [|assumption]. apply Forall_app. split; [assumption|].
    constructor; [simpl; lia|constructor].
Qed.

(** A line of [payments.dump] whose amount is not negative keeps the
    amounts non-negative. *)
Lemma import_payment_ok (s s' : Service) (ac : string) :
  line_fits (fun amount => 0 <=? amount) ac = true ->
  ledger_ok s -> import_payment s ac = Returns s' -> ledger_ok s'.
Proof.
  unfold line_fits, import_payment. intros Hfit [Ha Hp].
  destruct (_ <? 2)%nat; [intros [= <-]; split; assumption|].
  destruct (nth_error _ 2) as [f2|]; [|discriminate].
  destruct (nth_error _ 3); [|discriminate].
  destruct (nth_error _ 4); [|discriminate].
  apply Z.leb_le in Hfit.
  destruct (FindPaymentByID _ _) as [i|e]; intros [= <-]; unfold ledger_ok; simpl.
  - split; [assumption|]. rewrite elems_upd_slice.
    apply Forall_upd; [assumption|]. intros p _ _. simpl. lia.
  - split; [assumption|]. apply Forall_app. split; [assumption|].
    constructor; [simpl; lia|constructor].
Qed.

Lemma import_favorite_ok (uuid : nat -> string) (st st' : Service * nat)
  (ac : string) :
  ledger_ok (fst st) -> import_favorite uuid st ac = Returns st' -> ledger_ok (fst st').
Proof.
  intros Hok E. destruct (import_favorite_frame _ _ _ _ E) as (Ha & Hp & _).
  unfold ledger_ok in *. rewrite Ha, Hp. exact Hok.
Qed.

(** [Import] of a directory whose dumps hold no negative balance and no
    negative amount keeps the balances non-negative. *)
Lemma Import_ok (uuid : nat -> string) (s s' : Service) (d : Dir) :
  dump_fits d = true -> ledger_ok s -> Import uuid s d = Returns s' -> ledger_ok s'.
Proof.
  unfold dump_fits. intros Hfit Hok H. apply andb_prop in Hfit.
  destruct Hfit as [Hfa Hfp].
  destruct (Import_stages uuid s s' d H) as (s1 & s2 & H1 & H2 & H3).
  assert (Hok1 : ledger_ok s1).
  { destruct (is_nil (accounts s)); [injection H1 as <-; assumption|].
    refine (for_each_inv_lines ledger_ok _ import_account _ _ Hfa s s1 Hok H1).
    intros st a st' Ha HP E. apply (import_account_ok _ _ _ Ha HP E). }
  assert (Hok2 : ledger_ok s2).
  { destruct (is_nil (payments s1)); [injection H2 as <-; assumption|].
    refine (for_each_inv_lines ledger_ok _ import_payment _ _ Hfp s1 s2 Hok1 H2).
    intros st a st' Ha HP E. apply (import_payment_ok _ _ _ Ha HP E). }
  destruct (is_nil (favorites s2)); [subst s'; assumption|]. destruct H3 as (k & H3).
  refine (for_each_inv (fun st => ledger_ok (fst st)) (import_favorite uuid) _ _
            (s2, O) (s', k) Hok2 H3).
  intros st a st' HP E. apply (import_favorite_ok uuid _ _ _ HP E).
Qed.

Lemma step_ok (s s' : Service) (o : op) :
  ledger_ok s -> dumps_fit [o] = true -> credit_fits s o = true ->
  step s o = Returns s' -> ledger_ok s'.
Proof.
  intros Hok Hd Hfit. destruct o as [l|file|uuid d]; simpl.
  - intros [= <-].
    apply (effect_preserves_ok _ _ _ _ Hok (ledger_step_effect s l) Hfit).
  - destruct file as [data|]; simpl.
    + destruct (ImportFromFile_loop _ s) as [[s1 r]|] eqn:E; simpl; [|discriminate].
      intros [= <-]. apply (ImportFromFile_loop_ok _ _ _ _ Hok E).
    + intros [= <-]. assumption.
  - simpl in Hd. rewrite andb_true_r in Hd. apply (Import_ok uuid s s' d Hd Hok).
Qed.

Lemma run_ok (ops : list op) : forall s s',
  ledger_ok s -> dumps_fit ops = true -> credits_fit ops s = true ->
  run ops s = Returns s' -> ledger_ok s'.
Proof.
  induction ops as [|o rest IH]; intros s s' Hok Hd Hfit; simpl in *.
  - intros [= <-]. assumption.
  - apply andb_prop in Hd. destruct Hd as [Ho Hd].
    apply andb_prop in Hfit. destruct Hfit as [Hf Hfit].
    destruct (step s o) as [s1|] eqn:E; simpl; [|discriminate].
    apply IH; try assumption.
    apply (step_ok _ _ _ Hok ltac:(simpl; rewrite Ho; reflexivity) Hf E).
Qed.

Lemma import_negative_run :
  run import_negative zero_Service =
  Returns (mkService 1 (Some [mkAccount 1 "+992000000001" (-5)]) None None).
Proof. vm_compute. reflexivity. Qed.

Lemma deposit_overflow_run :
  run deposit_overflow zero_Service =
  Returns (mkService 1 (Some [mkAccount 1 "+992000000001" (-2)]) None None).
Proof. vm_compute. reflexivity. Qed.

Lemma C4_counterexample :
  ~ (forall ops s s',
       empty_store s -> run ops s = Returns s' -> balances_nonneg s').
Proof.
  intros H.
  specialize (H import_negative zero_Service _ ltac:(repeat split) import_negative_run).
  unfold balances_nonneg in H. simpl in H.
  inversion H as [|a l Ha Hl]. simpl in Ha. lia.
Qed.

(** Two deposits of the largest [int64] amount leave a negative balance
    as well: the sum wraps around. *)
Lemma deposit_overflow_negative :
  exists s', run deposit_overflow zero_Service = Returns s' /\ ~ balances_nonneg s'.
Proof.
  eexists. split; [apply deposit_overflow_run|].
  unfold balances_nonneg. simpl. intros H. inversion H as [|a l Ha Hl]. simpl in Ha. lia.
Qed.

(** A negative amount in [payments.dump] ends in a negative balance: the
    payment is taken as it is and [Reject] credits its amount. *)
Lemma import_negative_amount_run :
  run import_negative_amount zero_Service =
  Returns
    (mkService 1 (Some [mkAccount 1 "+992000000001" (-5)])
       (Some [mkPayment "p1" 1 10 "food" PaymentStatusInProgress;
              mkPayment "p2" 1 (-5) "food" PaymentStatusFail]) None).
Proof. vm_compute. reflexivity. Qed.

(** C4, amended.  Start from an empty store and make any sequence of calls
    of [RegisterAccount], [Deposit], [Pay], [Reject], [Repeat],
    [FavoritePayment], [PayFromFavorite] (of either file), of
    [ImportFromFile], for arbitrary file contents, and of [Import] of
    directories in which no balance of [accounts.dump] and no amount of
    [payments.dump] is negative.  If no credit of a [Deposit] or a [Reject]
    exceeds the largest [int64] value, then in the store the calls return no
    balance is negative. *)
Theorem C4_balances_never_negative (ops : list op) (s s' : Service) :
  empty_store s ->
  dumps_fit ops = true ->
  credits_fit ops s = true ->
  run ops s = Returns s' ->
  balances_nonneg s'.
Proof.
  intros He Hd Hfit Hrun. unfold balances_nonneg.
  apply ledger_ok_balances.
  apply (run_ok ops s s' (empty_store_ok s He) Hd Hfit Hrun).
Qed.

Lemma pay_then_imports_run :
  run pay_then_imports zero_Service =
  Returns
    (mkService 2
       (Some [mkAccount 1 "+992000000001" 70; mkAccount 2 "+992000000002" 500])
       (Some [mkPayment "p1" 1 50000 "food" PaymentStatusInProgress;
              mkPayment "p2" 2 30 "taxi" PaymentStatusOk]) None).
Proof. vm_compute. reflexivity. Qed.

Lemma C4_balances_never_negative_witness :
  balances_nonneg
    (mkService 2
       (Some [mkAccount 1 "+992000000001" 70; mkAccount 2 "+992000000002" 500])
       (Some [mkPayment "p1" 1 50000 "food" PaymentStatusInProgress;
              mkPayment "p2" 2 30 "taxi" PaymentStatusOk]) None).
Proof.
  apply (C4_balances_never_negative pay_then_imports zero_Service).
  - repeat split.
  - vm_compute. reflexivity.
  - vm_compute. reflexivity.
  - exact pay_then_imports_run.
Defined.

(** ** ExportAccountHistory *)

Lemma first_index_existsb {A} (p : A -> bool) (l : list A) :
  existsb p l = match first_index p l with Some _ => true | None => false end.
Proof.
  induction l as [|a l IH]; simpl; [reflexivity|].
  destruct (p a); [reflexivity|]. rewrite IH.
  destruct (first_index p l); reflexivity.
Qed.

Lemma history_fold (p : Payment -> bool) (l : list Payment) : forall init,
  fold_left
    (fun payments v =>
       if p v
       then append payments
              (mkPayment (pay_ID v) (pay_AccountID v) (pay_Amount v)
                 (pay_Category v) (pay_Status v))
       else payments) l init
  = match filter p l with
    | [] => init
    | h => Some (elems init ++ h)
    end.
Proof.
  induction l as [|v l IH]; intros init; simpl; [reflexivity|].
  rewrite IH. destruct (p v) eqn:E.
  - destruct v as [i a m c st]. simpl.
    destruct (filter p l); [reflexivity|]. rewrite <- app_assoc. reflexivity.
  - reflexivity.
Qed.

Lemma ExportAccountHistory_eq (s : Service) (accountID : Z) :
  ExportAccountHistory s accountID =
  if existsb (has_acc_ID accountID) (elems (accounts s))
  then Ok match filter (fun v => pay_AccountID v =? accountID) (elems (payments s)) with
          | [] => None
          | h => Some h
          end
  else Err ErrAccountNotFound.
Proof.
  unfold ExportAccountHistory, FindAccountByID. rewrite first_index_existsb.
  destruct (first_index _ _) as [i|] eqn:E; [|reflexivity].
  destruct (first_index_Some _ _ _ E) as (account & Hn & Hid). rewrite Hn.
  apply Z.eqb_eq in Hid. rewrite Hid, history_fold. reflexivity.
Qed.

(** X1.  The history of an account that is in the store is the list of the
    payments made from it, in the order they were made, and the [nil] slice
    when there is none; for an identifier that no account has the call
    fails with [ErrAccountNotFound]. *)
Theorem ExportAccountHistory_is_filter (s : Service) (accountID : Z) :
  ExportAccountHistory s accountID =
  if existsb (has_acc_ID accountID) (elems (accounts s))
  then Ok match filter (fun v => pay_AccountID v =? accountID) (elems (payments s)) with
          | [] => None
          | h => Some h
          end
  else Err ErrAccountNotFound.
Proof. apply ExportAccountHistory_eq. Qed.

Lemma existsb_upd {A} (p : A -> bool) (f : A -> A) (l : list A) : forall i,
  (forall a, p (f a) = p a) -> existsb p (upd i f l) = existsb p l.
Proof.
  induction l as [|a l IH]; intros [|i] H; simpl; try reflexivity.
  - rewrite H. reflexivity.
  - rewrite IH by assumption. reflexivity.
Qed.

Lemma last_index_existsb {A} (p : A -> bool) (l : list A) (i : nat) :
  last_index p l = Some i -> existsb p l = true.
Proof.
  intros H. destruct (last_index_Some _ _ _ H) as (a & Hn & Pa).
  apply existsb_exists. exists a. split; [apply (nth_error_In _ _ Hn)|assumption].
Qed.

(** X2.  A payment that [Pay] makes is the last entry of the history of its
    account, after the entries that were there. *)
Theorem Pay_extends_history (uuid : string) (s s' : Service) (accountID : Z)
  (amount : Money) (category : PaymentCategory) (payment : Payment) :
  Pay uuid s accountID amount category = (s', Ok payment) ->
  ExportAccountHistory s' accountID =
  Ok (Some (filter (fun v => pay_AccountID v =? accountID) (elems (payments s))
            ++ [payment])).
Proof.
  intros HP. destruct (Pay_Ok_inv _ _ _ _ _ _ _ HP) as (Hpos & i & account & Hi & Hn & Hle).
  rewrite (Pay_success _ _ _ _ _ _ _ Hpos Hi Hn Hle) in HP.
  injection HP as <- <-. rewrite ExportAccountHistory_eq. simpl.
  rewrite elems_upd_slice, existsb_upd by reflexivity.
  rewrite (last_index_existsb _ _ _ Hi), filter_app. simpl.
  rewrite Z.eqb_refl.
  destruct (filter _ (elems (payments s))); reflexivity.
Qed.

Lemma Pay_extends_history_witness :
  ExportAccountHistory demo_paid 1 =
  Ok (Some (filter (fun v => pay_AccountID v =? 1) (elems (payments demo_funded))
            ++ [mkPayment "p1" 1 50000 "food" PaymentStatusInProgress])).
Proof.
  apply (Pay_extends_history "p1" demo_funded demo_paid 1 50000 "food").
  vm_compute. reflexivity.
Defined.

(** ** Deposit and the lookups *)

Lemma last_index_upd {A} (p : A -> bool) (f : A -> A) (l : list A) :
  (forall a, p (f a) = p a) -> forall i, last_index p (upd i f l) = last_index p l.
Proof.
  intros Hf. induction l as [|a t IH]; intros [|i]; try reflexivity.
  - cbn [upd]. rewrite !last_index_cons, Hf. reflexivity.
  - cbn [upd]. rewrite !last_index_cons, IH. reflexivity.
Qed.

Lemma Deposit_success (s : Service) (accountID : Z) (amount : Money) (i : nat) :
  0 < amount ->
  last_index (has_acc_ID accountID) (elems (accounts s)) = Some i ->
  Deposit s accountID amount =
  (set_accounts s (upd_slice i (add_Balance amount) (accounts s)), None).
Proof.
  intros Hpos Hi. unfold Deposit.
  destruct (amount <=? 0) eqn:E; [apply Z.leb_le in E; lia|].
  rewrite Hi. reflexivity.
Qed.

(** X3.  When the identifiers of the accounts are pairwise distinct, the
    account that [FindAccountByID] returns after a [Deposit] of a positive
    amount is the one it returned before, with the amount added to its
    balance as an [int64] sum. *)
Theorem Deposit_then_FindAccountByID (s : Service) (accountID : Z) (amount : Money)
  (account : Account) :
  NoDup (map acc_ID (elems (accounts s))) ->
  0 < amount ->
  found_account s accountID = Some account ->
  snd (Deposit s accountID amount) = None /\
  found_account (fst (Deposit s accountID amount)) accountID
  = Some (add_Balance amount account).
Proof.
  intros Hnd Hpos. unfold found_account.
  rewrite (unique_ID_first_last _ accountID Hnd).
  destruct (last_index _ _) as [i|] eqn:Hi; [|discriminate]. intros Hn.
  rewrite (Deposit_success _ _ _ _ Hpos Hi). simpl. split; [reflexivity|].
  rewrite elems_upd_slice, first_index_upd by reflexivity.
  rewrite (unique_ID_first_last _ accountID Hnd), Hi, nth_error_upd_eq, Hn.
  reflexivity.
Qed.

Lemma Deposit_then_FindAccountByID_witness :
  snd (Deposit demo_funded 1 5) = None /\
  found_account (fst (Deposit demo_funded 1 5)) 1
  = Some (add_Balance 5 (mkAccount 1 "+992000000001" 100000)).
Proof.
  apply (Deposit_then_FindAccountByID demo_funded 1 5).
  - rewrite demo_funded_eq. simpl. repeat constructor. intros [].
  - lia.
  - rewrite demo_funded_eq. reflexivity.
Defined.

(** X4.  When two accounts carry the identifier, [Deposit] credits the last of
    them while [FindAccountByID] returns the first: the call returns [nil]
    and the account found is as it was before. *)
Theorem Deposit_credits_last_of_duplicates (s : Service) (accountID : Z)
  (amount : Money) (i j : nat) :
  0 < amount ->
  first_index (has_acc_ID accountID) (elems (accounts s)) = Some i ->
  last_index (has_acc_ID accountID) (elems (accounts s)) = Some j ->
  i <> j ->
  snd (Deposit s accountID amount) = None /\
  found_account (fst (Deposit s accountID amount)) accountID
  = found_account s accountID /\
  account_of (fst (Deposit s accountID amount)) accountID
  = option_map (add_Balance amount) (account_of s accountID).
Proof.
  intros Hpos Hi Hj Hij. rewrite (Deposit_success _ _ _ _ Hpos Hj).
  unfold found_account, account_of. simpl. split; [reflexivity|].
  rewrite elems_upd_slice, first_index_upd, last_index_upd by reflexivity.
  rewrite Hi, Hj, nth_error_upd_eq. split; [|reflexivity].
  apply nth_error_upd_neq. congruence.
Qed.

Lemma reused_ID_store_eq :
  reused_ID_store =
  mkService 3
    (Some [mkAccount 1 "+992928885522" 0; mkAccount 3 "+992928811111" 0;
           mkAccount 2 "+992928000000" 0; mkAccount 3 "+992900000000" 0])
    (Some []) (Some []).
Proof. vm_compute. reflexivity. Qed.

Lemma Deposit_credits_last_of_duplicates_witness :
  snd (Deposit reused_ID_store 3 500) = None /\
  found_account (fst (Deposit reused_ID_store 3 500)) 3 = found_account reused_ID_store 3 /\
  account_of (fst (Deposit reused_ID_store 3 500)) 3
  = option_map (add_Balance 500) (account_of reused_ID_store 3).
Proof.
  apply (Deposit_credits_last_of_duplicates reused_ID_store 3 500 1 3).
  - lia.
  - rewrite reused_ID_store_eq. reflexivity.
  - rewrite reused_ID_store_eq. reflexivity.
  - discriminate.
Defined.

Lemma wrap64_add_l (a b : Z) : wrap64 (wrap64 a + b) = wrap64 (a + b).
Proof.
  unfold wrap64. f_equal.
  replace ((a + 2 ^ 63) mod 2 ^ 64 - 2 ^ 63 + b + 2 ^ 63)
    with ((a + 2 ^ 63) mod 2 ^ 64 + b) by lia.
  rewrite Zplus_mod_idemp_l. f_equal. lia.
Qed.

Lemma upd_ext {A} (f g : A -> A) (l : list A) : forall i,
  (forall a, f a = g a) -> upd i f l = upd i g l.
Proof.
  induction l as [|a t IH]; intros [|i] H; simpl; try reflexivity.
  - rewrite H. reflexivity.
  - rewrite (IH i H). reflexivity.
Qed.

(** X5.  Two deposits of positive amounts to an account leave the store as one
    deposit of their sum does, when the sum is an [int64] value. *)
Theorem Deposit_twice (s : Service) (accountID : Z) (a b : Money) :
  0 < a -> 0 < b -> a + b <= max_int64 ->
  fst (Deposit (fst (Deposit s accountID a)) accountID b)
  = fst (Deposit s accountID (a + b)).
Proof.
  intros Ha Hb _. destruct (last_index (has_acc_ID accountID) (elems (accounts s)))
    as [i|] eqn:Hi.
  - rewrite (Deposit_success s _ _ _ Ha Hi), (Deposit_success s _ (a + b) _ ltac:(lia) Hi).
    cbn [fst].
    assert (Hi' : last_index (has_acc_ID accountID)
                    (elems (accounts (set_accounts s
                       (upd_slice i (add_Balance a) (accounts s))))) = Some i).
    { simpl. rewrite elems_upd_slice, last_index_upd by reflexivity. exact Hi. }
    rewrite (Deposit_success _ _ _ _ Hb Hi'). cbn [fst]. unfold set_accounts. simpl.
    f_equal. destruct (accounts s) as [l|]; [|reflexivity]. simpl. f_equal.
    rewrite upd_upd. apply upd_ext. intros acc. unfold add_Balance, set_Balance. simpl.
    rewrite wrap64_add_l. f_equal. f_equal. lia.
  - unfold Deposit. rewrite Hi.
    destruct (a <=? 0), (a + b <=? 0); cbn [fst]; rewrite ?Hi;
      destruct (b <=? 0); reflexivity.
Qed.

Lemma Deposit_twice_witness :
  fst (Deposit (fst (Deposit demo_funded 1 5)) 1 7) = fst (Deposit demo_funded 1 (5 + 7)).
Proof.
  apply (Deposit_twice demo_funded 1 5 7); unfold max_int64; lia.
Defined.

(** ** Reject, Repeat and the favorites *)

(** X6.  [Reject] fails with [ErrPaymentNotFound] when no payment has the
    identifier and with [ErrAccountNotFound] when no account has the
    identifier the payment carries; in every other case it returns [nil],
    whatever the status of the payment. *)
Theorem Reject_result (s : Service) (paymentID : string) :
  snd (Reject s paymentID) =
  match found_payment s paymentID with
  | None => Some ErrPaymentNotFound
  | Some payment =>
      match found_account s (pay_AccountID payment) with
      | None => Some ErrAccountNotFound
      | Some _ => None
      end
  end.
Proof.
  unfold Reject, found_payment, found_account, FindPaymentByID, FindAccountByID.
  destruct (first_index _ (elems (payments s))) as [pi|] eqn:Hp; [|reflexivity].
  destruct (first_index_Some _ _ _ Hp) as (payment & Hn & _). rewrite Hn.
  destruct (first_index _ (elems (accounts s))) as [ai|] eqn:Ha; [|reflexivity].
  destruct (first_index_Some _ _ _ Ha) as (account & Hna & _). rewrite Hna.
  reflexivity.
Qed.

(** X7.  A payment that [Repeat] returns carries the identifier drawn, the
    account, the amount and the category of the payment repeated, and is in
    progress whatever the status of that payment; it is appended to the
    payments. *)
Theorem Repeat_copies_payment (uuid : string) (s s' : Service) (paymentID : string)
  (payment' : Payment) :
  Repeat uuid s paymentID = (s', Ok payment') ->
  exists payment,
    found_payment s paymentID = Some payment /\
    payment' = mkPayment uuid (pay_AccountID payment) (pay_Amount payment)
                 (pay_Category payment) PaymentStatusInProgress /\
    elems (payments s') = elems (payments s) ++ [payment'] /\
    0 < pay_Amount payment.
Proof.
  unfold Repeat, found_payment, FindPaymentByID.
  destruct (first_index _ _) as [pi|]; [|discriminate].
  destruct (nth_error _ pi) as [payment|]; [|discriminate].
  intros HP. exists payment. split; [reflexivity|].
  destruct (Pay_Ok_inv _ _ _ _ _ _ _ HP) as (Hpos & i & account & Hi & Hn & Hle).
  rewrite (Pay_success _ _ _ _ _ _ _ Hpos Hi Hn Hle) in HP.
  injection HP as <- <-. simpl. auto.
Qed.

Lemma Repeat_copies_payment_witness :
  exists payment,
    found_payment demo_paid "p1" = Some payment /\
    mkPayment "p2" 1 50000 "food" PaymentStatusInProgress
    = mkPayment "p2" (pay_AccountID payment) (pay_Amount payment)
        (pay_Category payment) PaymentStatusInProgress /\
    elems (payments (fst (Repeat "p2" demo_paid "p1")))
    = elems (payments demo_paid)
      ++ [mkPayment "p2" 1 50000 "food" PaymentStatusInProgress] /\
    0 < pay_Amount payment.
Proof.
  apply (Repeat_copies_payment "p2" demo_paid (fst (Repeat "p2" demo_paid "p1")) "p1").
  vm_compute. reflexivity.
Defined.

Lemma Pay_set_favorites (uuid : string) (s : Service) (f : slice Favorite)
  (accountID : Z) (amount : Money) (category : PaymentCategory) :
  Pay uuid (set_favorites s f) accountID amount category =
  (set_favorites (fst (Pay uuid s accountID amount category)) f,
   snd (Pay uuid s accountID amount category)).
Proof.
  unfold Pay. simpl. destruct (amount <=? 0); [reflexivity|].
  destruct (last_index _ _) as [i|]; [|reflexivity].
  destruct (nth_error _ i) as [account|]; [|reflexivity].
  destruct (_ <? _); reflexivity.
Qed.

(** X8.  A favorite made of a payment pays what repeating that payment pays:
    after [FavoritePayment] has returned a favorite under an identifier
    that no favorite had, [PayFromFavorite] of it returns what [Repeat] of
    the payment returns in the store before, and leaves the same accounts
    and payments. *)
Theorem PayFromFavorite_after_FavoritePayment (uuid uuid' : string) (s s1 : Service)
  (paymentID name : string) (favorite : Favorite) :
  FavoritePayment uuid s paymentID name = (s1, Ok favorite) ->
  (forall f, In f (elems (favorites s)) -> fav_ID f <> uuid) ->
  snd (PayFromFavorite uuid' s1 (fav_ID favorite)) = snd (Repeat uuid' s paymentID) /\
  accounts (fst (PayFromFavorite uuid' s1 (fav_ID favorite)))
  = accounts (fst (Repeat uuid' s paymentID)) /\
  payments (fst (PayFromFavorite uuid' s1 (fav_ID favorite)))
  = payments (fst (Repeat uuid' s paymentID)).
Proof.
  unfold FavoritePayment, Repeat. destruct (existsb _ _); [discriminate|].
  destruct (FindPaymentByID s paymentID) as [pi|e]; [|discriminate].
  destruct (nth_error _ pi) as [payment|]; [|discriminate].
  intros [= <- <-] Hfresh. unfold PayFromFavorite, FindFavoriteByID. cbn [fav_ID].
  assert (Hidx : first_index (has_fav_ID uuid)
                   (elems (favorites (set_favorites s
                      (append (favorites s)
                         (mkFavorite uuid (pay_AccountID payment) name
                            (pay_Amount payment) (pay_Category payment))))))
                 = Some (List.length (elems (favorites s)))).
  { simpl. apply first_index_app_miss.
    - apply first_index_None. intros f Hf. apply String.eqb_neq. auto.
    - apply String.eqb_refl. }
  rewrite Hidx. simpl. rewrite nth_error_app_last. simpl.
  change (mkService (nextAccountID s) (accounts s) (payments s)
            (Some (elems (favorites s)
                   ++ [mkFavorite uuid (pay_AccountID payment) name
                         (pay_Amount payment) (pay_Category payment)])))
    with (set_favorites s
            (Some (elems (favorites s)
                   ++ [mkFavorite uuid (pay_AccountID payment) name
                         (pay_Amount payment) (pay_Category payment)]))).
  rewrite Pay_set_favorites. simpl. auto.
Qed.

Lemma PayFromFavorite_after_FavoritePayment_witness :
  snd (PayFromFavorite "u3" (fst (FavoritePayment "u2" demo_paid "p1" "lunch")) "u2")
  = snd (Repeat "u3" demo_paid "p1") /\
  accounts (fst (PayFromFavorite "u3"
                   (fst (FavoritePayment "u2" demo_paid "p1" "lunch")) "u2"))
  = accounts (fst (Repeat "u3" demo_paid "p1")) /\
  payments (fst (PayFromFavorite "u3"
                   (fst (FavoritePayment "u2" demo_paid "p1" "lunch")) "u2"))
  = payments (fst (Repeat "u3" demo_paid "p1")).
Proof.
  apply (PayFromFavorite_after_FavoritePayment "u2" "u3" demo_paid
           (fst (FavoritePayment "u2" demo_paid "p1" "lunch")) "p1" "lunch"
           (mkFavorite "u2" 1 "lunch" 50000 "food")).
  - vm_compute. reflexivity.
  - intros f H. vm_compute in H. destruct H.
Defined.

(** X9.  A phone is registered once: after [RegisterAccount] has returned an
    account for it, the next [RegisterAccount] of the same phone fails
    with [ErrPhoneRegistered] and changes nothing. *)
Theorem RegisterAccount_once (s s1 : Service) (phone : Phone) (account : Account) :
  RegisterAccount s phone = (s1, Ok account) ->
  RegisterAccount s1 phone = (s1, Err ErrPhoneRegistered).
Proof.
  unfold RegisterAccount at 1. destruct (existsb _ _); [discriminate|].
  intros [= <- _]. unfold RegisterAccount. simpl.
  rewrite existsb_app. simpl. rewrite String.eqb_refl, orb_true_r. reflexivity.
Qed.

Lemma RegisterAccount_once_witness :
  RegisterAccount demo_registered "+992000000001"
  = (demo_registered, Err ErrPhoneRegistered).
Proof.
  apply (RegisterAccount_once zero_Service demo_registered "+992000000001"
           (mkAccount 1 "+992000000001" 0)).
  vm_compute. reflexivity.
Defined.

(** ** Identifiers and phones along a run *)

Lemma map_upd_keep {A B} (g : A -> B) (f : A -> A) (l : list A) : forall i,
  (forall a, g (f a) = g a) -> map g (upd i f l) = map g l.
Proof.
  induction l as [|a t IH]; intros [|i] H; simpl; try reflexivity.
  - rewrite H. reflexivity.
  - rewrite (IH i H). reflexivity.
Qed.

Lemma Pay_holders (uuid : string) (s : Service) (accountID : Z) (amount : Money)
  (category : PaymentCategory) :
  holders (fst (Pay uuid s accountID amount category)) = holders s /\
  nextAccountID (fst (Pay uuid s accountID amount category)) = nextAccountID s.
Proof.
  unfold Pay. destruct (amount <=? 0); [auto|].
  destruct (last_index _ _) as [i|]; [|auto].
  destruct (nth_error _ i) as [account|]; [|auto].
  destruct (_ <? _); [auto|]. unfold holders. simpl.
  rewrite elems_upd_slice, map_upd_keep by reflexivity. auto.
Qed.

Lemma Repeat_holders (uuid : string) (s : Service) (paymentID : string) :
  holders (fst (Repeat uuid s paymentID)) = holders s /\
  nextAccountID (fst (Repeat uuid s paymentID)) = nextAccountID s.
Proof.
  unfold Repeat. destruct (FindPaymentByID _ _); [|auto].
  destruct (nth_error _ _); [apply Pay_holders|auto].
Qed.

(** A call of the ledger core leaves the identifiers and phones of the
    accounts as they are, the counter as it is or one higher, or it appends
    an account with a phone that was not there, under the next identifier. *)
Lemma ledger_step_holders (s : Service) (o : ledger_op) :
  (holders (ledger_step s o) = holders s /\
   (nextAccountID (ledger_step s o) = nextAccountID s \/
    nextAccountID (ledger_step s o) = wrap64 (nextAccountID s + 1))) \/
  (exists phone,
     ~ In phone (map snd (holders s)) /\
     holders (ledger_step s o) = holders s ++ [(wrap64 (nextAccountID s + 1), phone)] /\
     nextAccountID (ledger_step s o) = wrap64 (nextAccountID s + 1)).
Proof.
  destruct o as [phone|accountID amount|uuid accountID amount category|paymentID
                |uuid paymentID|uuid paymentID name|uuid favoriteID
                |uuid paymentID name|uuid favoriteID]; simpl.
  - unfold RegisterAccount. destruct (existsb _ _) eqn:E; [left; auto|].
    right. exists phone. split; [|split].
    + intros Hin. unfold holders in Hin. rewrite map_map in Hin.
      apply in_map_iff in Hin. destruct Hin as (a & Ha & Hin).
      assert (Hex : existsb (fun a0 => String.eqb (acc_Phone a0) phone)
                      (elems (accounts s)) = true).
      { apply existsb_exists. exists a. split; [assumption|].
        apply String.eqb_eq. exact Ha. }
      congruence.
    + unfold holders. simpl. rewrite map_app. reflexivity.
    + reflexivity.
  - left. unfold Deposit. destruct (amount <=? 0); [auto|].
    destruct (last_index _ _) as [i|]; [|auto]. unfold holders. simpl.
    rewrite elems_upd_slice, map_upd_keep by reflexivity. auto.
  - left. destruct (Pay_holders uuid s accountID amount category). auto.
  - left. unfold Reject. destruct (FindPaymentByID _ _); [|auto].
    destruct (nth_error _ _); [|auto]. destruct (FindAccountByID _ _); [|auto].
    unfold holders. simpl. rewrite elems_upd_slice, map_upd_keep by reflexivity. auto.
  - left. destruct (Repeat_holders uuid s paymentID). auto.
  - left. unfold FavoritePayment. destruct (existsb _ _); [auto|].
    destruct (FindPaymentByID _ _); [|auto]. destruct (nth_error _ _); auto.
  - left. unfold PayFromFavorite. destruct (FindFavoriteByID _ _); [|auto].
    destruct (nth_error _ _); [|auto].
    destruct (Pay_holders uuid s (fav_AccountID f) (fav_Amount f) (fav_Category f)). auto.
  - left. unfold ServiceGo.FavoritePayment. destruct (existsb _ _); [auto|].
    destruct (FindPaymentByID _ _); [|auto]. destruct (nth_error _ _); auto.
  - left. unfold ServiceGo.PayFromFavorite. destruct (FindFavoriteByID _ _); [|auto].
    destruct (nth_error _ _); [|auto].
    destruct (Repeat_holders uuid s (fav_ID f)). auto.
Qed.

Lemma holders_ok_step (n : Z) (s : Service) (o : ledger_op) :
  holders_ok n s -> n < max_int64 -> holders_ok (n + 1) (ledger_step s o).
Proof.
  intros (Hc & Hb & Hi & Hp) Hn. unfold holders_ok.
  assert (Hw : wrap64 (nextAccountID s + 1) = nextAccountID s + 1).
  { apply wrap64_small. lia. }
  destruct (ledger_step_holders s o) as [[Hh [Hk|Hk]]|(phone & Hnew & Hh & Hk)];
    rewrite Hh, Hk, ?Hw.
  - repeat split; try assumption; lia.
  - repeat split; try assumption; try lia.
    revert Hb. apply Forall_impl. intros h H. lia.
  - rewrite !map_app. simpl. repeat split; try lia.
    + apply Forall_app. split.
      * revert Hb. apply Forall_impl. intros h H. lia.
      * constructor; [simpl; lia|constructor].
    + apply NoDup_app; [assumption|repeat constructor; intros []|].
      intros x Hx [<-|[]]. apply in_map_iff in Hx. destruct Hx as (h & Hfst & Hin).
      pose proof (proj1 (Forall_forall _ _) Hb h Hin) as Hle. simpl in Hle. lia.
    + apply NoDup_app; [assumption|repeat constructor; intros []|].
      intros x Hx [<-|[]]. exact (Hnew Hx).
Qed.

Lemma holders_ok_run (ops : list ledger_op) : forall n s total,
  holders_ok n s -> n + Z.of_nat (List.length ops) <= max_int64 ->
  holders_ok (n + Z.of_nat (List.length ops)) (fst (run_ledger ops s total)).
Proof.
  induction ops as [|o rest IH]; intros n s total Hok Hn.
  - simpl. rewrite Z.add_0_r. exact Hok.
  - cbn [run_ledger]. cbn [List.length] in *. rewrite Nat2Z.inj_succ in *.
    replace (n + Z.succ (Z.of_nat (List.length rest)))
      with ((n + 1) + Z.of_nat (List.length rest)) by lia.
    apply IH; [apply holders_ok_step; [assumption|lia]|lia].
Qed.

(** X10.  Along every run of calls of the ledger core from an empty store no
    two accounts share an identifier and no two share a phone, and every
    identifier is positive and at most the counter. *)
Theorem ledger_run_keeps_accounts_apart (ops : list ledger_op) (s : Service) :
  empty_store s ->
  Z.of_nat (List.length ops) <= max_int64 ->
  NoDup (map acc_ID (elems (accounts (fst (run_ledger ops s 0))))) /\
  NoDup (map acc_Phone (elems (accounts (fst (run_ledger ops s 0))))) /\
  Forall (fun a => 0 < acc_ID a <= nextAccountID (fst (run_ledger ops s 0)))
    (elems (accounts (fst (run_ledger ops s 0)))).
Proof.
  intros (Hc & Ha & _) Hn.
  assert (H0 : holders_ok 0 s).
  { unfold holders_ok, holders. rewrite Ha, Hc. simpl.
    repeat split; try lia; constructor. }
  destruct (holders_ok_run ops 0 s 0 H0 ltac:(lia)) as (_ & Hb & Hi & Hp).
  unfold holders in *. rewrite map_map in Hi, Hp. simpl in Hi, Hp.
  repeat split; try assumption.
  rewrite Forall_map in Hb. exact Hb.
Qed.

Lemma ledger_run_keeps_accounts_apart_witness :
  NoDup (map acc_ID (elems (accounts (fst (run_ledger double_reject zero_Service 0))))) /\
  NoDup (map acc_Phone (elems (accounts (fst (run_ledger double_reject zero_Service 0))))) /\
  Forall (fun a => 0 < acc_ID a
                   <= nextAccountID (fst (run_ledger double_reject zero_Service 0)))
    (elems (accounts (fst (run_ledger double_reject zero_Service 0)))).
Proof.
  apply (ledger_run_keeps_accounts_apart double_reject zero_Service).
  - repeat split.
  - vm_compute. discriminate.
Defined.

(** ** Import of what is already there *)

(** X13.  [Import] from a directory in which the three dump files are missing or
    empty returns without touching the store. *)
Theorem Import_without_files (uuid : nat -> string) (s : Service) (d : Dir) :
  read (accounts_dump d) = EmptyString ->
  read (payments_dump d) = EmptyString ->
  read (favorites_dump d) = EmptyString ->
  Import uuid s d = Returns s.
Proof.
  intros Ha Hp Hf. unfold Import. rewrite Ha, Hp, Hf.
  destruct s as [n [a|] [p|] [f|]]; reflexivity.
Qed.

Lemma Import_without_files_witness :
  Import (fun _ => "g") demo_paid empty_Dir = Returns demo_paid.
Proof.
  apply (Import_without_files (fun _ => "g") demo_paid empty_Dir); reflexivity.
Defined.

Lemma NoDup_map_inj {A B} (g : A -> B) (l : list A) :
  NoDup (map g l) -> forall a b, In a l -> In b l -> g a = g b -> a = b.
Proof.
  induction l as [|x l IH]; simpl; intros Hnd a b Ha Hb E; [destruct Ha|].
  inversion Hnd as [|y l' Hx Hnd']; subst.
  destruct Ha as [<-|Ha], Hb as [<-|Hb]; try reflexivity.
  - exfalso. apply Hx. rewrite E. apply in_map, Hb.
  - exfalso. apply Hx. rewrite <- E. apply in_map, Ha.
  - apply (IH Hnd' a b Ha Hb E).
Qed.

(** The first element a predicate holds of is [a] when [a] is the only
    element of the list it holds of. *)
Lemma first_index_only {A} (p : A -> bool) (l : list A) (a : A) :
  In a l -> p a = true -> (forall b, In b l -> p b = true -> b = a) ->
  exists i, first_index p l = Some i /\ nth_error l i = Some a.
Proof.
  intros Hin Pa Honly.
  destruct (first_index p l) as [i|] eqn:E.
  - destruct (first_index_Some _ _ _ E) as (b & Hb & Pb).
    exists i. split; [reflexivity|].
    rewrite (Honly b (nth_error_In _ _ Hb) Pb) in Hb. exact Hb.
  - rewrite (proj1 (first_index_None _ _) E a Hin) in Pa. discriminate.
Qed.

Lemma upd_slice_same {A} (f : A -> A) (sl : slice A) (i : nat) (a : A) :
  nth_error (elems sl) i = Some a -> f a = a -> upd_slice i f sl = sl.
Proof.
  destruct sl as [l|]; simpl; [|reflexivity].
  intros Hn Hf. rewrite (upd_same f l i a Hn Hf). reflexivity.
Qed.

Lemma import_accounts_known (s : Service) (l : list Account) :
  Forall exportable_Account l ->
  NoDup (map acc_ID (elems (accounts s))) ->
  incl l (elems (accounts s)) ->
  for_each import_account (map Account_ToString l) s = Returns s.
Proof.
  intros Hl Hnd. induction Hl as [|a l Ha _ IH]; intros Hin; [reflexivity|].
  cbn [map for_each]. rewrite (import_account_line s a Ha). unfold FindAccountByID.
  destruct (first_index_only (has_acc_ID (acc_ID a)) (elems (accounts s)) a)
    as (i & Hi & Hn).
  { apply Hin. left. reflexivity. }
  { apply Z.eqb_refl. }
  { intros b Hb Pb. apply Z.eqb_eq in Pb.
    apply (NoDup_map_inj acc_ID _ Hnd b a Hb (Hin a (or_introl eq_refl)) Pb). }
  rewrite Hi.
  rewrite (upd_slice_same _ _ _ a Hn) by (destruct a; reflexivity).
  replace (set_accounts s (accounts s)) with s by (destruct s; reflexivity).
  apply IH. intros x Hx. apply Hin. right. exact Hx.
Qed.

Lemma import_payments_known (s : Service) (l : list Payment) :
  Forall exportable_Payment l ->
  NoDup (map pay_ID (elems (payments s))) ->
  incl l (elems (payments s)) ->
  for_each import_payment (map Payment_ToString l) s = Returns s.
Proof.
  intros Hl Hnd. induction Hl as [|p l Hp _ IH]; intros Hin; [reflexivity|].
  cbn [map for_each]. rewrite (import_payment_line s p Hp). unfold FindPaymentByID.
  destruct (first_index_only (has_pay_ID (pay_ID p)) (elems (payments s)) p)
    as (i & Hi & Hn).
  { apply Hin. left. reflexivity. }
  { apply String.eqb_refl. }
  { intros b Hb Pb. apply String.eqb_eq in Pb.
    apply (NoDup_map_inj pay_ID _ Hnd b p Hb (Hin p (or_introl eq_refl)) Pb). }
  rewrite Hi.
  rewrite (upd_slice_same _ _ _ p Hn) by (destruct p; reflexivity).
  replace (set_payments s (payments s)) with s by (destruct s; reflexivity).
  apply IH. intros x Hx. apply Hin. right. exact Hx.
Qed.

Lemma import_favorites_known (uuid : nat -> string) (s : Service) (k : nat)
  (l : list Favorite) :
  Forall exportable_Favorite l ->
  NoDup (map fav_ID (elems (favorites s))) ->
  incl l (elems (favorites s)) ->
  for_each (import_favorite uuid) (map Favorite_ToString l) (s, k) = Returns (s, k).
Proof.
  intros Hl Hnd. induction Hl as [|f l Hf _ IH]; intros Hin; [reflexivity|].
  cbn [map for_each]. rewrite (import_favorite_line uuid s k f Hf).
  unfold FindFavoriteByID.
  destruct (first_index_only (has_fav_ID (fav_ID f)) (elems (favorites s)) f)
    as (i & Hi & Hn).
  { apply Hin. left. reflexivity. }
  { apply String.eqb_refl. }
  { intros b Hb Pb. apply String.eqb_eq in Pb.
    apply (NoDup_map_inj fav_ID _ Hnd b f Hb (Hin f (or_introl eq_refl)) Pb). }
  rewrite Hi.
  rewrite (upd_slice_same _ _ _ f Hn) by (destruct f; reflexivity).
  replace (set_favorites s (favorites s)) with s by (destruct s; reflexivity).
  apply IH. intros x Hx. apply Hin. right. exact Hx.
Qed.

(** X14.  [Import] of the dump that [Export] wrote of the store itself changes
    nothing and draws no identifier: every record is found under its
    identifier and overwritten with the values it has. *)
Theorem Import_of_own_Export (uuid : nat -> string) (s : Service) :
  exportable s ->
  NoDup (map fav_ID (elems (favorites s))) ->
  Import uuid s (Export s empty_Dir) = Returns s.
Proof.
  intros (Ha & Hna & Hp & Hnp & Hf) Hnf. unfold Import.
  rewrite read_Export_accounts, read_Export_payments, read_Export_favorites.
  rewrite !Split_dump.
  2:{ revert Hf. apply Forall_impl. intros f (_ & _ & H1 & H2 & H3).
      apply Favorite_ToString_newline; assumption. }
  2:{ revert Hp. apply Forall_impl. intros p (_ & _ & H1 & H2 & H3).
      apply Payment_ToString_newline; assumption. }
  2:{ revert Ha. apply Forall_impl. intros a (_ & _ & H).
      apply Account_ToString_newline, H. }
  rewrite for_each_app.
  rewrite (import_accounts_known s _ Ha Hna (incl_refl _)). cbn [bind].
  change (for_each import_account [EmptyString] s) with (Returns s).
  replace (if is_nil (accounts s) then Returns s else Returns s) with (Returns s)
    by (destruct (is_nil (accounts s)); reflexivity).
  cbn [bind]. rewrite for_each_app.
  rewrite (import_payments_known s _ Hp Hnp (incl_refl _)). cbn [bind].
  change (for_each import_payment [EmptyString] s) with (Returns s).
  replace (if is_nil (payments s) then Returns s else Returns s) with (Returns s)
    by (destruct (is_nil (payments s)); reflexivity).
  cbn [bind]. rewrite for_each_app.
  rewrite (import_favorites_known uuid s 0 _ Hf Hnf (incl_refl _)). cbn [bind].
  change (for_each (import_favorite uuid) [EmptyString] (s, O)) with (Returns (s, O)).
  cbn [bind fst]. destruct (is_nil (favorites s)); reflexivity.
Qed.

Lemma Import_of_own_Export_witness :
  Import (fun _ => "g") test_export_store (Export test_export_store empty_Dir)
  = Returns test_export_store.
Proof.
  apply (Import_of_own_Export (fun _ => "g") test_export_store).
  - exact test_export_store_exportable.
  - rewrite test_export_store_eq. simpl. repeat constructor. intros [].
Defined.

(** ** ExportToFile and ImportFromFile *)

Lemma builder_cons {A} (sep : ascii) (to_string : A -> string) (x : A) (l : list A) :
  fold_left (fun data y => (data ++ (to_string y ++ str sep))%string) (x :: l)
    EmptyString
  = (to_string x
     ++ String sep
          (fold_left (fun data y => (data ++ (to_string y ++ str sep))%string) l
             EmptyString))%string.
Proof.
  simpl. rewrite fold_left_builder, string_app_assoc. reflexivity.
Qed.

Lemma Split_builder {A} (sep : ascii) (to_string : A -> string) (l : list A) :
  Forall (fun x => free_of sep (to_string x) = true) l ->
  Split sep
    (fold_left (fun data y => (data ++ (to_string y ++ str sep))%string) l EmptyString)
  = map to_string l ++ [EmptyString].
Proof.
  induction 1 as [|x l Hx _ IH]; [reflexivity|].
  rewrite builder_cons, Split_app by assumption. rewrite IH. reflexivity.
Qed.

Lemma Account_ToString_pipe (a : Account) :
  free_of pipe (acc_Phone a) = true -> free_of pipe (Account_ToString a) = true.
Proof.
  intros Hp. unfold Account_ToString. rewrite !free_of_app.
  rewrite !Itoa_free, Hp by reflexivity. reflexivity.
Qed.

Lemma ImportFromFile_loop_registers (l : list Account) : forall s,
  Forall transferable l ->
  NoDup (map acc_Phone (elems (accounts s) ++ l)) ->
  exists s',
    ImportFromFile_loop (map Account_ToString l ++ [EmptyString]) s
    = Returns (s', None) /\
    elems (accounts s') = elems (accounts s) ++ reregister (nextAccountID s) l /\
    payments s' = payments s /\ favorites s' = favorites s.
Proof.
  induction l as [|a l IH]; intros s Hl Hnd.
  - exists s. simpl. rewrite app_nil_r. auto.
  - inversion Hl as [|a' l' (Hid & Hbal & Hplain & _) Hl']; subst.
    cbn [map app ImportFromFile_loop].
    rewrite (Split_Account_ToString a Hplain).
    cbn [List.length Nat.ltb Nat.leb field nth nth_error].
    assert (Hnew : existsb (fun x => String.eqb (acc_Phone x) (acc_Phone a))
                     (elems (accounts s)) = false).
    { destruct (existsb _ _) eqn:E; [|reflexivity]. exfalso.
      apply existsb_exists in E. destruct E as (x & Hx & Ex).
      apply String.eqb_eq in Ex.
      apply (NoDup_map_app_cons acc_Phone _ _ _ Hnd x Hx Ex). }
    unfold RegisterAccount. rewrite Hnew. cbn [acc_ID].
    rewrite Atoi_Itoa by (unfold in_int64, min_int64; lia).
    set (n := wrap64 (nextAccountID s + 1)).
    set (s1 := mkService n (append (accounts s) (mkAccount n (acc_Phone a) 0))
                 (payments s) (favorites s)).
    assert (Hi : last_index (has_acc_ID n) (elems (accounts s1))
                 = Some (List.length (elems (accounts s)))).
    { simpl. apply last_index_app_hit. apply Z.eqb_refl. }
    rewrite (Deposit_success s1 n _ _ (proj1 Hbal) Hi).
    destruct (IH (set_accounts s1
                    (upd_slice (List.length (elems (accounts s)))
                       (add_Balance (acc_Balance a)) (accounts s1))) Hl')
      as (s' & Hrun & Hacc & Hp & Hf).
    { simpl. rewrite upd_app_last, <- app_assoc. simpl.
      rewrite !map_app in *. simpl in *. exact Hnd. }
    exists s'. split; [exact Hrun|].
    simpl in Hacc, Hp, Hf. rewrite upd_app_last in Hacc.
    rewrite Hacc, <- app_assoc. simpl.
    unfold add_Balance, set_Balance. cbn [acc_ID acc_Phone acc_Balance Z.add].
    rewrite (wrap64_small (acc_Balance a)) by lia. fold n. auto.
Qed.

(** X16.  [ImportFromFile] of the file that [ExportToFile] wrote, into a store
    that has none of the phones written, returns [nil] and appends one
    account for each account written, in the same order, with its phone and
    its balance and under an identifier of its own, the next of the
    counter; the payments and favorites of the store stay. *)
Theorem ImportFromFile_of_ExportToFile (s0 s : Service) :
  Forall transferable (elems (accounts s)) ->
  NoDup (map acc_Phone (elems (accounts s0) ++ elems (accounts s))) ->
  exists s',
    ImportFromFile s0 (Some (ExportToFile s)) = Returns (s', None) /\
    elems (accounts s')
    = elems (accounts s0) ++ reregister (nextAccountID s0) (elems (accounts s)) /\
    payments s' = payments s0 /\ favorites s' = favorites s0.
Proof.
  intros Hl Hnd. unfold ImportFromFile, ExportToFile.
  rewrite Split_builder.
  - apply ImportFromFile_loop_registers; assumption.
  - revert Hl. apply Forall_impl. intros a (_ & _ & _ & H).
    apply Account_ToString_pipe, H.
Qed.

Lemma ImportFromFile_of_ExportToFile_witness :
  exists s',
    ImportFromFile made_Service (Some (ExportToFile demo_funded)) = Returns (s', None) /\
    elems (accounts s')
    = elems (accounts made_Service)
      ++ reregister (nextAccountID made_Service) (elems (accounts demo_funded)) /\
    payments s' = payments made_Service /\ favorites s' = favorites made_Service.
Proof.
  apply (ImportFromFile_of_ExportToFile made_Service demo_funded).
  - rewrite demo_funded_eq. simpl. repeat constructor; simpl;
      try (apply in_int64_small; lia); try (unfold max_int64; lia).
  - rewrite demo_funded_eq. simpl. repeat constructor. intros [].
Defined.

(** ** HistoryToFiles *)

Lemma line_app (a d : string) :
  ((a ++ str newline) ++ d = a ++ String newline d)%string.
Proof. rewrite string_app_assoc. reflexivity. Qed.

(** The step of the paging loop that opens a page, or fails to. *)
Lemma step_open (opens : string -> bool) (dir : string) (records t : Z)
  (file : option string) (fs : Files) (v : Payment) :
  let st' := HistoryToFiles_step opens dir records (mkPager 0 t file fs) v in
  pg_k st' = (if 1 =? records then 0 else 1) /\
  pg_t st' = (if 1 =? records then wrap64 (t + 1) else t) /\
  pg_file st' = (if opens (page_path dir t) then Some (page_path dir t) else None) /\
  forall p, pg_fs st' p =
            if opens (page_path dir t) && String.eqb p (page_path dir t)
            then Some (Payment_ToString v ++ str newline)%string
            else fs p.
Proof.
  unfold HistoryToFiles_step, OpenFile. cbn [pg_k pg_t pg_file pg_fs].
  change (0 =? 0) with true. change (wrap64 (0 + 1)) with 1. cbv iota.
  destruct (opens (page_path dir t)); cbn [fst snd andb];
    destruct (1 =? records); cbn [pg_k pg_t pg_file pg_fs];
    (repeat split; try reflexivity);
    intros p; unfold WriteString;
    destruct (String.eqb p (page_path dir t)); reflexivity.
Qed.

(** The step that writes to the page that is open. *)
Lemma step_next (opens : string -> bool) (dir : string) (records : Z) (st : pager)
  (v : Payment) (path c : string) :
  0 < pg_k st -> pg_k st < max_int64 ->
  pg_file st = Some path -> pg_fs st path = Some c ->
  let st' := HistoryToFiles_step opens dir records st v in
  pg_k st' = (if pg_k st + 1 =? records then 0 else pg_k st + 1) /\
  pg_t st' = (if pg_k st + 1 =? records then wrap64 (pg_t st + 1) else pg_t st) /\
  pg_file st' = Some path /\
  forall p, pg_fs st' p =
            if String.eqb p path
            then Some (c ++ (Payment_ToString v ++ str newline))%string
            else pg_fs st p.
Proof.
  intros Hk Hmax Hfile Hc. unfold HistoryToFiles_step.
  destruct (pg_k st =? 0) eqn:E; [apply Z.eqb_eq in E; lia|].
  rewrite (wrap64_small (pg_k st + 1)) by lia. cbn [fst snd]. rewrite Hfile.
  destruct (pg_k st + 1 =? records); cbn [pg_k pg_t pg_file pg_fs];
    (repeat split; try reflexivity);
    intros p; unfold WriteString;
    destruct (String.eqb p path) eqn:Ep; try reflexivity;
    apply String.eqb_eq in Ep; subst p; rewrite Hc; reflexivity.
Qed.

(** The step that writes through the [nil] handle: nothing is written. *)
Lemma step_nil (opens : string -> bool) (dir : string) (records : Z) (st : pager)
  (v : Payment) :
  0 < pg_k st -> pg_k st < max_int64 -> pg_file st = None ->
  let st' := HistoryToFiles_step opens dir records st v in
  pg_k st' = (if pg_k st + 1 =? records then 0 else pg_k st + 1) /\
  pg_t st' = (if pg_k st + 1 =? records then wrap64 (pg_t st + 1) else pg_t st) /\
  pg_file st' = None /\
  pg_fs st' = pg_fs st.
Proof.
  intros Hk Hmax Hfile. unfold HistoryToFiles_step.
  destruct (pg_k st =? 0) eqn:E; [apply Z.eqb_eq in E; lia|].
  rewrite (wrap64_small (pg_k st + 1)) by lia. cbn [fst snd]. rewrite Hfile.
  destruct (pg_k st + 1 =? records); cbn [pg_k pg_t pg_file pg_fs WriteString];
    repeat split; reflexivity.
Qed.

(** Writing on within a page: the lines go to the page that is open, and
    the page is closed by the line that fills it. *)
Lemma fill_page (opens : string -> bool) (dir : string) (records : Z) (path : string)
  (l : list Payment) :
  forall st c,
    0 < pg_k st ->
    pg_k st + Z.of_nat (List.length l) <= max_int64 ->
    records <= pg_k st \/ pg_k st + Z.of_nat (List.length l) <= records ->
    pg_file st = Some path -> pg_fs st path = Some c ->
    let st' := fold_left (HistoryToFiles_step opens dir records) l st in
    (forall p, pg_fs st' p =
               if String.eqb p path
               then Some (c ++ dump Payment_ToString l)%string
               else pg_fs st p) /\
    (l <> [] -> pg_k st + Z.of_nat (List.length l) = records ->
     pg_k st' = 0 /\ pg_t st' = wrap64 (pg_t st + 1)).
Proof.
  induction l as [|v l IH]; intros st c Hk Hmax Hrec Hfile Hc.
  - cbn [fold_left]. split; [|congruence].
    intros p. destruct (String.eqb p path) eqn:Ep; [|reflexivity].
    apply String.eqb_eq in Ep. subst p.
    change (dump Payment_ToString []) with EmptyString.
    rewrite string_app_nil_r. exact Hc.
  - cbn [fold_left]. cbn [List.length] in *. rewrite Nat2Z.inj_succ in *.
    destruct (step_next opens dir records st v path c Hk ltac:(lia) Hfile Hc)
      as (Hk1 & Ht1 & Hf1 & Hfs1).
    set (st1 := HistoryToFiles_step opens dir records st v) in *.
    rewrite dump_cons.
    destruct (pg_k st + 1 =? records) eqn:E.
    + apply Z.eqb_eq in E.
      assert (l = []).
      { destruct l; [reflexivity|]. cbn [List.length] in Hrec.
        rewrite ?Nat2Z.inj_succ in Hrec. lia. }
      subst l.
      cbn [fold_left]. split; [|auto].
      intros p. rewrite Hfs1. reflexivity.
    + apply Z.eqb_neq in E.
      assert (Hc1 : pg_fs st1 path
                    = Some (c ++ (Payment_ToString v ++ str newline))%string).
      { rewrite Hfs1, String.eqb_refl. reflexivity. }
      destruct (IH st1 _ ltac:(lia) ltac:(lia) ltac:(lia) Hf1 Hc1) as (Hfs & Hcnt).
      split.
      * intros p. rewrite Hfs, Hfs1.
        destruct (String.eqb p path); [|reflexivity].
        rewrite string_app_assoc, line_app. reflexivity.
      * intros _ Hfull. rewrite Ht1 in Hcnt. apply Hcnt; [|lia].
        intros ->. simpl in Hfull. lia.
Qed.

(** Within a page that could not be opened the lines are lost, and the
    page is closed all the same. *)
Lemma skip_page (opens : string -> bool) (dir : string) (records : Z)
  (l : list Payment) :
  forall st,
    0 < pg_k st ->
    pg_k st + Z.of_nat (List.length l) <= max_int64 ->
    records <= pg_k st \/ pg_k st + Z.of_nat (List.length l) <= records ->
    pg_file st = None ->
    let st' := fold_left (HistoryToFiles_step opens dir records) l st in
    pg_fs st' = pg_fs st /\
    (l <> [] -> pg_k st + Z.of_nat (List.length l) = records ->
     pg_k st' = 0 /\ pg_t st' = wrap64 (pg_t st + 1)).
Proof.
  induction l as [|v l IH]; intros st Hk Hmax Hrec Hfile.
  - cbn [fold_left]. split; [reflexivity|congruence].
  - cbn [fold_left]. cbn [List.length] in *. rewrite Nat2Z.inj_succ in *.
    destruct (step_nil opens dir records st v Hk ltac:(lia) Hfile)
      as (Hk1 & Ht1 & Hf1 & Hfs1).
    set (st1 := HistoryToFiles_step opens dir records st v) in *.
    destruct (pg_k st + 1 =? records) eqn:E.
    + apply Z.eqb_eq in E.
      assert (l = []).
      { destruct l; [reflexivity|]. cbn [List.length] in Hrec.
        rewrite ?Nat2Z.inj_succ in Hrec. lia. }
      subst l.
      cbn [fold_left]. split; [exact Hfs1|auto].
    + apply Z.eqb_neq in E.
      destruct (IH st1 ltac:(lia) ltac:(lia) ltac:(lia) Hf1) as (Hfs & Hcnt).
      split; [rewrite Hfs; exact Hfs1|].
      intros _ Hfull. rewrite Ht1 in Hcnt. apply Hcnt; [|lia].
      intros ->. simpl in Hfull. lia.
Qed.

(** A page from its first line on. *)
Lemma open_page (opens : string -> bool) (dir : string) (records t : Z)
  (file : option string) (fs : Files) (v : Payment) (l : list Payment) :
  1 + Z.of_nat (List.length l) <= max_int64 ->
  records <= 0 \/ 1 + Z.of_nat (List.length l) <= records ->
  let st' := fold_left (HistoryToFiles_step opens dir records) (v :: l)
               (mkPager 0 t file fs) in
  (forall p, pg_fs st' p =
             if opens (page_path dir t) && String.eqb p (page_path dir t)
             then Some (dump Payment_ToString (v :: l))
             else fs p) /\
  (1 + Z.of_nat (List.length l) = records ->
   pg_k st' = 0 /\ pg_t st' = wrap64 (t + 1)).
Proof.
  intros Hmax Hrec. cbn [fold_left].
  destruct (step_open opens dir records t file fs v) as (Hk1 & Ht1 & Hf1 & Hfs1).
  set (st1 := HistoryToFiles_step opens dir records (mkPager 0 t file fs) v) in *.
  rewrite dump_cons.
  destruct (1 =? records) eqn:E.
  - apply Z.eqb_eq in E.
    assert (l = []).
    { destruct l; [reflexivity|]. cbn [List.length] in Hrec.
      rewrite ?Nat2Z.inj_succ in Hrec. lia. }
    subst l.
    cbn [fold_left]. split; [|auto]. intros p. rewrite Hfs1. reflexivity.
  - apply Z.eqb_neq in E. destruct (opens (page_path dir t)) eqn:Eo.
    + assert (Hc1 : pg_fs st1 (page_path dir t)
                    = Some (Payment_ToString v ++ str newline)%string).
      { rewrite Hfs1, String.eqb_refl. reflexivity. }
      destruct (fill_page opens dir records (page_path dir t) l st1 _
                  ltac:(lia) ltac:(lia) ltac:(lia) Hf1 Hc1) as (Hfs & Hcnt).
      split.
      * intros p. rewrite Hfs, Hfs1. cbn [andb].
        destruct (String.eqb p (page_path dir t)); [|reflexivity].
        rewrite line_app. reflexivity.
      * intros Hfull. rewrite Ht1, Hk1 in Hcnt. apply Hcnt; [|lia].
        intros ->. simpl in Hfull. lia.
    + destruct (skip_page opens dir records l st1
                  ltac:(lia) ltac:(lia) ltac:(lia) Hf1) as (Hfs & Hcnt).
      split.
      * intros p. rewrite Hfs, Hfs1. reflexivity.
      * intros Hfull. rewrite Ht1, Hk1 in Hcnt. apply Hcnt; [|lia].
        intros ->. simpl in Hfull. lia.
Qed.

(** X19.  [HistoryToFiles] does not check the page size: with [records <= 0]
    it returns [nil] as ever, and every payment goes to the first page,
    [payments1.dump], when that file can be opened; when it cannot, the
    error is dropped and nothing is written.  No other file is touched. *)
Theorem HistoryToFiles_without_page_size (opens : string -> bool)
  (payments : list Payment) (dir : string) (records : Z) (fs : Files) :
  payments <> [] ->
  records <= 0 ->
  Z.of_nat (List.length payments) <= max_int64 ->
  forall p,
    HistoryToFiles opens payments dir records fs p =
    if opens (page_path dir 1) && String.eqb p (page_path dir 1)
    then Some (dump Payment_ToString payments)
    else fs p.
Proof.
  intros Hne Hrec Hmax p. destruct payments as [|v l]; [congruence|].
  unfold HistoryToFiles. cbn [List.length Nat.ltb Nat.leb] in *.
  rewrite Nat2Z.inj_succ in *.
  destruct (Z.succ (Z.of_nat (List.length l)) <=? records) eqn:E;
    [apply Z.leb_le in E; lia|].
  apply (open_page opens dir records 1 None fs v l); lia.
Qed.

Lemma HistoryToFiles_without_page_size_witness :
  HistoryToFiles data_is_there twelve_payments "data" 0 no_Files (page_path "data" 1)
  = if data_is_there (page_path "data" 1)
       && String.eqb (page_path "data" 1) (page_path "data" 1)
    then Some (dump Payment_ToString twelve_payments)
    else no_Files (page_path "data" 1).
Proof.
  apply (HistoryToFiles_without_page_size data_is_there twelve_payments "data" 0
           no_Files).
  - discriminate.
  - lia.
  - vm_compute. discriminate.
Defined.

Lemma paged_nil (opens : string -> bool) (fuel R : nat) (dir : string) (t : Z)
  (fs : Files) :
  paged opens fuel R dir [] t fs = fs.
Proof. destruct fuel; reflexivity. Qed.

Lemma paged_ext (opens : string -> bool) (fuel R : nat) (dir : string) :
  forall l t fs fs',
    (forall p, fs p = fs' p) ->
    forall p, paged opens fuel R dir l t fs p = paged opens fuel R dir l t fs' p.
Proof.
  induction fuel as [|f IH]; intros l t fs fs' H p; [apply H|].
  destruct l as [|v l]; [apply H|]. cbn [paged].
  apply IH. intros q. rewrite H. reflexivity.
Qed.

(** The paging loop writes the pages of [paged]. *)
Lemma paging_loop (opens : string -> bool) (dir : string) (records : Z)
  (fuel : nat) :
  0 < records ->
  forall l t file fs,
    (List.length l <= fuel)%nat ->
    0 <= t -> t + Z.of_nat (List.length l) <= max_int64 ->
    forall p,
      pg_fs (fold_left (HistoryToFiles_step opens dir records) l
               (mkPager 0 t file fs)) p
      = paged opens fuel (Z.to_nat records) dir l t fs p.
Proof.
  intros Hrec. induction fuel as [|f IH]; intros l t file fs Hlen Ht Hmax p.
  - destruct l; [reflexivity|simpl in Hlen; lia].
  - destruct l as [|v l]; [reflexivity|].
    cbn [paged]. set (R := Z.to_nat records).
    assert (HR : (0 < R)%nat) by (unfold R; lia).
    rewrite <- (firstn_skipn R (v :: l)) at 1. rewrite fold_left_app.
    destruct R as [|R'] eqn:ER; [lia|]. rewrite <- ER in *.
    assert (Hchunk : firstn R (v :: l) = v :: firstn R' l) by (rewrite ER; reflexivity).
    assert (Hcl : (List.length (firstn R' l) <= R')%nat) by apply firstn_le_length.
    cbn [List.length] in Hmax, Hlen. rewrite Nat2Z.inj_succ in Hmax.
    assert (Hll : (List.length (firstn R' l) <= List.length l)%nat).
    { rewrite length_firstn. lia. }
    destruct (open_page opens dir records t file fs v (firstn R' l)
                ltac:(lia) ltac:(lia))
      as (Hfs & Hcnt).
    rewrite Hchunk at 1.
    set (st1 := fold_left (HistoryToFiles_step opens dir records) (v :: firstn R' l)
                  (mkPager 0 t file fs)) in *.
    destruct (Nat.le_gt_cases R (List.length (v :: l))) as [Hfull|Hpart].
    + assert (Hl1 : List.length (firstn R' l) = R').
      { rewrite length_firstn. cbn [List.length] in Hfull. lia. }
      destruct (Hcnt ltac:(lia)) as (Hk1 & Ht1).
      rewrite wrap64_small in Ht1 by lia.
      destruct st1 as [k1 t1 file1 fs1]. cbn [pg_k pg_t pg_fs] in *. subst k1 t1.
      rewrite (IH (skipn R (v :: l)) (t + 1) file1 fs1).
      * apply paged_ext. intros q. rewrite Hfs, Hchunk. reflexivity.
      * rewrite length_skipn. cbn [List.length]. lia.
      * lia.
      * rewrite length_skipn. cbn [List.length]. lia.
    + rewrite (skipn_all2 (v :: l)) by lia. cbn [fold_left].
      rewrite paged_nil, Hfs, Hchunk. reflexivity.
Qed.

(** X20.  With a page size that is positive and smaller than the number of
    payments, [HistoryToFiles] writes the payments [records] to a file, in
    order, to [payments1.dump], [payments2.dump] and so on, the last file
    taking what is left; the payments of a file that cannot be opened are
    dropped without an error.  No other file is touched. *)
Theorem HistoryToFiles_pages (opens : string -> bool) (payments : list Payment)
  (dir : string) (records : Z) (fs : Files) :
  0 < records ->
  records < Z.of_nat (List.length payments) ->
  Z.of_nat (List.length payments) < max_int64 ->
  forall p,
    HistoryToFiles opens payments dir records fs p =
    paged opens (List.length payments) (Z.to_nat records) dir payments 1 fs p.
Proof.
  intros Hrec Hlen Hmax p. unfold HistoryToFiles.
  destruct (0 <? List.length payments)%nat eqn:E0;
    [|apply Nat.ltb_ge in E0; lia].
  destruct (Z.of_nat (List.length payments) <=? records) eqn:E;
    [apply Z.leb_le in E; lia|].
  apply paging_loop; try lia.
Qed.

(** ** The names of the pages *)

Lemma string_length_app (a b : string) :
  String.length (a ++ b)%string = (String.length a + String.length b)%nat.
Proof.
  induction a as [|x a IH]; simpl; [reflexivity|]. rewrite IH. reflexivity.
Qed.

Lemma string_app_inv_head (a b c : string) : (a ++ b = a ++ c)%string -> b = c.
Proof.
  induction a as [|x a IH]; simpl; [auto|]. intros [= H]. auto.
Qed.

Lemma string_app_inv_tail (c : string) : forall a b, (a ++ c = b ++ c)%string -> a = b.
Proof.
  induction a as [|x a IH]; intros [|y b] H; simpl in H.
  - reflexivity.
  - apply (f_equal String.length) in H. simpl in H.
    rewrite string_length_app in H. lia.
  - apply (f_equal String.length) in H. simpl in H.
    rewrite string_length_app in H. lia.
  - injection H as -> H. rewrite (IH b H). reflexivity.
Qed.

Lemma Itoa_inj (a b : Z) : in_int64 a -> in_int64 b -> Itoa a = Itoa b -> a = b.
Proof.
  intros Ha Hb E. rewrite <- (Atoi_Itoa a Ha), <- (Atoi_Itoa b Hb), E. reflexivity.
Qed.

Lemma page_path_inj (dir : string) (a b : Z) :
  in_int64 a -> in_int64 b -> page_path dir a = page_path dir b -> a = b.
Proof.
  intros Ha Hb E. unfold page_path in E.
  apply string_app_inv_head in E. apply string_app_inv_head in E.
  apply string_app_inv_tail in E. apply (Itoa_inj a b Ha Hb E).
Qed.

Lemma paged_untouched (opens : string -> bool) (R : nat) (dir : string) (fuel : nat) :
  forall l t fs p,
    (forall i, (i < fuel)%nat -> p <> page_path dir (t + Z.of_nat i)) ->
    paged opens fuel R dir l t fs p = fs p.
Proof.
  induction fuel as [|f IH]; intros l t fs p H; [reflexivity|].
  destruct l as [|v l]; [reflexivity|]. cbn [paged]. rewrite IH.
  - destruct (String.eqb p (page_path dir t)) eqn:E;
      [|rewrite andb_false_r; reflexivity].
    apply String.eqb_eq in E. exfalso. apply (H O ltac:(lia)).
    rewrite Z.add_0_r. exact E.
  - intros i Hi. replace (t + 1 + Z.of_nat i) with (t + Z.of_nat (S i)) by lia.
    apply H. lia.
Qed.

Lemma paged_page (opens : string -> bool) (R : nat) (dir : string) (fuel : nat) :
  (0 < R)%nat ->
  forall l t j fs,
    (List.length l <= fuel)%nat ->
    0 <= t -> t + Z.of_nat fuel <= max_int64 ->
    (j * R < List.length l)%nat ->
    opens (page_path dir (t + Z.of_nat j)) = true ->
    paged opens fuel R dir l t fs (page_path dir (t + Z.of_nat j))
    = Some (dump Payment_ToString (firstn R (skipn (j * R) l))).
Proof.
  intros HR. induction fuel as [|f IH]; intros l t j fs Hlen Ht Hmax Hj Ho.
  - destruct l; simpl in *; lia.
  - destruct l as [|v l]; [simpl in Hj; lia|]. cbn [paged].
    destruct j as [|j].
    + rewrite paged_untouched.
      * rewrite Z.add_0_r in *. rewrite Ho, String.eqb_refl. reflexivity.
      * intros i Hi E. apply page_path_inj in E;
          unfold in_int64, min_int64 in *; lia.
    + replace (t + Z.of_nat (S j)) with (t + 1 + Z.of_nat j) in * by lia.
      rewrite IH.
      * rewrite skipn_skipn. replace (j * R + R)%nat with (S j * R)%nat by lia.
        reflexivity.
      * rewrite length_skipn. lia.
      * lia.
      * lia.
      * rewrite length_skipn. lia.
      * exact Ho.
Qed.

(** X21.  The page number [j + 1], when it can be opened, holds the payments
    from [j * records] on, [records] of them or what is left, one line each,
    and nothing else. *)
Theorem HistoryToFiles_page_contents (opens : string -> bool)
  (payments : list Payment) (dir : string) (records : Z) (fs : Files) (j : nat) :
  0 < records ->
  records < Z.of_nat (List.length payments) ->
  Z.of_nat (List.length payments) < max_int64 ->
  (j * Z.to_nat records < List.length payments)%nat ->
  opens (page_path dir (1 + Z.of_nat j)) = true ->
  HistoryToFiles opens payments dir records fs (page_path dir (1 + Z.of_nat j))
  = Some (dump Payment_ToString
            (firstn (Z.to_nat records) (skipn (j * Z.to_nat records) payments))).
Proof.
  intros Hrec Hlen Hmax Hj Ho. unfold HistoryToFiles.
  destruct (0 <? List.length payments)%nat eqn:E0;
    [|apply Nat.ltb_ge in E0; lia].
  destruct (Z.of_nat (List.length payments) <=? records) eqn:E;
    [apply Z.leb_le in E; lia|].
  rewrite (paging_loop opens dir records (List.length payments) Hrec) by lia.
  apply paged_page; try lia. exact Ho.
Qed.

Lemma HistoryToFiles_page_contents_witness :
  HistoryToFiles data_is_there twelve_payments "data" 5 no_Files
    (page_path "data" (1 + Z.of_nat 2))
  = Some (dump Payment_ToString
            (firstn (Z.to_nat 5) (skipn (2 * Z.to_nat 5) twelve_payments))).
Proof.
  apply (HistoryToFiles_page_contents data_is_there twelve_payments "data" 5
           no_Files 2).
  - lia.
  - vm_compute. reflexivity.
  - vm_compute. reflexivity.
  - vm_compute. lia.
  - vm_compute. reflexivity.
Defined.

Lemma HistoryToFiles_pages_witness :
  HistoryToFiles data_is_there twelve_payments "data" 5 no_Files (page_path "data" 3)
  = paged data_is_there (List.length twelve_payments) (Z.to_nat 5) "data"
      twelve_payments 1 no_Files (page_path "data" 3).
Proof.
  apply (HistoryToFiles_pages data_is_there twelve_payments "data" 5 no_Files).
  - lia.
  - vm_compute. reflexivity.
  - vm_compute. reflexivity.
Defined.

(** The step of the paging loop when no file can be opened: the handle
    stays [nil] and the files are as they were. *)
Lemma step_closed (opens : string -> bool) (dir : string) (records : Z) (st : pager)
  (v : Payment) :
  (forall path, opens path = false) -> pg_file st = None ->
  pg_file (HistoryToFiles_step opens dir records st v) = None /\
  pg_fs (HistoryToFiles_step opens dir records st v) = pg_fs st.
Proof.
  intros Hno Hfile. unfold HistoryToFiles_step, OpenFile. rewrite Hno, Hfile.
  destruct (pg_k st =? 0); cbn [fst snd WriteString];
    destruct (_ =? records); split; reflexivity.
Qed.

Lemma loop_closed (opens : string -> bool) (dir : string) (records : Z)
  (l : list Payment) :
  (forall path, opens path = false) ->
  forall st, pg_file st = None ->
    pg_fs (fold_left (HistoryToFiles_step opens dir records) l st) = pg_fs st.
Proof.
  intros Hno. induction l as [|v l IH]; intros st Hfile; [reflexivity|].
  cbn [fold_left].
  destruct (step_closed opens dir records st v Hno Hfile) as (Hf & Hfs).
  rewrite (IH _ Hf). exact Hfs.
Qed.

(** X22.  When no file can be opened, as when the directory is missing,
    [HistoryToFiles] writes nothing, whatever the payments and the page
    size: every call of [os.OpenFile] fails, the error is dropped, the
    lines go to the [nil] handle, and [nil] is returned. *)
Theorem HistoryToFiles_writes_nothing_when_nothing_opens (opens : string -> bool)
  (payments : list Payment) (dir : string) (records : Z) (fs : Files) :
  (forall path, opens path = false) ->
  HistoryToFiles opens payments dir records fs = fs.
Proof.
  intros Hno. unfold HistoryToFiles, OpenFile. rewrite Hno. cbn [fst snd WriteString].
  destruct (0 <? List.length payments)%nat; [|reflexivity].
  destruct (_ <=? records); [reflexivity|].
  apply (loop_closed opens dir records payments Hno (mkPager 0 1 None fs) eq_refl).
Qed.

Lemma HistoryToFiles_writes_nothing_when_nothing_opens_witness :
  HistoryToFiles (fun _ => false) twelve_payments "nodir" 5 no_Files = no_Files.
Proof.
  apply (HistoryToFiles_writes_nothing_when_nothing_opens (fun _ => false)
           twelve_payments "nodir" 5 no_Files).
  reflexivity.
Defined.

(** ** More on Import and ImportFromFile *)

(** X15.  A line of [accounts.dump] whose identifier is in the store does not
    add an account: [Import] overwrites the phone and the balance of the
    first account that has the identifier, with whatever the line holds,
    and leaves the counter and everything else as it was. *)
Theorem Import_overwrites_known_account (uuid : nat -> string) (s : Service)
  (a : Account) (i : nat) :
  exportable_Account a ->
  first_index (has_acc_ID (acc_ID a)) (elems (accounts s)) = Some i ->
  Import uuid s (mkDir (Some (Account_ToString a ++ str newline)%string) None None)
  = Returns
      (set_accounts s
         (upd_slice i (fun fw => mkAccount (acc_ID fw) (acc_Phone a) (acc_Balance a))
            (accounts s))).
Proof.
  intros Ha Hi. unfold Import. cbn [accounts_dump payments_dump favorites_dump read].
  assert (Hnil : is_nil (accounts s) = false).
  { destruct (accounts s); [reflexivity|discriminate Hi]. }
  rewrite Hnil.
  change (Account_ToString a ++ str newline)%string
    with (Account_ToString a ++ String newline EmptyString)%string.
  rewrite Split_app by (destruct Ha as (_ & _ & H); apply Account_ToString_newline, H).
  change (Split newline EmptyString) with [EmptyString].
  cbn [for_each]. rewrite (import_account_line s a Ha). unfold FindAccountByID.
  rewrite Hi.
  set (s1 := set_accounts s _).
  change (import_account s1 EmptyString) with (Returns s1). cbn [bind].
  destruct s1 as [n [acs|] [ps|] [fs|]]; reflexivity.
Qed.

Lemma Import_overwrites_known_account_witness :
  Import (fun _ => "g") demo_funded
    (mkDir (Some (Account_ToString (mkAccount 1 "+992000000009" (-5)) ++ str newline)%string)
       None None)
  = Returns
      (set_accounts demo_funded
         (upd_slice 0
            (fun fw => mkAccount (acc_ID fw)
                         (acc_Phone (mkAccount 1 "+992000000009" (-5)))
                         (acc_Balance (mkAccount 1 "+992000000009" (-5))))
            (accounts demo_funded))).
Proof.
  apply (Import_overwrites_known_account (fun _ => "g") demo_funded
           (mkAccount 1 "+992000000009" (-5)) 0).
  - repeat split; simpl; try (apply in_int64_small; lia).
  - rewrite demo_funded_eq. reflexivity.
Defined.

(** X17.  The store that wrote a file with [ExportToFile] cannot read it back:
    [ImportFromFile] fails with [ErrPhoneRegistered] at the first account
    and changes nothing. *)
Theorem ImportFromFile_into_exporting_store (s : Service) :
  elems (accounts s) <> [] ->
  Forall (fun a => plain (acc_Phone a) = true /\ free_of pipe (acc_Phone a) = true)
    (elems (accounts s)) ->
  ImportFromFile s (Some (ExportToFile s))
  = Returns (s, Some (Sentinel ErrPhoneRegistered)).
Proof.
  intros Hne Hl. unfold ImportFromFile, ExportToFile.
  rewrite Split_builder.
  2:{ revert Hl. apply Forall_impl. intros a (_ & H). apply Account_ToString_pipe, H. }
  destruct (elems (accounts s)) as [|a l] eqn:E; [congruence|].
  inversion Hl as [|a' l' (Hplain & _) _]; subst.
  cbn [map app ImportFromFile_loop].
  rewrite (Split_Account_ToString a Hplain).
  cbn [List.length Nat.ltb Nat.leb field nth].
  unfold RegisterAccount. rewrite E. cbn [existsb].
  rewrite String.eqb_refl. reflexivity.
Qed.

Lemma ImportFromFile_into_exporting_store_witness :
  ImportFromFile demo_funded (Some (ExportToFile demo_funded))
  = Returns (demo_funded, Some (Sentinel ErrPhoneRegistered)).
Proof.
  apply (ImportFromFile_into_exporting_store demo_funded).
  - rewrite demo_funded_eq. discriminate.
  - rewrite demo_funded_eq. simpl. repeat constructor.
Defined.

(** X18.  An account with balance [0], as [RegisterAccount] leaves it, does not
    pass through a file: [ImportFromFile] registers it and then fails with
    [ErrAmountMustBePositive], leaving it in the store, and reads no
    further. *)
Theorem ImportFromFile_stops_at_empty_account (s0 s : Service) (a : Account)
  (l : list Account) :
  elems (accounts s) = a :: l ->
  Forall (fun x => plain (acc_Phone x) = true /\ free_of pipe (acc_Phone x) = true)
    (a :: l) ->
  acc_Balance a = 0 ->
  existsb (fun x => String.eqb (acc_Phone x) (acc_Phone a)) (elems (accounts s0)) = false ->
  ImportFromFile s0 (Some (ExportToFile s))
  = Returns
      (mkService (wrap64 (nextAccountID s0 + 1))
         (append (accounts s0)
            (mkAccount (wrap64 (nextAccountID s0 + 1)) (acc_Phone a) 0))
         (payments s0) (favorites s0),
       Some (Sentinel ErrAmountMustBePositive)).
Proof.
  intros E Hl Hb Hnew. unfold ImportFromFile, ExportToFile. rewrite E.
  rewrite Split_builder.
  2:{ revert Hl. apply Forall_impl. intros x (_ & H). apply Account_ToString_pipe, H. }
  inversion Hl as [|a' l' (Hplain & _) _]; subst.
  cbn [map app ImportFromFile_loop].
  rewrite (Split_Account_ToString a Hplain).
  cbn [List.length Nat.ltb Nat.leb field nth nth_error].
  unfold RegisterAccount. rewrite Hnew, Hb.
  change (Atoi (Itoa 0)) with 0. reflexivity.
Qed.

Lemma ImportFromFile_stops_at_empty_account_witness :
  ImportFromFile made_Service (Some (ExportToFile test_export_full))
  = Returns
      (mkService (wrap64 (nextAccountID made_Service + 1))
         (append (accounts made_Service)
            (mkAccount (wrap64 (nextAccountID made_Service + 1))
               (acc_Phone (mkAccount 1 "+992928885522" 0)) 0))
         (payments made_Service) (favorites made_Service),
       Some (Sentinel ErrAmountMustBePositive)).
Proof.
  apply (ImportFromFile_stops_at_empty_account made_Service test_export_full
           (mkAccount 1 "+992928885522" 0)
           [mkAccount 2 "+992928000000" 0; mkAccount 3 "+992928811111" 0]).
  - vm_compute. reflexivity.
  - repeat constructor.
  - reflexivity.
  - reflexivity.
Defined.

(** ** Favorites along a run *)

(** X12.  The [FavoritePayment] of [pkg/wallet/service.go] and the one of the
    later file return the same and leave the same accounts, payments and
    favorites; the former also moves the account counter one up each time
    it makes a favorite, so that the next account skips an identifier. *)
Theorem FavoritePayment_of_both_files (uuid : string) (s : Service)
  (paymentID name : string) :
  snd (ServiceGo.FavoritePayment uuid s paymentID name)
  = snd (FavoritePayment uuid s paymentID name) /\
  accounts (fst (ServiceGo.FavoritePayment uuid s paymentID name))
  = accounts (fst (FavoritePayment uuid s paymentID name)) /\
  payments (fst (ServiceGo.FavoritePayment uuid s paymentID name))
  = payments (fst (FavoritePayment uuid s paymentID name)) /\
  favorites (fst (ServiceGo.FavoritePayment uuid s paymentID name))
  = favorites (fst (FavoritePayment uuid s paymentID name)) /\
  nextAccountID (fst (FavoritePayment uuid s paymentID name)) = nextAccountID s /\
  nextAccountID (fst (ServiceGo.FavoritePayment uuid s paymentID name))
  = match snd (FavoritePayment uuid s paymentID name) with
    | Ok _ => wrap64 (nextAccountID s + 1)
    | Err _ => nextAccountID s
    end.
Proof.
  unfold ServiceGo.FavoritePayment, FavoritePayment.
  destruct (existsb _ _); [repeat split|].
  destruct (FindPaymentByID _ _); [|repeat split].
  destruct (nth_error _ _); repeat split.
Qed.

Lemma Pay_favorites (uuid : string) (s : Service) (accountID : Z) (amount : Money)
  (category : PaymentCategory) :
  favorites (fst (Pay uuid s accountID amount category)) = favorites s.
Proof.
  unfold Pay. destruct (amount <=? 0); [reflexivity|].
  destruct (last_index _ _) as [i|]; [|reflexivity].
  destruct (nth_error _ i) as [account|]; [|reflexivity].
  destruct (_ <? _); reflexivity.
Qed.

Lemma Repeat_favorites (uuid : string) (s : Service) (paymentID : string) :
  favorites (fst (Repeat uuid s paymentID)) = favorites s.
Proof.
  unfold Repeat. destruct (FindPaymentByID _ _); [|reflexivity].
  destruct (nth_error _ _); [apply Pay_favorites|reflexivity].
Qed.

(** A call of the ledger core leaves the favorites as they are or appends
    one under a name that no favorite had. *)
Lemma ledger_step_favorites (s : Service) (o : ledger_op) :
  favorites (ledger_step s o) = favorites s \/
  exists favorite,
    ~ In (fav_Name favorite) (map fav_Name (elems (favorites s))) /\
    elems (favorites (ledger_step s o)) = elems (favorites s) ++ [favorite].
Proof.
  assert (Hname : forall name,
             existsb (fun f => String.eqb (fav_Name f) name) (elems (favorites s)) = false ->
             ~ In name (map fav_Name (elems (favorites s)))).
  { intros name E Hin. apply in_map_iff in Hin. destruct Hin as (f & Hf & Hin).
    assert (Hex : existsb (fun f0 => String.eqb (fav_Name f0) name)
                    (elems (favorites s)) = true).
    { apply existsb_exists. exists f. split; [assumption|].
      apply String.eqb_eq. exact Hf. }
    congruence. }
  destruct o as [phone|accountID amount|uuid accountID amount category|paymentID
                |uuid paymentID|uuid paymentID name|uuid favoriteID
                |uuid paymentID name|uuid favoriteID]; simpl.
  - left. unfold RegisterAccount. destruct (existsb _ _); reflexivity.
  - left. unfold Deposit. destruct (amount <=? 0); [reflexivity|].
    destruct (last_index _ _); reflexivity.
  - left. apply Pay_favorites.
  - left. unfold Reject. destruct (FindPaymentByID _ _); [|reflexivity].
    destruct (nth_error _ _); [|reflexivity].
    destruct (FindAccountByID _ _); reflexivity.
  - left. apply Repeat_favorites.
  - unfold FavoritePayment. destruct (existsb _ _) eqn:E; [left; reflexivity|].
    destruct (FindPaymentByID _ _); [|left; reflexivity].
    destruct (nth_error _ _) as [payment|]; [|left; reflexivity].
    right. eexists. split; [|reflexivity]. apply Hname, E.
  - left. unfold PayFromFavorite. destruct (FindFavoriteByID _ _); [|reflexivity].
    destruct (nth_error _ _); [apply Pay_favorites|reflexivity].
  - unfold ServiceGo.FavoritePayment. destruct (existsb _ _) eqn:E; [left; reflexivity|].
    destruct (FindPaymentByID _ _); [|left; reflexivity].
    destruct (nth_error _ _) as [payment|]; [|left; reflexivity].
    right. eexists. split; [|reflexivity]. apply Hname, E.
  - left. unfold ServiceGo.PayFromFavorite.
    destruct (FindFavoriteByID _ _); [|reflexivity].
    destruct (nth_error _ _); [apply Repeat_favorites|reflexivity].
Qed.

Lemma favorite_names_run (ops : list ledger_op) : forall s total,
  NoDup (map fav_Name (elems (favorites s))) ->
  NoDup (map fav_Name (elems (favorites (fst (run_ledger ops s total))))).
Proof.
  induction ops as [|o rest IH]; intros s total H; [exact H|].
  cbn [run_ledger]. apply IH.
  destruct (ledger_step_favorites s o) as [->|(favorite & Hnew & ->)]; [exact H|].
  rewrite map_app. apply NoDup_app; [assumption|repeat constructor; intros []|].
  intros x Hx [<-|[]]. exact (Hnew Hx).
Qed.

(** X11.  Along every run of calls of the ledger core from an empty store no
    two favorites share a name. *)
Theorem ledger_run_keeps_favorite_names_apart (ops : list ledger_op) (s : Service) :
  empty_store s ->
  NoDup (map fav_Name (elems (favorites (fst (run_ledger ops s 0))))).
Proof.
  intros (_ & _ & _ & Hf). apply favorite_names_run. rewrite Hf. constructor.
Qed.

Lemma ledger_run_keeps_favorite_names_apart_witness :
  NoDup (map fav_Name (elems (favorites (fst (run_ledger favorite_twice zero_Service 0))))).
Proof.
  apply (ledger_run_keeps_favorite_names_apart favorite_twice zero_Service).
  repeat split.
Defined.
